(** * Usage-quota blocking engine: a shallow embedding

    The development follows the Python sources of the repository:

    - [Controller]    : [bedrock-realtime-usage-controller/lambda_function.py]
    - [DailyReset]    : [bedrock_daily_reset.py]
    - [PolicyManager] : [bedrock_policy_manager_enhanced.py]

    Stateful code is written in a state-and-exception monad over an explicit
    record of the stores the code talks to (MySQL tables, IAM inline
    policies, outgoing mail).  Everything the code only reads from its
    surroundings (the clock, IAM tags, the answers of library calls, which
    external calls fail) is gathered in an environment record. *)

From Stdlib Require Import ZArith String Ascii List Bool Lia.
From stdpp Require Import base option gmap strings list fin_maps.

Local Open Scope string_scope.
Local Open Scope Z_scope.

(* ===================================================================== *)
(** ** Python values used throughout *)
(* ===================================================================== *)

Module Py.

(** Truthiness of an optional string: [None] and [''] are falsy. *)
Definition truthy (o : option string) : bool :=
  match o with
  | Some s => negb (String.eqb s "")
  | None => false
  end.

(** [s == t] on optional strings ([None] only equals [None]). *)
Definition opt_eqb (o : option string) (t : string) : bool :=
  match o with
  | Some s => String.eqb s t
  | None => false
  end.

Definition lower_ascii (c : ascii) : ascii :=
  let n := nat_of_ascii c in
  if (Nat.leb 65 n && Nat.leb n 90)%bool then ascii_of_nat (n + 32) else c.

(** [str.lower()] on ASCII text. *)
Fixpoint lower (s : string) : string :=
  match s with
  | EmptyString => EmptyString
  | String c r => String (lower_ascii c) (lower r)
  end.

(** [s.startswith(p)] *)
Definition startswith (p s : string) : bool := String.prefix p s.

(** [dict.get(k)] on a list of key/value pairs, first binding wins. *)
Fixpoint assoc {A} (k : string) (l : list (string * A)) : option A :=
  match l with
  | [] => None
  | (k', v) :: r => if String.eqb k k' then Some v else assoc k r
  end.

End Py.

(* ===================================================================== *)
(** ** Dates and times

    A [datetime] is kept by its fields, the date as a proleptic Gregorian
    ordinal ([date.toordinal()]), so that [+ timedelta(days=n)] and
    [replace(hour=0, ...)] act on the fields exactly as in Python: the
    arithmetic is on the wall clock and the attached UTC offset is carried
    along unchanged. *)
(* ===================================================================== *)

Module Time.

Record naive := mkNaive {
  day : Z;            (* ordinal of the date *)
  hour : Z;
  minute : Z;
  second : Z;
  microsecond : Z
}.

(** An aware datetime: wall-clock fields and the UTC offset (seconds) of
    the tzinfo attached to it. *)
Record aware := mkAware {
  wall : naive;
  utcoffset : Z
}.

Definition well_formed (n : naive) : Prop :=
  0 <= hour n < 24 /\ 0 <= minute n < 60 /\ 0 <= second n < 60 /\
  0 <= microsecond n < 1000000.

(** Microseconds on the wall clock since ordinal 0. *)
Definition micros (n : naive) : Z :=
  (((day n * 24 + hour n) * 60 + minute n) * 60 + second n) * 1000000
  + microsecond n.

Definition of_micros (m : Z) : naive :=
  {| day := m / 86400000000;
     hour := (m mod 86400000000) / 3600000000;
     minute := (m mod 3600000000) / 60000000;
     second := (m mod 60000000) / 1000000;
     microsecond := m mod 1000000 |}.

(** The UTC instant of an aware datetime, in microseconds. *)
Definition instant (a : aware) : Z := micros (wall a) - utcoffset a * 1000000.

(** Comparison of naive datetimes (and of MySQL DATETIME values). *)
Definition naive_leb (a b : naive) : bool := micros a <=? micros b.
Definition naive_ltb (a b : naive) : bool := micros a <? micros b.

(** Comparison of aware datetimes goes through UTC. *)
Definition aware_geb (a b : aware) : bool := instant b <=? instant a.

(** [dt + timedelta(days=n)] *)
Definition add_days (n : Z) (a : aware) : aware :=
  {| wall := {| day := day (wall a) + n; hour := hour (wall a);
                minute := minute (wall a); second := second (wall a);
                microsecond := microsecond (wall a) |};
     utcoffset := utcoffset a |}.

(** [dt + timedelta(hours=24)]: Python normalises 24 hours to one day. *)
Definition add_24_hours (a : aware) : aware := add_days 1 a.

(** [dt.replace(hour=0, minute=0, second=0, microsecond=0)] *)
Definition replace_midnight (a : aware) : aware :=
  {| wall := {| day := day (wall a); hour := 0; minute := 0; second := 0;
                microsecond := 0 |};
     utcoffset := utcoffset a |}.

(** [dt.strftime('%Y-%m-%d %H:%M:%S')], as the DATETIME value the string
    denotes: the offset and the microseconds are not printed. *)
Definition strftime (a : aware) : naive :=
  {| day := day (wall a); hour := hour (wall a); minute := minute (wall a);
     second := second (wall a); microsecond := 0 |}.

Definition is_midnight (n : naive) : Prop :=
  hour n = 0 /\ minute n = 0 /\ second n = 0 /\ microsecond n = 0.

(** [DATE(ts)] *)
Definition date_of (n : naive) : Z := day n.

(** *** The calendar, as in CPython's [datetime] ([_ymd2ord]) *)

Definition is_leap (y : Z) : bool :=
  ((y mod 4 =? 0) && (negb (y mod 100 =? 0) || (y mod 400 =? 0)))%bool.

Definition days_before_year (y : Z) : Z :=
  let y1 := y - 1 in y1 * 365 + y1 / 4 - y1 / 100 + y1 / 400.

Definition days_in_month (y m : Z) : Z :=
  if m =? 2 then (if is_leap y then 29 else 28)
  else if (m =? 4) || (m =? 6) || (m =? 9) || (m =? 11) then 30 else 31.

Fixpoint days_before_month_aux (y : Z) (k : nat) : Z :=
  match k with
  | O => 0
  | S k' => days_before_month_aux y k' + days_in_month y (Z.of_nat k)
  end.

Definition days_before_month (y m : Z) : Z :=
  days_before_month_aux y (Z.to_nat (m - 1)).

Definition ymd2ord (y m d : Z) : Z :=
  days_before_year y + days_before_month y m + d.

Definition valid_date (y m d : Z) : bool :=
  ((1 <=? y) && (y <=? 9999) && (1 <=? m) && (m <=? 12) && (1 <=? d)
   && (d <=? days_in_month y m))%bool.

(** A time zone as pytz presents it: the offset in force at a UTC instant
    ([astimezone], [datetime.now(tz)]) and the offset [tz.localize] gives
    to a wall-clock reading. *)
Record tzinfo := mkTz {
  offset_at_utc : Z -> Z;       (* UTC microseconds |-> offset seconds *)
  offset_at_wall : naive -> Z   (* wall clock |-> offset seconds *)
}.

(** [tz.localize(n)] *)
Definition localize (tz : tzinfo) (n : naive) : aware :=
  {| wall := n; utcoffset := offset_at_wall tz n |}.

(** [dt.astimezone(tz)] *)
Definition astimezone (tz : tzinfo) (a : aware) : aware :=
  let off := offset_at_utc tz (instant a) in
  {| wall := of_micros (instant a + off * 1000000); utcoffset := off |}.

(** A zone with one fixed offset, and a zone that moves from [before] to
    [after] at the UTC instant [switch] (a daylight-saving transition). *)
Definition fixed_zone (off : Z) : tzinfo :=
  {| offset_at_utc := fun _ => off; offset_at_wall := fun _ => off |}.

Definition switching_zone (switch before after : Z) : tzinfo :=
  {| offset_at_utc := fun u => if u <? switch then before else after;
     offset_at_wall := fun n =>
       if micros n - before * 1000000 <? switch then before else after |}.

End Time.

(* ===================================================================== *)
(** ** State and exceptions

    A computation reads and updates the stores and either returns a value
    or raises.  The stores keep every update made before the exception: the
    MySQL connection runs with [autocommit=True] and IAM has no
    transactions. *)
(* ===================================================================== *)

Inductive result (A : Type) : Type :=
| Ok (a : A)
| Raised.
Arguments Ok {A} a.
Arguments Raised {A}.

Definition M (S A : Type) : Type := S -> result A * S.

Definition ret {S A} (a : A) : M S A := fun s => (Ok a, s).

Definition bind {S A B} (m : M S A) (k : A -> M S B) : M S B :=
  fun s => match m s with
           | (Ok a, s') => k a s'
           | (Raised, s') => (Raised, s')
           end.

Definition raise {S A} : M S A := fun s => (Raised, s).

(** [try: m  except Exception: h] *)
Definition try_except {S A} (m : M S A) (h : M S A) : M S A :=
  fun s => match m s with
           | (Ok a, s') => (Ok a, s')
           | (Raised, s') => h s'
           end.

Definition gets {S A} (f : S -> A) : M S A := fun s => (Ok (f s), s).
Definition modify {S} (f : S -> S) : M S unit := fun s => (Ok tt, f s).

Declare Scope py_scope.
Delimit Scope py_scope with py.
Notation "x <- m ;; k" := (bind m (fun x => k))
  (at level 100, m at next level, right associativity) : py_scope.
Notation "m ;;; k" := (bind m (fun _ => k))
  (at level 100, right associativity) : py_scope.
Local Open Scope py_scope.

(** A computation that never lets an exception out. *)
Definition total {S A} (m : M S A) : Prop :=
  forall s, exists a s', m s = (Ok a, s').

(** [for x in xs: body x] *)
Fixpoint for_each {S A} (xs : list A) (body : A -> M S unit) : M S unit :=
  match xs with
  | [] => ret tt
  | x :: r => body x ;;; for_each r body
  end.

(* ===================================================================== *)
(** ** IAM policy documents *)
(* ===================================================================== *)

Module Policy.

(** One statement of a policy document.  [Sid] and [Effect] are read with
    [stmt.get(...)], so a missing key reads as [None]. *)
Record stmt := mkStmt {
  Sid : option string;
  Effect : option string;
  Action : list string;
  Resource : string
}.

Record document := mkDocument {
  Version : string;
  Statement : list stmt
}.

Definition DENY_STATEMENT_SID : string := "DailyLimitBlock".
Definition BEDROCK_POLICY_SUFFIX : string := "_BedrockPolicy".

(** [f"{user_id}_BedrockPolicy"] *)
Definition policy_name (user_id : string) : string :=
  user_id ++ BEDROCK_POLICY_SUFFIX.

(** [[s for s in stmts if s.get('Sid') != 'DailyLimitBlock']] *)
Definition strip_deny (l : list stmt) : list stmt :=
  List.filter (fun s => negb (Py.opt_eqb (Sid s) DENY_STATEMENT_SID)) l.

(** [any(s.get('Effect') == 'Allow' for s in stmts)] *)
Definition has_allow (l : list stmt) : bool :=
  existsb (fun s => Py.opt_eqb (Effect s) "Allow") l.

(** [[s for s in stmts if s.get('Sid') == 'DailyLimitBlock']] is non-empty *)
Definition has_deny_sid (l : list stmt) : bool :=
  existsb (fun s => Py.opt_eqb (Sid s) DENY_STATEMENT_SID) l.

Definition invoke_actions : list string :=
  ["bedrock:InvokeModel"; "bedrock:InvokeModelWithResponseStream"].

Definition all_actions : list string :=
  ["bedrock:InvokeModel"; "bedrock:InvokeModelWithResponseStream";
   "bedrock:Converse"; "bedrock:ConverseStream"].

End Policy.

(* ===================================================================== *)
(** ** The realtime usage controller ([lambda_function.py]) *)
(* ===================================================================== *)

Module Controller.

Import Policy.

(** *** Tables *)

(** A row of [user_blocking_status]. *)
Record BlockingRow := mkBlockingRow {
  is_blocked : string;                       (* 'Y' / 'N' *)
  blocked_reason : option string;
  blocked_at : option Time.naive;
  blocked_until : option Time.naive;         (* NULL = no expiration *)
  requests_at_blocking : Z;
  last_request_at : option Time.naive;
  last_reset_at : option Time.naive;
  bs_created_at : option Time.naive;
  bs_updated_at : option Time.naive
}.

(** A row of [user_limits]. *)
Record LimitsRow := mkLimitsRow {
  team : string;
  person : string;
  daily_request_limit : Z;
  monthly_request_limit : Z;
  administrative_safe : string;              (* 'Y' / 'N' *)
  ul_created_at : option Time.naive;
  ul_updated_at : option Time.naive
}.

(** A row of [bedrock_requests]; the columns that are only copied from the
    event (request id, source address, user agent, region, status) are not
    kept. *)
Record RequestRow := mkRequestRow {
  rq_user_id : string;
  rq_team : string;
  rq_person : string;
  rq_model_id : string;
  request_timestamp : Time.naive;
  rq_created_at : Time.naive
}.

(** A row of [blocking_audit_log] ([usage_percentage], a rounded float, is
    not kept). *)
Record AuditRow := mkAuditRow {
  au_user_id : string;
  operation_type : string;
  operation_reason : string;
  performed_by : string;
  operation_timestamp : Time.naive;
  daily_requests_at_operation : option Z;
  daily_limit_at_operation : option Z;
  iam_policy_updated : option string;
  email_sent : option string
}.

(** A message that left the system: through the e-mail Lambda or through
    Gmail SMTP. *)
Inductive channel := EmailService | Gmail.

Record Mail := mkMail {
  mail_channel : channel;
  mail_kind : string;         (* the action asked of the service / the subject *)
  mail_user : string
}.

(** The external calls the controller makes, one name per call site, so
    that each of them can fail on its own. *)
Inductive Op :=
| SelectBlockingStatus | UpsertBlockingStatus | UpdateBlockingStatus
| SelectUserLimits | InsertUserLimits | UpdateUserLimits
| SelectDailyUsage | SelectMonthlyUsage | InsertRequest | InsertAudit
| GetUserPolicy | PutUserPolicy | VerifyUserPolicy
| ListTeamTags | ListPersonTags | ListEmailTags | GetGroupsForUser
| InvokeEmailService | SmtpSend.

Definition Op_eqb (a b : Op) : bool :=
  match a, b with
  | SelectBlockingStatus, SelectBlockingStatus
  | UpsertBlockingStatus, UpsertBlockingStatus
  | UpdateBlockingStatus, UpdateBlockingStatus
  | SelectUserLimits, SelectUserLimits
  | InsertUserLimits, InsertUserLimits
  | UpdateUserLimits, UpdateUserLimits
  | SelectDailyUsage, SelectDailyUsage
  | SelectMonthlyUsage, SelectMonthlyUsage
  | InsertRequest, InsertRequest
  | InsertAudit, InsertAudit
  | GetUserPolicy, GetUserPolicy
  | PutUserPolicy, PutUserPolicy
  | VerifyUserPolicy, VerifyUserPolicy
  | ListTeamTags, ListTeamTags
  | ListPersonTags, ListPersonTags
  | ListEmailTags, ListEmailTags
  | GetGroupsForUser, GetGroupsForUser
  | InvokeEmailService, InvokeEmailService
  | SmtpSend, SmtpSend => true
  | _, _ => false
  end.

(** *** The stores *)

Record World := mkWorld {
  user_blocking_status : gmap string BlockingRow;
  user_limits : gmap string LimitsRow;
  bedrock_requests : list RequestRow;
  blocking_audit_log : list AuditRow;
  iam_policies : gmap (string * string) document;  (* (UserName, PolicyName) *)
  mailbox : list Mail;
  calls : list (Op * string)     (* every external call attempted, in order *)
}.

Definition set_user_blocking_status (f : gmap string BlockingRow -> gmap string BlockingRow)
  (w : World) : World :=
  mkWorld (f (user_blocking_status w)) (user_limits w) (bedrock_requests w)
          (blocking_audit_log w) (iam_policies w) (mailbox w) (calls w).

Definition set_user_limits (f : gmap string LimitsRow -> gmap string LimitsRow)
  (w : World) : World :=
  mkWorld (user_blocking_status w) (f (user_limits w)) (bedrock_requests w)
          (blocking_audit_log w) (iam_policies w) (mailbox w) (calls w).

Definition add_request (r : RequestRow) (w : World) : World :=
  mkWorld (user_blocking_status w) (user_limits w) (bedrock_requests w ++ [r])
          (blocking_audit_log w) (iam_policies w) (mailbox w) (calls w).

Definition add_audit (r : AuditRow) (w : World) : World :=
  mkWorld (user_blocking_status w) (user_limits w) (bedrock_requests w)
          (blocking_audit_log w ++ [r]) (iam_policies w) (mailbox w) (calls w).

Definition set_iam_policies
  (f : gmap (string * string) document -> gmap (string * string) document)
  (w : World) : World :=
  mkWorld (user_blocking_status w) (user_limits w) (bedrock_requests w)
          (blocking_audit_log w) (f (iam_policies w)) (mailbox w) (calls w).

Definition add_mail (m : Mail) (w : World) : World :=
  mkWorld (user_blocking_status w) (user_limits w) (bedrock_requests w)
          (blocking_audit_log w) (iam_policies w) (mailbox w ++ [m]) (calls w).

Definition log_call (c : Op * string) (w : World) : World :=
  mkWorld (user_blocking_status w) (user_limits w) (bedrock_requests w)
          (blocking_audit_log w) (iam_policies w) (mailbox w) (calls w ++ [c]).

(** Two worlds hold the same data: tables, policies and sent mail agree;
    only the record of attempted calls may differ. *)
Definition same_stores (w w' : World) : Prop :=
  user_blocking_status w' = user_blocking_status w /\
  user_limits w' = user_limits w /\
  bedrock_requests w' = bedrock_requests w /\
  blocking_audit_log w' = blocking_audit_log w /\
  iam_policies w' = iam_policies w /\
  mailbox w' = mailbox w.

(** *** The environment *)

Record Env := mkEnv {
  now : Time.aware;                           (* datetime.now(CET), read once per invocation *)
  CET : Time.tzinfo;                          (* pytz.timezone('Europe/Madrid') *)
  fromisoformat : string -> option Time.aware;(* datetime.fromisoformat, None = ValueError;
                                                 a reading without offset is given as UTC *)
  CURDATE : Z;                                (* MySQL CURDATE() *)
  month_start : Z;                            (* DATE_FORMAT(NOW(), '%Y-%m-01') *)
  user_tags : gmap string (list (string * string));  (* IAM tags, absent = no such user *)
  user_groups : gmap string (list string);
  EMAIL_NOTIFICATIONS_ENABLED : bool;
  email_service_status : Z;                   (* statusCode answered by the e-mail Lambda *)
  fails : Op -> bool                          (* which external calls raise *)
}.

(** *** Pure helpers *)

Fixpoint drop_prefix (p s : string) : option string :=
  match p, s with
  | EmptyString, _ => Some s
  | String a p', String b s' => if Ascii.eqb a b then drop_prefix p' s' else None
  | String _ _, EmptyString => None
  end.

Definition is_digit (c : ascii) : bool :=
  let n := nat_of_ascii c in (Nat.leb 48 n && Nat.leb n 57)%bool.

Fixpoint skip_while (p : ascii -> bool) (s : string) : string :=
  match s with
  | String c r => if p c then skip_while p r else s
  | EmptyString => EmptyString
  end.

(** A greedy [c+] for a character class [p]: what is left after it. *)
Definition plus_class (p : ascii -> bool) (s : string) : option string :=
  match s with
  | String c r => if p c then Some (skip_while p r) else None
  | EmptyString => None
  end.

Definition newline : ascii := ascii_of_nat 10.
Definition slash : ascii := ascii_of_nat 47.

Fixpoint until_newline (s : string) : string :=
  match s with
  | String c r => if Ascii.eqb c newline then EmptyString
                  else String c (until_newline r)
  | EmptyString => EmptyString
  end.

(** The group [(.+)]: greedy, stops at a newline, needs one character. *)
Definition dot_plus (s : string) : option string :=
  let g := until_newline s in
  if String.eqb g "" then None else Some g.

(** [arn:aws:iam::\d+:user/(.+)] matched at the start of [s]. *)
Definition match_iam_user (s : string) : option string :=
  r1 ← drop_prefix "arn:aws:iam::" s;
  r2 ← plus_class is_digit r1;
  r3 ← drop_prefix ":user/" r2;
  dot_plus r3.

(** [arn:aws:sts::\d+:assumed-role/[^/]+/(.+)] matched at the start of [s]. *)
Definition match_assumed_role (s : string) : option string :=
  r1 ← drop_prefix "arn:aws:sts::" s;
  r2 ← plus_class is_digit r1;
  r3 ← drop_prefix ":assumed-role/" r2;
  r4 ← plus_class (fun c => negb (Ascii.eqb c slash)) r3;
  r5 ← drop_prefix "/" r4;
  dot_plus r5.

(** [re.search]: the first position at which the pattern matches. *)
Fixpoint re_search (m : string -> option string) (s : string) : option string :=
  match m s with
  | Some g => Some g
  | None => match s with
            | String _ r => re_search m r
            | EmptyString => None
            end
  end.

Definition extract_user_from_arn (user_arn : string) : option string :=
  if String.eqb user_arn "" then None
  else match re_search match_iam_user user_arn with
       | Some u => Some u
       | None => re_search match_assumed_role user_arn
       end.

(** [for tag in Tags: if tag['Key'].lower() in names: return tag['Value']] *)
Fixpoint find_tag (names : list string) (tags : list (string * string)) : option string :=
  match tags with
  | [] => None
  | (k, v) :: r =>
      if existsb (String.eqb (Py.lower k)) names then Some v else find_tag names r
  end.

(** [s.replace('Z', '+00:00')] *)
Fixpoint replace_Z (s : string) : string :=
  match s with
  | EmptyString => EmptyString
  | String c r => if Ascii.eqb c "Z"%char then "+00:00" ++ replace_Z r
                  else String c (replace_Z r)
  end.

(** [s[:-1] if s.endswith('Z') else s] *)
Fixpoint strip_final_Z (s : string) : string :=
  match s with
  | EmptyString => EmptyString
  | String c EmptyString => if Ascii.eqb c "Z"%char then EmptyString else s
  | String c r => String c (strip_final_Z r)
  end.

(** The usage dictionary built by the evaluation (the two percentages,
    floats used only in messages, are not kept). *)
Record UsageInfo := mkUsageInfo {
  daily_requests_used : Z;
  monthly_requests_used : Z;
  daily_limit : Z;
  monthly_limit : Z;
  ui_administrative_safe : bool
}.

(** [SELECT COUNT ... WHERE user_id = %s AND DATE(request_timestamp) = CURDATE()] *)
Definition count_daily (today : Z) (uid : string) (rs : list RequestRow) : Z :=
  Z.of_nat (length (List.filter
    (fun r => (String.eqb (rq_user_id r) uid
               && (Time.date_of (request_timestamp r) =? today))%bool) rs)).

(** [SELECT COUNT ... WHERE user_id = %s AND DATE(request_timestamp) >= first of month] *)
Definition count_monthly (first : Z) (uid : string) (rs : list RequestRow) : Z :=
  Z.of_nat (length (List.filter
    (fun r => (String.eqb (rq_user_id r) uid
               && (first <=? Time.date_of (request_timestamp r)))%bool) rs)).

(** [INSERT ... ON DUPLICATE KEY UPDATE] on [user_blocking_status]: a new
    row gets every listed column, an existing one keeps [created_at] and
    [last_reset_at]. *)
Definition upsert_blocked (reason : string) (stamp : Time.naive)
  (until : option Time.naive) (used : Z) (old : option BlockingRow) : BlockingRow :=
  match old with
  | None =>
      mkBlockingRow "Y" (Some reason) (Some stamp) until used (Some stamp)
                    None (Some stamp) (Some stamp)
  | Some r =>
      mkBlockingRow "Y" (Some reason) (Some stamp) until used (Some stamp)
                    (last_reset_at r) (bs_created_at r) (Some stamp)
  end.

(** A CloudTrail record, as far as the controller reads it. *)
Record Event := mkEvent {
  userIdentity_arn : string;          (* detail.get('userIdentity', {}).get('arn', '') *)
  eventName : string;
  requestParameters : option string;  (* None: absent or null; Some m: its modelId, '' if absent *)
  eventTime : string
}.

Record RequestData := mkRequestData {
  rd_user_id : string;
  rd_model_id : string;
  rd_cet_timestamp : Time.naive
}.

Record Counters := mkCounters {
  processed_requests : Z;
  blocked_requests : Z;
  unblocked_requests : Z
}.

(** An administrative command; a key the event does not carry is [None]. *)
Record ApiEvent := mkApiEvent {
  action : option string;
  ev_user_id : option string;
  ev_reason : option string;
  ev_performed_by : option string;
  ev_expires_at : option string;
  ev_duration : option string
}.

(** The dictionary handed to [json.dumps]. *)
Inductive jvalue :=
| JStr (s : string)
| JBool (b : bool)
| JNum (z : Z)
| JTime (t : Time.naive)
| JNull.

Record Response := mkResponse {
  statusCode : Z;
  body : list (string * jvalue)
}.

(** What [get_mysql_connection()] comes to when the event handler asks for
    it: the pooled connection, or an exception when the database cannot be
    reached.  The loop of [handle_cloudtrail_event] swallows the failure of
    every single statement, so an unreachable database shows in its answer
    only through this call. *)
Inductive Connection := Connected | Unreachable.

Definition get_mysql_connection (connection : Connection) : M World unit :=
  match connection with
  | Connected => ret tt
  | Unreachable => raise
  end.

(** One entry of [log_data['logEvents']], by what the loop over the log
    events makes of it.  [Unparsable]: [json.loads(log_event['message'])]
    raises [JSONDecodeError] and the entry is skipped.  [Malformed]:
    handling the entry raises anything else (no ['message'] key, JSON that
    is no object, a Bedrock event whose [userIdentity] is no object), which
    fails the decoding as a whole.  [Message]: the entry parses to an
    event with that [eventSource]. *)
Inductive LogEvent :=
| Unparsable
| Malformed
| Message (eventSource : option string) (cloudtrail_event : Event).

(** One entry of [event['Records']]. *)
Inductive TrailRecord :=
| S3Delivery                 (* 's3' in record: skipped *)
| Delivered (detail : Event).  (* record.get('detail', record) *)

(** The event handed to [handle_cloudtrail_event], by the branch taken. *)
Inductive Envelope :=
| AwsLogs (log_data : option (list LogEvent))
                             (* 'awslogs' in event; None: base64, gzip or JSON decoding raises *)
| Detail (detail : Event)    (* 'detail' in event and 'Records' not in event *)
| Records (records : list TrailRecord).   (* event.get('Records', []) *)

(** The Bedrock events among the log events; [None] when an entry raises
    anything but [JSONDecodeError]. *)
Fixpoint bedrock_log_events (log_events : list LogEvent) : option (list Event) :=
  match log_events with
  | [] => Some []
  | Unparsable :: rest => bedrock_log_events rest
  | Malformed :: _ => None
  | Message eventSource cloudtrail_event :: rest =>
      found ← bedrock_log_events rest;
      Some (if Py.opt_eqb eventSource "bedrock.amazonaws.com"
            then cloudtrail_event :: found else found)
  end.

Fixpoint delivered_records (records : list TrailRecord) : list Event :=
  match records with
  | [] => []
  | S3Delivery :: rest => delivered_records rest
  | Delivered detail :: rest => detail :: delivered_records rest
  end.

(** The list [events_to_process] the envelope unpacks to; [None] when the
    CloudWatch Logs data cannot be decoded. *)
Definition events_to_process (event : Envelope) : option (list Event) :=
  match event with
  | AwsLogs log_data => log_data ≫= bedrock_log_events
  | Detail detail => Some [detail]
  | Records records => Some (delivered_records records)
  end.

Section WithEnv.

Variable env : Env.

(** An external call: it is recorded, and raises when the environment says
    so. *)
Definition call (o : Op) (uid : string) : M World unit :=
  fun w => let w' := log_call (o, uid) w in
           if fails env o then (Raised, w') else (Ok tt, w').

Definition get_current_cet_time : Time.aware := now env.

Definition get_cet_timestamp_string : Time.naive := Time.strftime (now env).

(** [iam.list_user_tags(UserName=user_id)['Tags']], made at call site [o] *)
Definition list_user_tags (o : Op) (user_id : string) : M World (list (string * string)) :=
  call o user_id ;;;
  match user_tags env !! user_id with
  | Some tags => ret tags
  | None => raise
  end.

Definition get_groups_for_user (user_id : string) : M World (list string) :=
  call GetGroupsForUser user_id ;;;
  match user_groups env !! user_id with
  | Some gs => ret gs
  | None => raise
  end.

Definition get_user_team (user_id : string) : M World string :=
  try_except
    (tags <- list_user_tags ListTeamTags user_id ;;
     match find_tag ["team"; "Team"] tags with
     | Some v => ret v
     | None =>
         g <- try_except
                (groups <- get_groups_for_user user_id ;;
                 ret (head (List.filter (Py.startswith "yo_leo_") groups)))
                (ret None) ;;
         match g with
         | Some t => ret t
         | None => ret "unknown"
         end
     end)
    (ret "unknown").

Definition get_user_person_tag (user_id : string) : M World string :=
  try_except
    (tags <- list_user_tags ListPersonTags user_id ;;
     match find_tag ["person"; "Person"] tags with
     | Some v => ret v
     | None => ret "Unknown"
     end)
    (ret "Unknown").

Definition get_user_email (user_id : string) : M World (option string) :=
  try_except
    (tags <- list_user_tags ListEmailTags user_id ;;
     ret (find_tag ["email"; "Email"] tags))
    (ret None).

Definition send_gmail_email (to_email subject user_id : string) : M World bool :=
  try_except
    (call SmtpSend user_id ;;;
     modify (add_mail (mkMail Gmail subject user_id)) ;;;
     ret true)
    (ret false).

Definition send_blocking_email_gmail (user_id : string) : M World bool :=
  try_except
    (user_email <- get_user_email user_id ;;
     if negb (Py.truthy user_email) then ret false
     else send_gmail_email (default "" user_email) "AWS Bedrock Access Blocked" user_id)
    (ret false).

Definition send_unblocking_email_gmail (user_id : string) : M World bool :=
  try_except
    (user_email <- get_user_email user_id ;;
     if negb (Py.truthy user_email) then ret false
     else send_gmail_email (default "" user_email) "AWS Bedrock Access Restored" user_id)
    (ret false).

(** [lambda_client.invoke(FunctionName=EMAIL_SERVICE_LAMBDA_NAME, ...)]:
    the status code of the answer; the service delivers when it answers 200. *)
Definition invoke_email_service (action user_id : string) : M World Z :=
  call InvokeEmailService user_id ;;;
  (if email_service_status env =? 200
   then modify (add_mail (mkMail EmailService action user_id))
   else ret tt) ;;;
  ret (email_service_status env).

Definition send_enhanced_blocking_email (user_id reason : string)
  (usage_info : UsageInfo) (performed_by : string) : M World bool :=
  try_except
    (let action := if negb (String.eqb performed_by "system")
                   then "send_admin_blocking_email" else "send_blocking_email" in
     if EMAIL_NOTIFICATIONS_ENABLED env then
       status <- invoke_email_service action user_id ;;
       if status =? 200 then ret true
       else send_blocking_email_gmail user_id
     else ret true)
    (send_blocking_email_gmail user_id).

Definition send_enhanced_unblocking_email (user_id reason performed_by : string)
  : M World bool :=
  try_except
    (let action := if (negb (String.eqb performed_by "system")
                       && negb (String.eqb performed_by "daily_reset"))%bool
                   then "send_admin_unblocking_email" else "send_unblocking_email" in
     if EMAIL_NOTIFICATIONS_ENABLED env then
       status <- invoke_email_service action user_id ;;
       if status =? 200 then ret true
       else send_unblocking_email_gmail user_id
     else ret true)
    (send_unblocking_email_gmail user_id).

(** *** IAM deny policy *)

Definition deny_statement : stmt :=
  mkStmt (Some "DailyLimitBlock") (Some "Deny") all_actions "*".

(** [iam.get_user_policy(...)['PolicyDocument']]; [None] stands for
    [NoSuchEntityException], any other failure raises. *)
Definition get_user_policy (o : Op) (user_id : string) : M World (option document) :=
  call o user_id ;;;
  gets (fun w => iam_policies w !! (user_id, policy_name user_id)).

Definition put_user_policy (user_id : string) (d : document) : M World unit :=
  call PutUserPolicy user_id ;;;
  modify (set_iam_policies (fun m => <[(user_id, policy_name user_id) := d]> m)).

(** The document [implement_iam_blocking] writes: the existing one with any
    statement of the same Sid removed and the deny statement inserted at
    index 0, or a new one (deny first, then allow) when the user has none. *)
Definition with_deny (found : option document) : document :=
  match found with
  | Some d => mkDocument (Version d) (deny_statement :: strip_deny (Statement d))
  | None =>
      mkDocument "2012-10-17"
        [deny_statement;
         mkStmt (Some "BedrockAccess") (Some "Allow") all_actions "*"]
  end.

(** The document [implement_iam_unblocking] writes: the deny statements
    removed, and an allow statement appended when none is left. *)
Definition without_deny (d : document) : document :=
  let kept := strip_deny (Statement d) in
  mkDocument (Version d)
    (if negb (has_allow kept)
     then (kept ++ [mkStmt (Some "BedrockAccess") (Some "Allow") invoke_actions "*"])%list
     else kept).

Definition implement_iam_blocking (user_id : string) : M World bool :=
  try_except
    (found <- get_user_policy GetUserPolicy user_id ;;
     put_user_policy user_id (with_deny found) ;;;
     try_except
       (applied <- get_user_policy VerifyUserPolicy user_id ;;
        match applied with
        | Some d => ret (has_deny_sid (Statement d))
        | None => raise
        end)
       (ret false))
    (ret false).

Definition implement_iam_unblocking (user_id : string) : M World bool :=
  try_except
    (found <- get_user_policy GetUserPolicy user_id ;;
     match found with
     | Some d => put_user_policy user_id (without_deny d) ;;; ret true
     | None => ret true
     end)
    (ret false).

(** *** Usage evaluation *)

Definition check_user_limits_with_protection (user_id : string)
  : M World (bool * option string * option UsageInfo) :=
  try_except
    (call SelectUserLimits user_id ;;;
     limits_result <- gets (fun w => user_limits w !! user_id) ;;
     let '(daily_limit, monthly_limit, administrative_safe) :=
       match limits_result with
       | None => (350, 5000, "N")
       | Some r => (daily_request_limit r, monthly_request_limit r, administrative_safe r)
       end in
     if String.eqb administrative_safe "Y" then
       ret (false, None, Some (mkUsageInfo 0 0 daily_limit monthly_limit true))
     else
       call SelectDailyUsage user_id ;;;
       daily_requests_used <- gets (fun w => count_daily (CURDATE env) user_id (bedrock_requests w)) ;;
       call SelectMonthlyUsage user_id ;;;
       monthly_requests_used <- gets (fun w => count_monthly (month_start env) user_id (bedrock_requests w)) ;;
       let '(should_block, block_reason) :=
         if daily_limit <=? daily_requests_used then (true, Some "Daily limit exceeded")
         else if monthly_limit <=? monthly_requests_used then (true, Some "Monthly limit exceeded")
         else (false, None) in
       ret (should_block, block_reason,
            Some (mkUsageInfo daily_requests_used monthly_requests_used
                              daily_limit monthly_limit false)))
    (ret (false, None, None)).

(** *** Automatic blocking and unblocking *)

(** The expiration of an automatic block:
    [(current_cet_time + timedelta(days=1)).replace(hour=0, minute=0, second=0, microsecond=0)] *)
Definition blocked_until_cet (current_cet_time : Time.aware) : Time.aware :=
  Time.replace_midnight (Time.add_days 1 current_cet_time).

Definition execute_user_blocking (user_id block_reason : string) (usage_info : UsageInfo)
  : M World bool :=
  try_except
    (let current_cet_string := get_cet_timestamp_string in
     let blocked_until_string := Time.strftime (blocked_until_cet get_current_cet_time) in
     (* 1. user_blocking_status *)
     db_success <- try_except
       (call UpsertBlockingStatus user_id ;;;
        modify (set_user_blocking_status (fun m =>
          <[user_id := upsert_blocked block_reason current_cet_string
                         (Some blocked_until_string)
                         (daily_requests_used usage_info) (m !! user_id)]> m)) ;;;
        ret true)
       (ret false) ;;
     if negb db_success then ret false else
     (* 3. IAM deny policy *)
     iam_success <- try_except (implement_iam_blocking user_id) (ret false) ;;
     (* 4. Gmail notification *)
     email_success <- try_except (send_blocking_email_gmail user_id) (ret false) ;;
     (* 2. blocking_audit_log, with the outcome of 3 and 4 *)
     try_except
       (call InsertAudit user_id ;;;
        modify (add_audit (mkAuditRow user_id "BLOCK" block_reason "system"
                  current_cet_string
                  (Some (daily_requests_used usage_info)) (Some (daily_limit usage_info))
                  (Some (if iam_success : bool then "Y" else "N"))
                  (Some (if email_success : bool then "Y" else "N")))))
       (ret tt) ;;;
     if negb iam_success then ret false else ret true)
    (ret false).

(** [UPDATE user_blocking_status SET ... WHERE user_id = %s] of the
    automatic unblock. *)
Definition unblock_row (stamp : Time.naive) (r : BlockingRow) : BlockingRow :=
  mkBlockingRow "N" (Some "Automatic unblock") None None (requests_at_blocking r)
                (Some stamp) (Some stamp) (bs_created_at r) (Some stamp).

Definition clear_protection (stamp : Time.naive) (r : LimitsRow) : LimitsRow :=
  mkLimitsRow (team r) (person r) (daily_request_limit r) (monthly_request_limit r)
              "N" (ul_created_at r) (Some stamp).

Definition execute_user_unblocking (user_id : string) : M World bool :=
  try_except
    (let current_cet_string := get_cet_timestamp_string in
     (* 1. user_blocking_status *)
     db_success <- try_except
       (call UpdateBlockingStatus user_id ;;;
        modify (set_user_blocking_status (alter (unblock_row current_cet_string) user_id)) ;;;
        ret true)
       (ret false) ;;
     if negb db_success then ret false else
     (* 1.5. administrative_safe = 'N' *)
     try_except
       (call UpdateUserLimits user_id ;;;
        modify (set_user_limits (alter (clear_protection current_cet_string) user_id)))
       (ret tt) ;;;
     (* 2. blocking_audit_log *)
     try_except
       (call InsertAudit user_id ;;;
        modify (add_audit (mkAuditRow user_id "UNBLOCK" "Automatic unblock" "system"
                  current_cet_string None None None None)))
       (ret tt) ;;;
     (* 3. IAM policy *)
     try_except (implement_iam_unblocking user_id ;;; ret tt) (ret tt) ;;;
     (* 4. notification *)
     try_except
       (send_enhanced_unblocking_email user_id "Automatic unblock" "system" ;;; ret tt)
       (ret tt) ;;;
     ret true)
    (ret false).

(** [blocked_until] comes back from MySQL as a naive datetime and is read as
    a CET wall-clock value ([CET.localize]). *)
Definition check_user_blocking_status (user_id : string) : M World (bool * option string) :=
  try_except
    (call SelectBlockingStatus user_id ;;;
     result <- gets (fun w => user_blocking_status w !! user_id) ;;
     match result with
     | None => ret (false, None)
     | Some r =>
         if negb (String.eqb (is_blocked r) "Y") then ret (false, None)
         else
           match blocked_until r with
           | Some until =>
               if Time.aware_geb get_current_cet_time (Time.localize (CET env) until)
               then
                 success <- execute_user_unblocking user_id ;;
                 if success then ret (false, Some "expired")
                 else ret (true, blocked_reason r)
               else ret (true, blocked_reason r)
           | None => ret (true, blocked_reason r)
           end
     end)
    (ret (false, None)).

(** *** CloudTrail events *)

Definition ensure_user_exists (user_id team person : string) : M World unit :=
  try_except
    (call SelectUserLimits user_id ;;;
     found <- gets (fun w => user_limits w !! user_id) ;;
     match found with
     | Some _ => ret tt
     | None =>
         call InsertUserLimits user_id ;;;
         modify (set_user_limits (fun m =>
           <[user_id := mkLimitsRow team person 350 5000 "N"
                          (Some get_cet_timestamp_string) None]> m))
     end)
    (ret tt).

Definition convert_utc_to_cet (utc_timestamp_str : string) : Time.naive :=
  match fromisoformat env (replace_Z (strip_final_Z utc_timestamp_str)) with
  | Some utc_dt => Time.strftime (Time.astimezone (CET env) utc_dt)
  | None => get_cet_timestamp_string
  end.

Definition parse_bedrock_event (event : Event) : option RequestData :=
  let cet_timestamp := convert_utc_to_cet (eventTime event) in
  match extract_user_from_arn (userIdentity_arn event) with
  | None => None
  | Some user_id =>
      match requestParameters event with
      | None => None
      | Some model_id =>
          if String.eqb model_id "" then None
          else Some (mkRequestData user_id model_id cet_timestamp)
      end
  end.

Definition log_bedrock_request_cet (request_data : RequestData) (team person : string)
  : M World unit :=
  try_except
    (call InsertRequest (rd_user_id request_data) ;;;
     modify (add_request (mkRequestRow (rd_user_id request_data) team person
               (rd_model_id request_data) (rd_cet_timestamp request_data)
               get_cet_timestamp_string)))
    (ret tt).

(** The body of the [for i, detail in enumerate(events_to_process)] loop;
    every [continue] returns the counters reached so far. *)
Definition process_event (detail : Event) (c : Counters) : M World Counters :=
  try_except
    (match extract_user_from_arn (userIdentity_arn detail) with
     | None => ret c
     | Some user_id =>
         team <- get_user_team user_id ;;
         person <- get_user_person_tag user_id ;;
         (* FILTER: both Person and Team unknown *)
         if (String.eqb team "unknown" && String.eqb person "Unknown")%bool then ret c
         else
           ensure_user_exists user_id team person ;;;
           status <- check_user_blocking_status user_id ;;
           let '(is_blocked, block_reason) := status in
           let expired := Py.opt_eqb block_reason "expired" in
           let c1 := if expired
                     then mkCounters (processed_requests c) (blocked_requests c)
                                     (unblocked_requests c + 1)
                     else c in
           if (negb expired && is_blocked)%bool then ret c1
           else
             match parse_bedrock_event detail with
             | None => ret c1
             | Some request_data =>
                 verdict <- check_user_limits_with_protection user_id ;;
                 let '(should_block, new_block_reason, usage_info) := verdict in
                 if should_block : bool then
                   match usage_info with
                   | Some ui =>
                       execute_user_blocking user_id (default "" new_block_reason) ui ;;;
                       ret tt
                   | None => ret tt
                   end ;;;
                   ret (mkCounters (processed_requests c1) (blocked_requests c1 + 1)
                                   (unblocked_requests c1))
                 else
                   log_bedrock_request_cet request_data team person ;;;
                   ret (mkCounters (processed_requests c1 + 1) (blocked_requests c1)
                                   (unblocked_requests c1))
             end
     end)
    (ret c).

Fixpoint process_events (events : list Event) (c : Counters) : M World Counters :=
  match events with
  | [] => ret c
  | detail :: rest => c' <- process_event detail c ;; process_events rest c'
  end.

(** [handle_cloudtrail_event]: the connection is obtained first, then the
    envelope is unpacked, then the events are processed.  A connection that
    cannot be obtained and CloudWatch Logs data that cannot be decoded are
    both answered 500 (the text of the exception is not kept). *)
Definition handle_cloudtrail_event (connection : Connection) (event : Envelope)
  : M World Response :=
  try_except
    (get_mysql_connection connection ;;;
     match events_to_process event with
     | None =>
         ret (mkResponse 500 [("error", JStr "Failed to decode CloudWatch Logs data")])
     | Some events =>
         c <- process_events events (mkCounters 0 0 0) ;;
         ret (mkResponse 200
                [("message", JStr "Successfully processed Bedrock requests with ENHANCED MERGED FUNCTIONALITY");
                 ("processed_requests", JNum (processed_requests c));
                 ("blocked_requests", JNum (blocked_requests c));
                 ("unblocked_requests", JNum (unblocked_requests c))])
     end)
    (ret (mkResponse 500 [("error", JStr "error");
                          ("message", JStr "Failed to process Bedrock requests")])).

(** *** Manual operations *)

Definition get_user_current_usage (user_id : string) : M World UsageInfo :=
  try_except
    (call SelectUserLimits user_id ;;;
     limits_result <- gets (fun w => user_limits w !! user_id) ;;
     let '(daily_limit, monthly_limit, administrative_safe) :=
       match limits_result with
       | None => (350, 5000, "N")
       | Some r => (daily_request_limit r, monthly_request_limit r, administrative_safe r)
       end in
     call SelectDailyUsage user_id ;;;
     daily_requests_used <- gets (fun w => count_daily (CURDATE env) user_id (bedrock_requests w)) ;;
     call SelectMonthlyUsage user_id ;;;
     monthly_requests_used <- gets (fun w => count_monthly (month_start env) user_id (bedrock_requests w)) ;;
     ret (mkUsageInfo daily_requests_used monthly_requests_used daily_limit monthly_limit
                      (String.eqb administrative_safe "Y")))
    (ret (mkUsageInfo 0 0 350 5000 false)).

(** The expiration an administrative block is stored with: a custom
    [expires_at] when it parses, no expiration for ['Indefinite'], and 24
    hours from now otherwise (also when [expires_at] does not parse). *)
Definition admin_blocked_until (expires_at : option string) : option Time.naive :=
  if (Py.truthy expires_at && negb (Py.opt_eqb expires_at "Indefinite"))%bool then
    match fromisoformat env (replace_Z (default "" expires_at)) with
    | Some expires_utc => Some (Time.strftime (Time.astimezone (CET env) expires_utc))
    | None => Some (Time.strftime (Time.add_24_hours get_current_cet_time))
    end
  else if Py.opt_eqb expires_at "Indefinite" then None
  else Some (Time.strftime (Time.add_24_hours get_current_cet_time)).

Definition execute_admin_blocking (user_id reason performed_by : string)
  (usage_info : UsageInfo) (expires_at : option string) : M World bool :=
  try_except
    (let current_cet_string := get_cet_timestamp_string in
     let blocked_until_string := admin_blocked_until expires_at in
     call UpsertBlockingStatus user_id ;;;
     modify (set_user_blocking_status (fun m =>
       <[user_id := upsert_blocked reason current_cet_string blocked_until_string
                      (daily_requests_used usage_info) (m !! user_id)]> m)) ;;;
     call InsertAudit user_id ;;;
     modify (add_audit (mkAuditRow user_id "BLOCK" reason performed_by
               current_cet_string None None None None)) ;;;
     implement_iam_blocking user_id ;;;
     send_enhanced_blocking_email user_id reason usage_info performed_by ;;;
     ret true)
    (ret false).

Definition admin_unblock_row (reason : string) (stamp : Time.naive) (r : BlockingRow)
  : BlockingRow :=
  mkBlockingRow "N" (Some reason) None None (requests_at_blocking r)
                (last_request_at r) (last_reset_at r) (bs_created_at r) (Some stamp).

Definition set_protection (stamp : Time.naive) (r : LimitsRow) : LimitsRow :=
  mkLimitsRow (team r) (person r) (daily_request_limit r) (monthly_request_limit r)
              "Y" (ul_created_at r) (Some stamp).

Definition execute_admin_unblocking (user_id reason performed_by : string) : M World bool :=
  try_except
    (let current_cet_string := get_cet_timestamp_string in
     (* 1. blocking status *)
     db_success <- try_except
       (call UpdateBlockingStatus user_id ;;;
        modify (set_user_blocking_status
                  (alter (admin_unblock_row reason current_cet_string) user_id)) ;;;
        ret true)
       (ret false) ;;
     if negb db_success then ret false else
     (* 2. administrative protection *)
     protection_success <- try_except
       (call SelectUserLimits user_id ;;;
        found <- gets (fun w => user_limits w !! user_id) ;;
        match found with
        | None =>
            call InsertUserLimits user_id ;;;
            modify (set_user_limits (fun m =>
              <[user_id := mkLimitsRow "unknown" "Unknown" 350 5000 "Y"
                             (Some current_cet_string) None]> m))
        | Some _ =>
            call UpdateUserLimits user_id ;;;
            modify (set_user_limits (alter (set_protection current_cet_string) user_id))
        end ;;;
        ret true)
       (ret false) ;;
     (* 3. audit *)
     try_except
       (call InsertAudit user_id ;;;
        modify (add_audit (mkAuditRow user_id "UNBLOCK" reason performed_by
                  current_cet_string None None None None)))
       (ret tt) ;;;
     (* 4. IAM *)
     try_except (implement_iam_unblocking user_id ;;; ret tt) (ret tt) ;;;
     (* 5. notification *)
     try_except
       (send_enhanced_unblocking_email user_id reason performed_by ;;; ret tt)
       (ret tt) ;;;
     if (negb db_success || negb protection_success)%bool then ret false else ret true)
    (ret false).

Definition manual_block_user (event : ApiEvent) : M World Response :=
  let user_id := default "" (ev_user_id event) in
  try_except
    (let reason := default "Manual admin block" (ev_reason event) in
     let performed_by := default "admin" (ev_performed_by event) in
     let expires_at := ev_expires_at event in
     usage_info <- get_user_current_usage user_id ;;
     success <- execute_admin_blocking user_id reason performed_by usage_info expires_at ;;
     ret (mkResponse (if success : bool then 200 else 500)
            [("message", JStr (if success then "User " ++ user_id ++ " blocked successfully"
                               else "Blocking failed"));
             ("action", JStr "block");
             ("user_id", JStr user_id);
             ("performed_by", JStr performed_by);
             ("blocked_at", JTime get_cet_timestamp_string)]))
    (ret (mkResponse 500
            [("error", JStr ("Error blocking user " ++ user_id));
             ("action", JStr "block");
             ("user_id", JStr user_id)])).

Definition manual_unblock_user (event : ApiEvent) : M World Response :=
  let user_id := default "" (ev_user_id event) in
  try_except
    (let reason := default "Manual admin unblock" (ev_reason event) in
     let performed_by := default "admin" (ev_performed_by event) in
     success <- execute_admin_unblocking user_id reason performed_by ;;
     ret (mkResponse (if success : bool then 200 else 500)
            [("message", JStr (if success then "User " ++ user_id ++ " unblocked successfully"
                               else "Unblocking failed"));
             ("action", JStr "unblock");
             ("user_id", JStr user_id);
             ("performed_by", JStr performed_by);
             ("unblocked_at", JTime get_cet_timestamp_string)]))
    (ret (mkResponse 500
            [("error", JStr ("Error unblocking user " ++ user_id));
             ("action", JStr "unblock");
             ("user_id", JStr user_id)])).

Definition jopt_str (o : option string) : jvalue :=
  match o with Some s => JStr s | None => JNull end.

Definition jopt_time (o : option Time.naive) : jvalue :=
  match o with Some t => JTime t | None => JNull end.

(** ['00:00:00' in blocked_until.strftime('%H:%M:%S')] *)
Definition expires_at_midnight (t : Time.naive) : bool :=
  ((Time.hour t =? 0) && (Time.minute t =? 0) && (Time.second t =? 0))%bool.

Definition check_user_status (event : ApiEvent) : M World Response :=
  let user_id := default "" (ev_user_id event) in
  try_except
    (call SelectBlockingStatus user_id ;;;
     status_result <- gets (fun w => user_blocking_status w !! user_id) ;;
     call SelectUserLimits user_id ;;;
     limits_result <- gets (fun w => user_limits w !! user_id) ;;
     let blocked := match status_result with
                    | Some r => String.eqb (is_blocked r) "Y"
                    | None => false
                    end in
     let '(block_type, who) :=
       match status_result with
       | Some r =>
           if String.eqb (is_blocked r) "Y" then
             match blocked_until r with
             | Some t => if expires_at_midnight t then ("AUTO", Some "system")
                         else ("Manual", Some "dashboard_admin")
             | None => ("Manual", Some "dashboard_admin")
             end
           else ("None", None)
       | None => ("None", None)
       end in
     ret (mkResponse 200
            [("user_id", JStr user_id);
             ("is_blocked", JBool blocked);
             ("block_reason", jopt_str (r ← status_result; blocked_reason r));
             ("blocked_since", jopt_time (r ← status_result; blocked_at r));
             ("expires_at", jopt_time (r ← status_result; blocked_until r));
             ("block_type", JStr block_type);
             ("performed_by", jopt_str who);
             ("administrative_safe",
              JBool match limits_result with
                    | Some l => String.eqb (administrative_safe l) "Y"
                    | None => false
                    end)]))
    (ret (mkResponse 500 [("error", JStr "error"); ("user_id", JStr user_id)])).

Definition handle_api_event (event : ApiEvent) : M World Response :=
  try_except
    (match action event, ev_user_id event with
     | Some act, Some user_id =>
         if String.eqb act "block" then manual_block_user event
         else if String.eqb act "unblock" then manual_unblock_user event
         else if String.eqb act "check_status" then check_user_status event
         else ret (mkResponse 400 [("error", JStr ("Invalid action: " ++ act))])
     | _, _ =>
         ret (mkResponse 400
                [("error", JStr "Missing required parameters: action and user_id")])
     end)
    (ret (mkResponse 500 [("error", JStr "error")])).

(** [lambda_handler]: an event carrying both ['action'] and ['user_id'] is
    a manual operation, anything else is CloudTrail traffic.  [event] holds
    the administrative keys of the incoming dictionary, [envelope] what the
    same dictionary carries as CloudTrail traffic. *)
Definition lambda_handler (event : ApiEvent) (connection : Connection)
  (envelope : Envelope) : M World Response :=
  match action event, ev_user_id event with
  | Some _, Some _ => handle_api_event event
  | _, _ => handle_cloudtrail_event connection envelope
  end.

End WithEnv.

(** Only the record of calls grew. *)
Definition only_calls (w w' : World) : Prop :=
  same_stores w w' /\ exists l, calls w' = (calls w ++ l)%list.

(** The tables are as before; policies, mail and calls may have changed. *)
Definition same_tables (w w' : World) : Prop :=
  user_blocking_status w' = user_blocking_status w /\
  user_limits w' = user_limits w /\
  bedrock_requests w' = bedrock_requests w /\
  blocking_audit_log w' = blocking_audit_log w /\
  exists l, calls w' = (calls w ++ l)%list.

(** A call that only reads IAM metadata of a user (tags, groups). *)
Definition is_metadata_read (c : Op * string) : Prop :=
  c.1 = ListTeamTags \/ c.1 = ListPersonTags \/ c.1 = GetGroupsForUser.

(** The status code of an answer, when there is one. *)
Definition status_of (r : result Response) : option Z :=
  match r with
  | Ok resp => Some (statusCode resp)
  | Raised => None
  end.

(** The same command with another [duration] token. *)
Definition with_duration (d : option string) (e : ApiEvent) : ApiEvent :=
  mkApiEvent (action e) (ev_user_id e) (ev_reason e) (ev_performed_by e)
             (ev_expires_at e) d.

(** The audit row of a manual block. *)
Definition admin_block_audit_row (env : Env) (uid reason performed_by : string) : AuditRow :=
  mkAuditRow uid "BLOCK" reason performed_by (get_cet_timestamp_string env)
             None None None None.

(** The key of a user's inline Bedrock policy. *)
Definition policy_key (uid : string) : string * string := (uid, policy_name uid).

(** The audit row of an automatic unblock. *)
Definition unblock_audit_row (env : Env) (uid : string) : AuditRow :=
  mkAuditRow uid "UNBLOCK" "Automatic unblock" "system"
             (get_cet_timestamp_string env) None None None None.

(** The stores right after step 1 of [execute_user_blocking] went through:
    the BlockRecord is written, nothing else has happened yet. *)
Definition status_written (env : Env) (uid reason : string) (ui : UsageInfo) (w : World)
  : World :=
  set_user_blocking_status (fun m =>
    <[uid := upsert_blocked reason (get_cet_timestamp_string env)
               (Some (Time.strftime (blocked_until_cet (get_current_cet_time env))))
               (daily_requests_used ui) (m !! uid)]> m)
    (log_call (UpsertBlockingStatus, uid) w).

End Controller.

(* ===================================================================== *)
(** ** The daily reset ([bedrock_daily_reset.py])

    The sweeper works on the same MySQL tables and IAM policies as the
    controller. *)
(* ===================================================================== *)

Module DailyReset.

Import Policy.
Import Controller.

Record Results := mkResults {
  unblocked_count : Z;
  notified_count : Z;
  admin_safe_removed_count : Z;
  errors : list string;
  unblocked_users : list string;
  admin_safe_removed_users : list string
}.

(** Step 1 of the sweep:
    [SELECT ... FROM user_blocking_status ubs JOIN user_limits ul ON ubs.user_id = ul.user_id
     WHERE ubs.is_blocked = 'Y' AND (ubs.blocked_until IS NULL OR ubs.blocked_until <= %s)] *)
Definition is_expired_block (current_cet_datetime : Time.aware) (w : World)
  (entry : string * BlockingRow) : bool :=
  (String.eqb (is_blocked entry.2) "Y"
   && match blocked_until entry.2 with
      | None => true
      | Some until => Time.naive_leb until (Time.wall current_cet_datetime)
      end
   && match user_limits w !! entry.1 with Some _ => true | None => false end)%bool.

Definition select_expired_blocked_users (current_cet_datetime : Time.aware) (w : World)
  : list string :=
  List.map fst (List.filter (is_expired_block current_cet_datetime w)
                            (map_to_list (user_blocking_status w))).

(** Step 2 of the sweep:
    [SELECT ... FROM user_limits ul LEFT JOIN user_blocking_status ubs ON ul.user_id = ubs.user_id
     WHERE ul.administrative_safe = 'Y' AND (ubs.is_blocked IS NULL OR ubs.is_blocked = 'N')] *)
Definition is_active_admin_safe (w : World) (entry : string * LimitsRow) : bool :=
  (String.eqb (administrative_safe entry.2) "Y"
   && match user_blocking_status w !! entry.1 with
      | None => true
      | Some r => String.eqb (is_blocked r) "N"
      end)%bool.

Definition select_active_admin_safe_users (w : World) : list string :=
  List.map fst (List.filter (is_active_admin_safe w) (map_to_list (user_limits w))).

Section WithEnv.

Variable env : Env.

Definition reset_row (stamp : Time.naive) (r : BlockingRow) : BlockingRow :=
  mkBlockingRow "N" (Some "Daily reset unblock") (blocked_at r) None
                (requests_at_blocking r) (last_request_at r) (Some stamp)
                (bs_created_at r) (Some stamp).

(** [UPDATE user_limits SET administrative_safe = 'N' ... WHERE user_id = %s
     AND administrative_safe = 'Y'] *)
Definition clear_if_set (stamp : Time.naive) (r : LimitsRow) : LimitsRow :=
  if String.eqb (administrative_safe r) "Y" then clear_protection stamp r else r.

Definition execute_user_unblocking (user_id : string) : M World bool :=
  try_except
    (let current_cet_timestamp := get_cet_timestamp_string env in
     call env UpdateBlockingStatus user_id ;;;
     modify (set_user_blocking_status (alter (reset_row current_cet_timestamp) user_id)) ;;;
     call env UpdateUserLimits user_id ;;;
     modify (set_user_limits (alter (clear_if_set current_cet_timestamp) user_id)) ;;;
     call env InsertAudit user_id ;;;
     modify (add_audit (mkAuditRow user_id "UNBLOCK" "Daily reset" "daily_reset"
               current_cet_timestamp None None None None)) ;;;
     try_except (implement_iam_unblocking env user_id ;;; ret tt) (ret tt) ;;;
     ret true)
    (ret false).

Definition send_reset_email_notification (user_id : string) : M World bool :=
  try_except
    (call env InvokeEmailService user_id ;;;
     modify (add_mail (mkMail EmailService "daily_reset" user_id)) ;;;
     ret true)
    (ret false).

Definition remove_administrative_safe_flag (user_id : string) : M World bool :=
  try_except
    (let current_cet_timestamp := get_cet_timestamp_string env in
     call env UpdateUserLimits user_id ;;;
     affected <- gets (fun w => match user_limits w !! user_id with
                                | Some r => String.eqb (administrative_safe r) "Y"
                                | None => false
                                end) ;;
     modify (set_user_limits (alter (clear_if_set current_cet_timestamp) user_id)) ;;;
     if affected : bool then
       call env InsertAudit user_id ;;;
       modify (add_audit (mkAuditRow user_id "ADMIN_SAFE_REMOVED"
                 "Daily reset - remove admin safe flag" "daily_reset"
                 current_cet_timestamp None None None None)) ;;;
       ret true
     else ret true)
    (ret false).

Definition unblock_one (user_id : string) (res : Results) : M World Results :=
  try_except
    (success <- execute_user_unblocking user_id ;;
     if success : bool then
       email_sent <- send_reset_email_notification user_id ;;
       ret (mkResults (unblocked_count res + 1)
                      (if email_sent : bool then notified_count res + 1 else notified_count res)
                      (admin_safe_removed_count res)
                      (if email_sent then errors res
                       else (errors res ++ [("Failed to send email to user " ++ user_id)%string])%list)
                      (unblocked_users res ++ [user_id])%list
                      (admin_safe_removed_users res))
     else
       ret (mkResults (unblocked_count res) (notified_count res)
                      (admin_safe_removed_count res)
                      (errors res ++ [("Failed to unblock user " ++ user_id)%string])%list
                      (unblocked_users res) (admin_safe_removed_users res)))
    (ret (mkResults (unblocked_count res) (notified_count res)
                    (admin_safe_removed_count res)
                    (errors res ++ [("Error processing blocked user " ++ user_id)%string])%list
                    (unblocked_users res) (admin_safe_removed_users res))).

Definition remove_flag_one (user_id : string) (res : Results) : M World Results :=
  try_except
    (success <- remove_administrative_safe_flag user_id ;;
     if success : bool then
       ret (mkResults (unblocked_count res) (notified_count res)
                      (admin_safe_removed_count res + 1) (errors res)
                      (unblocked_users res)
                      (admin_safe_removed_users res ++ [user_id])%list)
     else
       ret (mkResults (unblocked_count res) (notified_count res)
                      (admin_safe_removed_count res)
                      (errors res ++ [("Failed to remove administrative_safe flag from user " ++ user_id)%string])%list
                      (unblocked_users res) (admin_safe_removed_users res)))
    (ret (mkResults (unblocked_count res) (notified_count res)
                    (admin_safe_removed_count res)
                    (errors res ++ [("Error removing administrative_safe flag for user " ++ user_id)%string])%list
                    (unblocked_users res) (admin_safe_removed_users res))).

Fixpoint fold_users (f : string -> Results -> M World Results) (users : list string)
  (res : Results) : M World Results :=
  match users with
  | [] => ret res
  | u :: rest => res' <- f u res ;; fold_users f rest res'
  end.

Definition unblock_all_blocked_users_and_notify : M World Results :=
  try_except
    (call env SelectBlockingStatus "" ;;;
     expired_blocked_users <- gets (select_expired_blocked_users (get_current_cet_time env)) ;;
     call env SelectUserLimits "" ;;;
     active_admin_safe_users <- gets select_active_admin_safe_users ;;
     res <- fold_users unblock_one expired_blocked_users (mkResults 0 0 0 [] [] []) ;;
     fold_users remove_flag_one active_admin_safe_users res)
    (ret (mkResults 0 0 0 ["error"] [] [])).

End WithEnv.

End DailyReset.

(* ===================================================================== *)
(** ** The policy manager ([bedrock_policy_manager_enhanced.py])

    This Lambda keeps the block state in a DynamoDB table keyed by
    [(user_id, date)] and decides "already blocked" from the IAM policy. *)
(* ===================================================================== *)

Module PolicyManager.

Import Policy.

(** The value of [expires_at] in the table. *)
Inductive expiry :=
| Indefinite
| At (t : Time.naive).          (* an ISO timestamp, UTC *)

(** An item of the usage table. *)
Record Item := mkItem {
  status : option string;
  last_status_reason : option string;
  request_count : Z;
  it_daily_limit : Z;
  it_blocked_at : option Time.naive;
  it_unblocked_at : option Time.naive;
  expires_at : option expiry;
  admin_protection_by : option string
}.

(** The [usage_record] dictionary of the event. *)
Record UsageRecord := mkUsageRecord {
  ur_request_count : option Z;
  ur_daily_limit : option Z
}.

(** The external calls of [block_user_access], one name per call site. *)
Inductive Op :=
| GetUserPolicy | CreateUserPolicy | PutUserPolicy
| DynamoGet | DynamoPut | DynamoUpdate | DynamoSetPerformedBy
| PublishWarning | SendWarningEmail | PublishBlocked | SendBlockingEmail
| InvokeHistory.

(** What leaves the system: SNS messages, e-mails, history entries. *)
Record Notice := mkNotice {
  notice_kind : string;       (* event_type of the SNS message / kind of e-mail *)
  notice_user : string
}.

Record HistoryEntry := mkHistoryEntry {
  h_user_id : string;
  h_operation : string;
  h_reason : string;
  h_performed_by : string;
  h_status : string
}.

Record World := mkWorld {
  iam_policies : gmap (string * string) document;
  table : gmap (string * string) Item;       (* (user_id, date) *)
  sns_messages : list Notice;
  emails : list Notice;
  history : list HistoryEntry;
  calls : list (Op * string)
}.

Definition set_iam_policies
  (f : gmap (string * string) document -> gmap (string * string) document)
  (w : World) : World :=
  mkWorld (f (iam_policies w)) (table w) (sns_messages w) (emails w) (history w) (calls w).

Definition set_table (f : gmap (string * string) Item -> gmap (string * string) Item)
  (w : World) : World :=
  mkWorld (iam_policies w) (f (table w)) (sns_messages w) (emails w) (history w) (calls w).

Definition add_sns (n : Notice) (w : World) : World :=
  mkWorld (iam_policies w) (table w) (sns_messages w ++ [n]) (emails w) (history w) (calls w).

Definition add_email (n : Notice) (w : World) : World :=
  mkWorld (iam_policies w) (table w) (sns_messages w) (emails w ++ [n]) (history w) (calls w).

Definition add_history (h : HistoryEntry) (w : World) : World :=
  mkWorld (iam_policies w) (table w) (sns_messages w) (emails w) (history w ++ [h]) (calls w).

Definition log_call (c : Op * string) (w : World) : World :=
  mkWorld (iam_policies w) (table w) (sns_messages w) (emails w) (history w) (calls w ++ [c]).

Record Env := mkEnv {
  utcnow : Time.naive;              (* datetime.utcnow() / datetime.now(timezone.utc) *)
  current_month : Z;                (* now_utc.month *)
  today : string;                   (* date.today().isoformat() *)
  email_service_present : bool;     (* the module-level email_service is not None *)
  email_delivered : bool;           (* what email_service.send_... returns *)
  fails : Op -> bool
}.

Record Response := mkResponse {
  statusCode : Z;
  message : string;
  already_blocked : bool            (* the body carries 'already_blocked': True *)
}.

(** [is_user_blocked] *)
Definition is_user_blocked (policy : document) : bool :=
  existsb (fun s => (Py.opt_eqb (Sid s) DENY_STATEMENT_SID
                     && Py.opt_eqb (Effect s) "Deny")%bool)
          (Statement policy).

(** [create_deny_statement] *)
Definition create_deny_statement : stmt :=
  mkStmt (Some DENY_STATEMENT_SID) (Some "Deny") invoke_actions "*".

(** [add_deny_statement] *)
Definition add_deny_statement (policy : document) (deny : stmt) : document :=
  mkDocument (Version policy) (deny :: strip_deny (Statement policy)).

(** [remove_deny_statement] *)
Definition remove_deny_statement (policy : document) : document :=
  mkDocument (Version policy) (strip_deny (Statement policy)).

Definition base_policy : document :=
  mkDocument "2012-10-17"
    [mkStmt (Some "BedrockAccess") (Some "Allow") invoke_actions "*"].

(** [int(daily_limit * 0.8)]: the product is a float and [int] truncates
    towards zero; on the integers a limit can take this is the truncated
    quotient of [4 * daily_limit] by [5]. *)
Definition warning_threshold (daily_limit : Z) : Z := Z.quot (daily_limit * 4) 5.

Section WithEnv.

Variable env : Env.

Definition call (o : Op) (uid : string) : M World unit :=
  fun w => let w' := log_call (o, uid) w in
           if fails env o then (Raised, w') else (Ok tt, w').

Definition send_warning_notification (user_id : string) (usage_record : UsageRecord)
  : M World unit :=
  try_except
    (call PublishWarning user_id ;;;
     modify (add_sns (mkNotice "user_warning" user_id)) ;;;
     if email_service_present env then
       try_except
         (call SendWarningEmail user_id ;;;
          if email_delivered env
          then modify (add_email (mkNotice "warning" user_id))
          else ret tt)
         (ret tt)
     else ret tt)
    (ret tt).

Definition get_or_create_user_policy (user_id : string) : M World document :=
  call GetUserPolicy user_id ;;;
  found <- gets (fun w => iam_policies w !! (user_id, policy_name user_id)) ;;
  match found with
  | Some d => ret d
  | None =>
      call CreateUserPolicy user_id ;;;
      modify (set_iam_policies (fun m => <[(user_id, policy_name user_id) := base_policy]> m)) ;;;
      ret base_policy
  end.

Definition add_one_day (t : Time.naive) : Time.naive :=
  Time.mkNaive (Time.day t + 1) (Time.hour t) (Time.minute t) (Time.second t)
               (Time.microsecond t).

(** The expiration stored with a block: 24 hours for an administrator, the
    next midnight in Madrid for the system, with the offset guessed from the
    month. *)
Definition block_expires_at (performed_by : string) : Time.naive :=
  if negb (String.eqb performed_by "system") then add_one_day (utcnow env)
  else
    let is_dst := ((3 <=? current_month env) && (current_month env <=? 10))%bool in
    let off := (if is_dst then 2 else 1) * 3600000000 in
    let now_madrid := Time.of_micros (Time.micros (utcnow env) + off) in
    let tomorrow_midnight_madrid := Time.mkNaive (Time.day now_madrid + 1) 0 0 0 0 in
    Time.of_micros (Time.micros tomorrow_midnight_madrid - off).

Definition update_user_block_status (user_id status_ reason : string)
  (expires : option Time.naive) : M World unit :=
  try_except
    (item_exists <- try_except
       (call DynamoGet user_id ;;;
        gets (fun w => match table w !! (user_id, today env) with
                       | Some _ => true | None => false end))
       (ret false) ;;
     let blocked := String.eqb status_ "BLOCKED" in
     let active := String.eqb status_ "ACTIVE" in
     let new_expiry :=
       if blocked then Some (match expires with Some t => At t | None => Indefinite end)
       else None in
     if negb item_exists then
       call DynamoPut user_id ;;;
       modify (set_table (fun m =>
         <[(user_id, today env) :=
             mkItem (Some status_) (Some reason) 0 250
                    (if blocked then Some (utcnow env) else None)
                    (if active then Some (utcnow env) else None)
                    new_expiry None]> m))
     else
       call DynamoUpdate user_id ;;;
       modify (set_table (alter (fun it =>
         mkItem (Some status_) (Some reason) (request_count it) (it_daily_limit it)
                (if blocked then Some (utcnow env) else it_blocked_at it)
                (if active then Some (utcnow env) else it_unblocked_at it)
                (if (blocked || active)%bool then new_expiry else expires_at it)
                (admin_protection_by it)) (user_id, today env))))
    (ret tt).

(** [table.update_item(... 'SET admin_protection_by = :by')]: an upsert. *)
Definition set_block_performed_by (user_id performed_by : string) : M World unit :=
  try_except
    (call DynamoSetPerformedBy user_id ;;;
     modify (set_table (fun m =>
       <[(user_id, today env) :=
           match m !! (user_id, today env) with
           | Some it => mkItem (status it) (last_status_reason it) (request_count it)
                               (it_daily_limit it) (it_blocked_at it) (it_unblocked_at it)
                               (expires_at it) (Some performed_by)
           | None => mkItem None None 0 0 None None None (Some performed_by)
           end]> m)))
    (ret tt).

Definition send_block_notification (user_id reason performed_by : string) : M World unit :=
  try_except
    (call PublishBlocked user_id ;;;
     modify (add_sns (mkNotice "user_blocked" user_id)) ;;;
     if email_service_present env then
       try_except
         (call SendBlockingEmail user_id ;;;
          if email_delivered env
          then modify (add_email (mkNotice (if negb (String.eqb performed_by "system")
                                            then "admin_blocking" else "blocking") user_id))
          else ret tt)
         (ret tt)
     else ret tt)
    (ret tt).

Definition log_operation_to_history (user_id operation reason performed_by status_ : string)
  : M World unit :=
  try_except
    (call InvokeHistory user_id ;;;
     modify (add_history (mkHistoryEntry user_id operation reason performed_by status_)))
    (ret tt).

Definition block_user_access (user_id reason : string) (usage_record : UsageRecord)
  (performed_by_arg : option string) : M World Response :=
  try_except
    (let current_usage := default 0 (ur_request_count usage_record) in
     let daily_limit := default 250 (ur_daily_limit usage_record) in
     (* warning at 80% *)
     (if ((warning_threshold daily_limit <=? current_usage)
          && (current_usage <? daily_limit))%bool
      then send_warning_notification user_id usage_record
      else ret tt) ;;;
     current_policy <- get_or_create_user_policy user_id ;;
     if is_user_blocked current_policy then
       ret (mkResponse 200 ("User " ++ user_id ++ " is already blocked") true)
     else
       let updated_policy := add_deny_statement current_policy create_deny_statement in
       call PutUserPolicy user_id ;;;
       modify (set_iam_policies (fun m =>
         <[(user_id, policy_name user_id) := updated_policy]> m)) ;;;
       let performed_by := default "system" performed_by_arg in
       let expires := block_expires_at performed_by in
       update_user_block_status user_id "BLOCKED" reason (Some expires) ;;;
       set_block_performed_by user_id performed_by ;;;
       send_block_notification user_id reason performed_by ;;;
       log_operation_to_history user_id "BLOCK" reason performed_by "SUCCESS" ;;;
       ret (mkResponse 200 ("User " ++ user_id ++ " blocked successfully") false))
    (ret (mkResponse 500 ("Error blocking user " ++ user_id) false)).

End WithEnv.

(** The stores that carry the block decision: policies, usage table and
    operation history (everything but outgoing messages and the record of
    calls). *)
Definition same_core (w w' : World) : Prop :=
  iam_policies w' = iam_policies w /\ table w' = table w /\ history w' = history w.




(** A message of the 80% warning. *)
Definition is_warning_sns (n : Notice) : Prop := notice_kind n = "user_warning".
Definition is_warning_email (n : Notice) : Prop := notice_kind n = "warning".


End PolicyManager.

(* ===================================================================== *)
(** ** A concrete ISO-8601 reader and concrete environments

    [datetime.fromisoformat] belongs to the Python library; the embedding
    takes it from the environment.  The reader below is the instance used
    for concrete runs: it accepts [YYYY-MM-DD] and
    [YYYY-MM-DD?HH:MM:SS[.fff|.ffffff][(+|-)HH:MM]] and rejects every other
    text. *)
(* ===================================================================== *)

Module Iso.

Definition digit_val (c : ascii) : option Z :=
  if Controller.is_digit c then Some (Z.of_nat (nat_of_ascii c) - 48) else None.

Fixpoint take_digits (n : nat) (s : string) (acc : Z) : option (Z * string) :=
  match n with
  | O => Some (acc, s)
  | S n' =>
      match s with
      | String c r => d ← digit_val c; take_digits n' r (acc * 10 + d)
      | EmptyString => None
      end
  end.

Definition expect (c : ascii) (s : string) : option string :=
  match s with
  | String c' r => if Ascii.eqb c c' then Some r else None
  | EmptyString => None
  end.

Definition skip_one (s : string) : option string :=
  match s with
  | String _ r => Some r
  | EmptyString => None
  end.

Definition parse_date (s : string) : option (Z * string) :=
  '(y, r1) ← take_digits 4 s 0;
  r2 ← expect "-"%char r1;
  '(m, r3) ← take_digits 2 r2 0;
  r4 ← expect "-"%char r3;
  '(d, r5) ← take_digits 2 r4 0;
  if Time.valid_date y m d then Some (Time.ymd2ord y m d, r5) else None.

Definition parse_hms (s : string) : option (Z * Z * Z * string) :=
  '(h, r1) ← take_digits 2 s 0;
  r2 ← expect ":"%char r1;
  '(mi, r3) ← take_digits 2 r2 0;
  r4 ← expect ":"%char r3;
  '(se, r5) ← take_digits 2 r4 0;
  if ((h <? 24) && (mi <? 60) && (se <? 60))%bool then Some (h, mi, se, r5) else None.

Definition parse_fraction (s : string) : option (Z * string) :=
  match s with
  | String "."%char r =>
      match take_digits 6 r 0 with
      | Some (us, r') => Some (us, r')
      | None => '(ms, r') ← take_digits 3 r 0; Some (ms * 1000, r')
      end
  | _ => Some (0, s)
  end.

Definition parse_offset (s : string) : option Z :=
  match s with
  | EmptyString => Some 0
  | String sign r =>
      sgn ← (if Ascii.eqb sign "+"%char then Some 1
             else if Ascii.eqb sign "-"%char then Some (-1) else None);
      '(h, r1) ← take_digits 2 r 0;
      r2 ← expect ":"%char r1;
      '(mi, r3) ← take_digits 2 r2 0;
      if (String.eqb r3 "" && (h <? 24) && (mi <? 60))%bool
      then Some (sgn * (h * 3600 + mi * 60)) else None
  end.

Definition fromisoformat (s : string) : option Time.aware :=
  '(d, r) ← parse_date s;
  if String.eqb r "" then Some (Time.mkAware (Time.mkNaive d 0 0 0 0) 0)
  else
    r1 ← skip_one r;
    '(h, mi, se, r2) ← parse_hms r1;
    '(us, r3) ← parse_fraction r2;
    off ← parse_offset r3;
    Some (Time.mkAware (Time.mkNaive d h mi se us) off).

End Iso.

(* ===================================================================== *)
(** ** Concrete runs

    A small installation used to run the code on explicit inputs:
    2025-01-15 12:00:00 in Madrid (UTC+1), four accounts and one
    Knowledge Base session without tags. *)
(* ===================================================================== *)

Module Scenario.

Import Policy.
Import Controller.

Definition jan15 : Z := Time.ymd2ord 2025 1 15.

(** 2025-01-15 12:00:00+01:00 *)
Definition noon : Time.aware := Time.mkAware (Time.mkNaive jan15 12 0 0 0) 3600.

(** 2025-01-15 11:00:00, one hour before [noon] *)
Definition eleven : Time.naive := Time.mkNaive jan15 11 0 0 0.

Definition winter : Time.tzinfo := Time.fixed_zone 3600.

(** Madrid around 2025-03-30: UTC+1 until 01:00 UTC of that day, UTC+2 after. *)
Definition spring_switch : Z :=
  Time.micros (Time.mkNaive (Time.ymd2ord 2025 3 30) 1 0 0 0).

Definition spring_forward : Time.tzinfo := Time.switching_zone spring_switch 3600 7200.

(** 2025-03-30 01:30:00+01:00, half an hour before the clocks go forward. *)
Definition before_switch : Time.aware :=
  Time.mkAware (Time.mkNaive (Time.ymd2ord 2025 3 30) 1 30 0 0) 3600.

Definition tags : gmap string (list (string * string)) :=
  {[ "u1" := [("Team", "team_a"); ("Person", "Ana"); ("Email", "ana@example.com")];
     "u2" := [("Team", "team_a"); ("Person", "Ben"); ("Email", "ben@example.com")];
     "u3" := [("Team", "team_b"); ("Person", "Cleo"); ("Email", "cleo@example.com")];
     "u4" := [("Team", "team_b"); ("Person", "Dan"); ("Email", "dan@example.com")];
     "u5" := [("Team", "team_c"); ("Person", "Eve"); ("Email", "eve@example.com")];
     "kb" := [] ]}.

Definition groups : gmap string (list string) :=
  {[ "u1" := ["yo_leo_team_a"]; "u2" := []; "u3" := []; "u4" := []; "kb" := [] ]}.

Definition no_faults (o : Op) : bool := false.

(** IAM answers every [get_user_policy] and [put_user_policy] with an error. *)
Definition iam_down (o : Op) : bool :=
  (Op_eqb o GetUserPolicy || Op_eqb o PutUserPolicy || Op_eqb o VerifyUserPolicy)%bool.

Definition env_with (f : Op -> bool) : Env :=
  mkEnv noon winter Iso.fromisoformat jan15 (Time.ymd2ord 2025 1 1)
        tags groups true 200 f.

Definition env_ok : Env := env_with no_faults.
Definition env_iam_down : Env := env_with iam_down.

Definition limits (t p : string) (daily : Z) (safe : string) : LimitsRow :=
  mkLimitsRow t p daily 5000 safe None None.

Definition request (uid : string) : RequestRow :=
  mkRequestRow uid "team_a" "x" "anthropic.claude-3-haiku-20240307-v1:0"
               (Time.mkNaive jan15 9 0 0 0) (Time.mkNaive jan15 9 0 0 0).

Definition blocked_row (reason : string) (until : option Time.naive) : BlockingRow :=
  mkBlockingRow "Y" (Some reason) (Some (Time.mkNaive (jan15 - 1) 10 0 0 0)) until 3
                None None None None.

Definition allow_stmt : stmt :=
  mkStmt (Some "BedrockAccess") (Some "Allow") invoke_actions "*".

Definition blocked_policy : document :=
  mkDocument "2012-10-17" [deny_statement; allow_stmt].

Definition world0 : World :=
  mkWorld
    {[ "u3" := blocked_row "Daily limit exceeded" (Some eleven);
       "u4" := blocked_row "Manual admin block" None ]}
    {[ "u1" := limits "team_a" "Ana" 3 "N";
       "u2" := limits "team_a" "Ben" 3 "Y";
       "u3" := limits "team_b" "Cleo" 3 "N";
       "u4" := limits "team_b" "Dan" 3 "Y" ]}
    [request "u1"; request "u1"; request "u1";
     request "u2"; request "u2"; request "u2"; request "u2"]
    []
    {[ policy_key "u3" := blocked_policy; policy_key "u4" := blocked_policy ]}
    []
    [].

(** A policy whose only statement is an unrelated deny. *)
Definition no_delete_stmt : stmt :=
  mkStmt (Some "NoModelDeletion") (Some "Deny") ["bedrock:DeleteCustomModel"] "*".

Definition restrictive_policy : document := mkDocument "2012-10-17" [no_delete_stmt].

Definition world_restrictive : World :=
  mkWorld ∅ ∅ [] [] {[ policy_key "u1" := restrictive_policy ]} [] [].


Definition usage_u1 : UsageInfo := mkUsageInfo 3 3 3 5000 false.

Definition event_of (uid : string) : Event :=
  mkEvent ("arn:aws:iam::701055077130:user/" ++ uid) "InvokeModel"
          (Some "anthropic.claude-3-haiku-20240307-v1:0") "2025-01-15T11:00:00Z".

End Scenario.

Module PolicyScenario.

Import Policy.
Import PolicyManager.

Definition no_faults (o : Op) : bool := false.


Definition env_with (f : Op -> bool) : Env :=
  mkEnv (Time.mkNaive (Time.ymd2ord 2025 1 15) 11 0 0 0) 1 "2025-01-15" true true f.

Definition env_ok : Env := env_with no_faults.

Definition allow_stmt : stmt :=
  mkStmt (Some "BedrockAccess") (Some "Allow") invoke_actions "*".

Definition world0 : World :=
  mkWorld
    {[ (("u6", policy_name "u6") : string * string)
         := mkDocument "2012-10-17" [create_deny_statement; allow_stmt];
       (("u7", policy_name "u7") : string * string)
         := mkDocument "2012-10-17" [allow_stmt] ]}
    ∅ [] [] [] [].

(** 200 requests out of 250: exactly 80%. *)
Definition usage_80 : UsageRecord := mkUsageRecord (Some 200) (Some 250).

(** 255 requests out of 250. *)
Definition usage_over : UsageRecord := mkUsageRecord (Some 255) (Some 250).

End PolicyScenario.

(* ===================================================================== *)
(** ** Notions used to state further properties *)
(* ===================================================================== *)

Module Notions.

(** Every character of [s] belongs to the class [p]. *)
Fixpoint all_chars (p : ascii -> bool) (s : string) : bool :=
  match s with
  | EmptyString => true
  | String c r => (p c && all_chars p r)%bool
  end.

Definition not_newline (c : ascii) : bool := negb (Ascii.eqb c Controller.newline).

(** The text [u] occurs in [s]. *)
Definition occurs_in (u s : string) : Prop := exists p q, s = p ++ u ++ q.

(** Every value the computation returns satisfies [P]. *)
Definition ensures {S A} (m : M S A) (P : A -> Prop) : Prop :=
  forall s a s', m s = (Ok a, s') -> P a.

(** The counters of the CloudTrail handler after at most [n] more events:
    none of them went down, at most [n] unblocks were counted, and at most
    [n] events were counted as processed or blocked. *)
Definition advanced_by (n : Z) (c c' : Controller.Counters) : Prop :=
  Controller.processed_requests c <= Controller.processed_requests c'
  /\ Controller.blocked_requests c <= Controller.blocked_requests c'
  /\ Controller.unblocked_requests c <= Controller.unblocked_requests c'
  /\ Controller.unblocked_requests c' <= Controller.unblocked_requests c + n
  /\ Controller.processed_requests c' + Controller.blocked_requests c'
     <= Controller.processed_requests c + Controller.blocked_requests c + n.

(** The figures the sweep reports agree with the lists it reports. *)
Definition consistent (res : DailyReset.Results) : Prop :=
  DailyReset.unblocked_count res = Z.of_nat (length (DailyReset.unblocked_users res))
  /\ 0 <= DailyReset.notified_count res <= DailyReset.unblocked_count res
  /\ DailyReset.admin_safe_removed_count res
     = Z.of_nat (length (DailyReset.admin_safe_removed_users res)).

End Notions.

(* ===================================================================== *)
(** ** The other handlers of the policy manager

    [unblock_user_access], [check_user_block_status] and [lambda_handler]
    of [bedrock_policy_manager_enhanced.py].  They make external calls of
    their own and write one more attribute of the usage items
    ([admin_protection]); both are kept beside the stores of
    [PolicyManager], which the functions shared with the blocking path go
    on using. *)
(* ===================================================================== *)

Module PolicyManagerHandlers.

Import Policy.
Import PolicyManager.

(** The external calls of these handlers, one name per call site. *)
Inductive Call :=
| UnblockGetPolicy | UnblockPutPolicy
| SetProtection | ClearProtection
| PublishUnblocked | SendUnblockingEmail
| StatusGetPolicy | StatusGetItem.

Record Store := mkStore {
  world : World;
  admin_protection : gmap (string * string) bool;   (* attribute of the item (user_id, date) *)
  handler_calls : list (Call * string)
}.

Record HandlerEnv := mkHandlerEnv {
  base_env : Env;
  call_fails : Call -> bool
}.

(** The body of the answer of [unblock_user_access]. *)
Record UnblockResponse := mkUnblockResponse {
  u_statusCode : Z;
  u_message : string;
  already_unblocked : bool          (* the body carries 'already_unblocked': True *)
}.

(** The body of the answer of [check_user_block_status] ([expires_at] and
    [checked_at] are not kept). *)
Record StatusReport := mkStatusReport {
  sr_statusCode : Z;
  sr_is_blocked : bool;
  sr_block_type : string;
  sr_blocked_since : option Time.naive
}.

(** The event handed to [lambda_handler]; a key it does not carry is
    [None]. *)
Record PmEvent := mkPmEvent {
  pe_action : option string;
  pe_user_id : option string;
  pe_reason : option string;
  pe_performed_by : option string;
  pe_usage_record : option UsageRecord
}.

Inductive Answer :=
| BlockAnswer (r : Response)
| UnblockAnswer (r : UnblockResponse)
| StatusAnswer (r : StatusReport)
| ErrorAnswer (code : Z) (error : string).

(** [table.update_item] creates the item when there is none. *)
Definition upsert_item (f : Item -> Item) (k : string * string)
  (m : gmap (string * string) Item) : gmap (string * string) Item :=
  <[k := f (default (mkItem None None 0 0 None None None None) (m !! k))]> m.

Definition with_protection_by (performed_by : string) (it : Item) : Item :=
  mkItem (status it) (last_status_reason it) (request_count it) (it_daily_limit it)
         (it_blocked_at it) (it_unblocked_at it) (expires_at it) (Some performed_by).

Section WithEnv.

Variable env : HandlerEnv.

(** A computation on the stores of [PolicyManager], run inside these
    handlers. *)
Definition lift {A} (m : M World A) : M Store A :=
  fun s => let '(r, w') := m (world s) in
           (r, mkStore w' (admin_protection s) (handler_calls s)).

Definition call (o : Call) (uid : string) : M Store unit :=
  fun s => let s' := mkStore (world s) (admin_protection s) (handler_calls s ++ [(o, uid)]) in
           if call_fails env o then (Raised, s') else (Ok tt, s').

Definition set_administrative_protection (user_id performed_by : string) : M Store unit :=
  try_except
    (call SetProtection user_id ;;;
     modify (fun s =>
       mkStore (set_table (upsert_item (with_protection_by performed_by)
                                       (user_id, today (base_env env))) (world s))
               (<[(user_id, today (base_env env)) := true]> (admin_protection s))
               (handler_calls s)))
    (ret tt).

Definition clear_administrative_protection (user_id : string) : M Store unit :=
  try_except
    (call ClearProtection user_id ;;;
     modify (fun s =>
       mkStore (set_table (upsert_item (fun it => it) (user_id, today (base_env env)))
                          (world s))
               (<[(user_id, today (base_env env)) := false]> (admin_protection s))
               (handler_calls s)))
    (ret tt).

Definition send_unblock_notification (user_id reason performed_by : string) : M Store unit :=
  try_except
    (call PublishUnblocked user_id ;;;
     lift (modify (add_sns (mkNotice "user_unblocked" user_id))) ;;;
     if email_service_present (base_env env) then
       try_except
         (call SendUnblockingEmail user_id ;;;
          if email_delivered (base_env env)
          then lift (modify (add_email
                 (mkNotice (if (negb (String.eqb performed_by "system")
                                && negb (String.eqb performed_by "daily_reset"))%bool
                            then "admin_unblocking" else "unblocking") user_id)))
          else ret tt)
         (ret tt)
     else ret tt)
    (ret tt).

(** [unblock_user_access(user_id, reason, event)]; [event_reason] and
    [event_performed_by] are what [event.get('reason')] and
    [event.get('performed_by')] find. *)
Definition unblock_user_access (user_id reason : string)
  (event_reason event_performed_by : option string) : M Store UnblockResponse :=
  try_except
    (call UnblockGetPolicy user_id ;;;
     found <- gets (fun s => iam_policies (world s) !! (user_id, policy_name user_id)) ;;
     match found with
     | None =>
         ret (mkUnblockResponse 200
                ("User " ++ user_id ++ " policy not found - already unblocked") true)
     | Some current_policy =>
         if negb (is_user_blocked current_policy) then
           ret (mkUnblockResponse 200 ("User " ++ user_id ++ " is not currently blocked") true)
         else
           let updated_policy := remove_deny_statement current_policy in
           call UnblockPutPolicy user_id ;;;
           lift (modify (set_iam_policies (fun m =>
             <[(user_id, policy_name user_id) := updated_policy]> m))) ;;;
           lift (update_user_block_status (base_env env) user_id "ACTIVE" reason None) ;;;
           let performed_by := default "system" event_performed_by in
           let reason := default "unspecified" event_reason in
           (if (negb (String.eqb performed_by "system")
                && negb (String.eqb performed_by "daily_reset"))%bool
            then set_administrative_protection user_id performed_by
            else if String.eqb reason "automatic_expiration"
                 then clear_administrative_protection user_id
                 else ret tt) ;;;
           send_unblock_notification user_id reason performed_by ;;;
           lift (log_operation_to_history (base_env env) user_id "UNBLOCK" reason
                                          performed_by "SUCCESS") ;;;
           ret (mkUnblockResponse 200 ("User " ++ user_id ++ " unblocked successfully") false)
     end)
    (ret (mkUnblockResponse 500 ("Error unblocking user " ++ user_id) false)).

Definition check_user_block_status (user_id : string) : M Store StatusReport :=
  try_except
    (call StatusGetPolicy user_id ;;;
     found <- gets (fun s => iam_policies (world s) !! (user_id, policy_name user_id)) ;;
     let is_blocked := match found with
                       | Some current_policy => is_user_blocked current_policy
                       | None => false
                       end in
     info <- (if is_blocked then
                try_except
                  (call StatusGetItem user_id ;;;
                   item <- gets (fun s => table (world s) !! (user_id, today (base_env env))) ;;
                   match item with
                   | Some it =>
                       ret (if Py.opt_eqb (status it) "BLOCKED" then "Manual" else "None",
                            it_blocked_at it)
                   | None => ret ("None", None)
                   end)
                  (ret ("None", None))
              else ret ("None", None)) ;;
     ret (mkStatusReport 200 is_blocked info.1 info.2))
    (ret (mkStatusReport 500 false "None" None)).

Definition lambda_handler (event : PmEvent) : M Store Answer :=
  try_except
    (match pe_action event, pe_user_id event with
     | Some action, Some user_id =>
         let reason := default "unspecified" (pe_reason event) in
         if String.eqb action "block" then
           r <- lift (block_user_access (base_env env) user_id reason
                        (default (mkUsageRecord None None) (pe_usage_record event))
                        (pe_performed_by event)) ;;
           ret (BlockAnswer r)
         else if String.eqb action "unblock" then
           r <- unblock_user_access user_id reason (pe_reason event) (pe_performed_by event) ;;
           ret (UnblockAnswer r)
         else if String.eqb action "check_status" then
           r <- check_user_block_status user_id ;;
           ret (StatusAnswer r)
         else ret (ErrorAnswer 400 ("Invalid action: " ++ action))
     | _, _ => ret (ErrorAnswer 400 "Missing required parameters: action and user_id")
     end)
    (ret (ErrorAnswer 500 "error")).

End WithEnv.

(** A store of the handlers around the stores of [PolicyManager]. *)
Definition store_of (w : World) : Store := mkStore w ∅ [].

Definition no_call_fails (o : Call) : bool := false.

End PolicyManagerHandlers.

(* ===================================================================== *)
(** * Properties *)
(* ===================================================================== *)

(** ** Running computations *)

Section Run.

Context {S : Type}.

Lemma bind_ok {A B} (m : M S A) (k : A -> M S B) s a s' :
  m s = (Ok a, s') -> bind m k s = k a s'.
Proof. intros E. unfold bind. now rewrite E. Qed.

Lemma bind_raised {A B} (m : M S A) (k : A -> M S B) s s' :
  m s = (Raised, s') -> bind m k s = (Raised, s').
Proof. intros E. unfold bind. now rewrite E. Qed.

Lemma try_ok {A} (m h : M S A) s a s' :
  m s = (Ok a, s') -> try_except m h s = (Ok a, s').
Proof. intros E. unfold try_except. now rewrite E. Qed.

Lemma try_raised {A} (m h : M S A) s s' :
  m s = (Raised, s') -> try_except m h s = h s'.
Proof. intros E. unfold try_except. now rewrite E. Qed.

Lemma total_try {A} (m h : M S A) : total h -> total (try_except m h).
Proof.
  intros Hh s. unfold try_except.
  destruct (m s) as [[a|] s']; [eauto | apply Hh].
Qed.

Lemma total_ret {A} (a : A) : total (ret (S:=S) a).
Proof. intros s. now exists a, s. Qed.

End Run.

Create HintDb run.

#[global] Hint Resolve total_try total_ret : run.

Module ControllerFacts.

Import Policy.
Import Controller.

(** *** Footprints *)

Lemma only_calls_refl w : only_calls w w.
Proof. repeat split. exists []. now rewrite app_nil_r. Qed.

Lemma only_calls_trans w1 w2 w3 :
  only_calls w1 w2 -> only_calls w2 w3 -> only_calls w1 w3.
Proof.
  intros [(?&?&?&?&?&?) [l1 Hl1]] [(?&?&?&?&?&?) [l2 Hl2]].
  repeat split; try congruence.
  exists (l1 ++ l2)%list. rewrite Hl2, Hl1. now rewrite app_assoc.
Qed.

Lemma same_tables_refl w : same_tables w w.
Proof. repeat split. exists []. now rewrite app_nil_r. Qed.

Lemma same_tables_trans w1 w2 w3 :
  same_tables w1 w2 -> same_tables w2 w3 -> same_tables w1 w3.
Proof.
  intros (?&?&?&?&[l1 Hl1]) (?&?&?&?&[l2 Hl2]).
  repeat split; try congruence.
  exists (l1 ++ l2)%list. rewrite Hl2, Hl1. now rewrite app_assoc.
Qed.

Lemma only_calls_same_tables w w' : only_calls w w' -> same_tables w w'.
Proof. intros [(?&?&?&?&?&?) ?]. repeat split; assumption. Qed.

Lemma log_call_only_calls c w : only_calls w (log_call c w).
Proof. repeat split. now exists [c]. Qed.

Lemma only_calls_log c w w' : only_calls (log_call c w) w' -> only_calls w w'.
Proof. apply only_calls_trans, log_call_only_calls. Qed.

Lemma same_tables_log c w w' : same_tables (log_call c w) w' -> same_tables w w'.
Proof. apply same_tables_trans, only_calls_same_tables, log_call_only_calls. Qed.

Lemma same_tables_mail m w : same_tables w (add_mail m w).
Proof. repeat split. exists []. simpl. now rewrite app_nil_r. Qed.

Lemma same_tables_iam f w : same_tables w (set_iam_policies f w).
Proof. repeat split. exists []. simpl. now rewrite app_nil_r. Qed.

#[local] Hint Resolve only_calls_refl same_tables_refl log_call_only_calls
  only_calls_same_tables same_tables_mail same_tables_iam : run.

(** *** What the helpers return and touch *)

Ltac unfold_m := unfold try_except, bind, ret, raise, gets, modify, call.

Lemma list_user_tags_run env o uid w :
  exists r w', list_user_tags env o uid w = (r, w') /\ only_calls w w'.
Proof.
  unfold list_user_tags. unfold_m.
  destruct (fails env o); [eauto with run|].
  destruct (user_tags env !! uid); eauto with run.
Qed.

Lemma get_user_email_run env uid w :
  exists r w', get_user_email env uid w = (Ok r, w') /\ only_calls w w'.
Proof.
  unfold get_user_email, try_except at 1, bind at 1.
  destruct (list_user_tags_run env ListEmailTags uid w) as ([tags|] & w' & E & F); rewrite E;
    unfold ret; eauto.
Qed.

Lemma get_user_person_tag_run env uid w :
  exists r w', get_user_person_tag env uid w = (Ok r, w') /\ only_calls w w'.
Proof.
  unfold get_user_person_tag, try_except at 1, bind at 1.
  destruct (list_user_tags_run env ListPersonTags uid w) as ([tags|] & w' & E & F); rewrite E;
    unfold ret; [|eauto].
  destruct (find_tag _ tags); eauto.
Qed.

Lemma get_groups_for_user_run env uid w :
  exists r w', get_groups_for_user env uid w = (r, w') /\ only_calls w w'.
Proof.
  unfold get_groups_for_user. unfold_m.
  destruct (fails env GetGroupsForUser); [eauto with run|].
  destruct (user_groups env !! uid); eauto with run.
Qed.

Lemma get_user_team_run env uid w :
  exists r w', get_user_team env uid w = (Ok r, w') /\ only_calls w w'.
Proof.
  unfold get_user_team, try_except at 1, bind at 1.
  destruct (list_user_tags_run env ListTeamTags uid w) as ([tags|] & w' & E & F); rewrite E;
    unfold ret; [|eauto].
  destruct (find_tag _ tags); [eauto|].
  unfold bind at 1, try_except at 1, bind at 1.
  destruct (get_groups_for_user_run env uid w') as ([gs|] & w'' & E' & F'); rewrite E';
    unfold ret.
  - destruct (head _); eauto using only_calls_trans.
  - eauto using only_calls_trans.
Qed.

Lemma send_gmail_email_run env to subject uid w :
  exists b w', send_gmail_email env to subject uid w = (Ok b, w') /\ same_tables w w'
               /\ iam_policies w' = iam_policies w.
Proof.
  unfold send_gmail_email. unfold_m.
  destruct (fails env SmtpSend); eexists _, _; (split; [reflexivity|]); split; try reflexivity;
    repeat split; now exists [(SmtpSend, uid)].
Qed.

Lemma send_blocking_email_gmail_run env uid w :
  exists b w', send_blocking_email_gmail env uid w = (Ok b, w') /\ same_tables w w'
               /\ iam_policies w' = iam_policies w.
Proof.
  unfold send_blocking_email_gmail, try_except at 1, bind at 1.
  destruct (get_user_email_run env uid w) as (r & w' & E & F); rewrite E.
  destruct F as [(?&?&?&?&?&?) ?].
  destruct (negb (Py.truthy r)).
  - unfold ret. eexists _, _. repeat split; eauto.
  - destruct (send_gmail_email_run env (default "" r) "AWS Bedrock Access Blocked" uid w')
      as (b & w'' & E' & F' & I'); rewrite E'.
    eexists _, _. split; [reflexivity|]. split; [|congruence].
    eapply same_tables_trans; [|apply F']. repeat split; assumption.
Qed.

Lemma send_unblocking_email_gmail_run env uid w :
  exists b w', send_unblocking_email_gmail env uid w = (Ok b, w') /\ same_tables w w'
               /\ iam_policies w' = iam_policies w.
Proof.
  unfold send_unblocking_email_gmail, try_except at 1, bind at 1.
  destruct (get_user_email_run env uid w) as (r & w' & E & F); rewrite E.
  destruct F as [(?&?&?&?&?&?) ?].
  destruct (negb (Py.truthy r)).
  - unfold ret. eexists _, _. repeat split; eauto.
  - destruct (send_gmail_email_run env (default "" r) "AWS Bedrock Access Restored" uid w')
      as (b & w'' & E' & F' & I'); rewrite E'.
    eexists _, _. split; [reflexivity|]. split; [|congruence].
    eapply same_tables_trans; [|apply F']. repeat split; assumption.
Qed.

Ltac proj_simpl :=
  cbn [user_blocking_status user_limits bedrock_requests blocking_audit_log
       iam_policies mailbox calls log_call set_iam_policies
       set_user_blocking_status set_user_limits add_request add_audit add_mail] in *.

Ltac solve_calls :=
  first [ eexists; simpl; rewrite <- ?app_assoc; simpl; reflexivity
        | exists []; simpl; now rewrite app_nil_r ].

Ltac solve_frame :=
  simpl; repeat split; try reflexivity; try solve_calls.

Lemma has_deny_sid_with_deny found : has_deny_sid (Statement (with_deny found)) = true.
Proof. destruct found; reflexivity. Qed.

Lemma implement_iam_blocking_run env uid w :
  exists b w', implement_iam_blocking env uid w = (Ok b, w')
    /\ same_tables w w' /\ mailbox w' = mailbox w
    /\ (exists l, calls w' = (calls w ++ (GetUserPolicy, uid) :: l)%list)
    /\ (fails env GetUserPolicy = true \/ fails env PutUserPolicy = true
        \/ fails env VerifyUserPolicy = true -> b = false)
    /\ (fails env GetUserPolicy = false -> fails env PutUserPolicy = false ->
        iam_policies w' = <[policy_key uid := with_deny (iam_policies w !! policy_key uid)]>
                            (iam_policies w)
        /\ (fails env VerifyUserPolicy = false -> b = true)).
Proof.
  unfold implement_iam_blocking, get_user_policy, put_user_policy, policy_key. unfold_m.
  cbv beta.
  destruct (fails env GetUserPolicy) eqn:Hg.
  { eexists _, _. split; [reflexivity|]. solve_frame; intros; intuition congruence. }
  destruct (fails env PutUserPolicy) eqn:Hp.
  { eexists _, _. split; [reflexivity|]. solve_frame; intros; intuition congruence. }
  destruct (fails env VerifyUserPolicy) eqn:Hv.
  { eexists _, _. split; [reflexivity|]. solve_frame; intros; intuition congruence. }
  proj_simpl. rewrite lookup_insert_eq.
  eexists _, _. split; [reflexivity|]. rewrite has_deny_sid_with_deny.
  solve_frame; intros; intuition congruence.
Qed.

Lemma implement_iam_unblocking_run env uid w :
  exists b w', implement_iam_unblocking env uid w = (Ok b, w')
    /\ same_tables w w' /\ mailbox w' = mailbox w
    /\ (exists l, calls w' = (calls w ++ (GetUserPolicy, uid) :: l)%list)
    /\ (fails env GetUserPolicy = true -> b = false)
    /\ (fails env GetUserPolicy = false -> fails env PutUserPolicy = false ->
        b = true /\
        iam_policies w' = match iam_policies w !! policy_key uid with
                          | Some d => <[policy_key uid := without_deny d]> (iam_policies w)
                          | None => iam_policies w
                          end).
Proof.
  unfold implement_iam_unblocking, get_user_policy, put_user_policy, policy_key. unfold_m.
  cbv beta.
  destruct (fails env GetUserPolicy) eqn:Hg.
  { eexists _, _. split; [reflexivity|]. solve_frame; intros; intuition congruence. }
  proj_simpl.
  destruct (iam_policies w !! (uid, policy_name uid)) as [d|] eqn:Hd.
  - destruct (fails env PutUserPolicy) eqn:Hp;
      eexists _, _; (split; [reflexivity|]); solve_frame; intros; intuition congruence.
  - eexists _, _. split; [reflexivity|]. solve_frame; intros; intuition congruence.
Qed.

Lemma send_enhanced_unblocking_email_run env uid reason by_ w :
  exists b w', send_enhanced_unblocking_email env uid reason by_ w = (Ok b, w')
    /\ same_tables w w' /\ iam_policies w' = iam_policies w
    /\ (EMAIL_NOTIFICATIONS_ENABLED env = true ->
        exists l, calls w' = (calls w ++ (InvokeEmailService, uid) :: l)%list).
Proof.
  unfold send_enhanced_unblocking_email, invoke_email_service. unfold_m. cbv beta.
  destruct (EMAIL_NOTIFICATIONS_ENABLED env).
  2:{ eexists _, _. split; [reflexivity|]. solve_frame. intros; discriminate. }
  destruct (fails env InvokeEmailService).
  - destruct (send_unblocking_email_gmail_run env uid (log_call (InvokeEmailService, uid) w))
      as (b & w' & E & F & I). rewrite E.
    eexists _, _. split; [reflexivity|]. split; [eapply same_tables_log, F|].
    split; [exact I|]. intros _. destruct F as (_&_&_&_&[l Hl]). exists l. rewrite Hl.
    simpl. now rewrite <- app_assoc.
  - destruct (email_service_status env =? 200) eqn:Hs; cbv beta iota; rewrite ?Hs.
    + eexists _, _. split; [reflexivity|]. solve_frame.
    + match goal with |- context [send_unblocking_email_gmail env uid ?W] =>
        destruct (send_unblocking_email_gmail_run env uid W) as (b & w' & E & F & I)
      end. rewrite E.
      eexists _, _. split; [reflexivity|]. split; [eapply same_tables_log, F|].
      split; [exact I|]. intros _. destruct F as (_&_&_&_&[l Hl]). exists l. rewrite Hl.
      simpl. now rewrite <- app_assoc.
Qed.

Lemma send_enhanced_blocking_email_run env uid reason ui by_ w :
  exists b w', send_enhanced_blocking_email env uid reason ui by_ w = (Ok b, w')
    /\ same_tables w w' /\ iam_policies w' = iam_policies w.
Proof.
  unfold send_enhanced_blocking_email, invoke_email_service. unfold_m. cbv beta.
  destruct (EMAIL_NOTIFICATIONS_ENABLED env).
  2:{ eexists _, _. split; [reflexivity|]. solve_frame. }
  destruct (fails env InvokeEmailService).
  - destruct (send_blocking_email_gmail_run env uid (log_call (InvokeEmailService, uid) w))
      as (b & w' & E & F & I). rewrite E.
    eexists _, _. split; [reflexivity|]. split; [eapply same_tables_log, F|exact I].
  - destruct (email_service_status env =? 200) eqn:Hs; cbv beta iota; rewrite ?Hs.
    + eexists _, _. split; [reflexivity|]. solve_frame.
    + match goal with |- context [send_blocking_email_gmail env uid ?W] =>
        destruct (send_blocking_email_gmail_run env uid W) as (b & w' & E & F & I)
      end. rewrite E.
      eexists _, _. split; [reflexivity|]. split; [eapply same_tables_log, F|exact I].
Qed.

(** *** Automatic unblocking *)

Lemma execute_user_unblocking_store_failure env uid w :
  fails env UpdateBlockingStatus = true ->
  execute_user_unblocking env uid w = (Ok false, log_call (UpdateBlockingStatus, uid) w).
Proof.
  intros H. unfold execute_user_unblocking. unfold_m. cbv beta. now rewrite H.
Qed.

Lemma execute_user_unblocking_run env uid w :
  fails env UpdateBlockingStatus = false ->
  exists w', execute_user_unblocking env uid w = (Ok true, w')
    /\ user_blocking_status w'
       = alter (unblock_row (get_cet_timestamp_string env)) uid (user_blocking_status w)
    /\ user_limits w'
       = (if fails env UpdateUserLimits then user_limits w
          else alter (clear_protection (get_cet_timestamp_string env)) uid (user_limits w))
    /\ bedrock_requests w' = bedrock_requests w
    /\ blocking_audit_log w'
       = (if fails env InsertAudit then blocking_audit_log w
          else blocking_audit_log w ++ [unblock_audit_row env uid])%list
    /\ exists l, calls w' = (calls w ++ (UpdateBlockingStatus, uid) :: l)%list
         /\ In (GetUserPolicy, uid) l
         /\ (EMAIL_NOTIFICATIONS_ENABLED env = true -> In (InvokeEmailService, uid) l).
Proof.
  intros H. unfold execute_user_unblocking. unfold_m. cbv beta. rewrite H. cbv beta iota.
  unfold negb.
  destruct (fails env UpdateUserLimits) eqn:Hl; destruct (fails env InsertAudit) eqn:Ha;
    cbv beta iota;
    match goal with |- context [implement_iam_unblocking env uid ?W] =>
      destruct (implement_iam_unblocking_run env uid W)
        as (b & w1 & E1 & (T1 & T2 & T3 & T4 & _) & _ & [l1 C1] & _)
    end; rewrite E1; cbv beta iota;
    match goal with |- context [send_enhanced_unblocking_email env uid ?r ?p ?W] =>
      destruct (send_enhanced_unblocking_email_run env uid r p W)
        as (b2 & w2 & E2 & (U1 & U2 & U3 & U4 & [l2 C2]) & _ & C3)
    end; rewrite E2; cbv beta iota;
    (eexists; split; [reflexivity|]);
    proj_simpl;
    (split; [rewrite U1; exact T1|]); (split; [rewrite U2; exact T2|]);
    (split; [rewrite U3; exact T3|]); (split; [rewrite U4; exact T4|]);
    eexists; (split; [rewrite C2, C1; rewrite <- ?app_assoc; simpl; reflexivity|]);
    (split; [rewrite ?in_app_iff; simpl; intuition auto|]);
    intros Hen; destruct (C3 Hen) as [l3 C4]; rewrite C4 in C2;
    apply app_inv_head in C2; subst l2;
    repeat (rewrite in_app_iff || simpl); intuition auto.
Qed.

(** *** Automatic blocking *)

Lemma execute_user_blocking_store_failure env uid reason ui w :
  fails env UpsertBlockingStatus = true ->
  execute_user_blocking env uid reason ui w
  = (Ok false, log_call (UpsertBlockingStatus, uid) w).
Proof.
  intros H. unfold execute_user_blocking. unfold_m. cbv beta. now rewrite H.
Qed.

(** Once the BlockRecord is written, the value returned is the outcome of
    the IAM step, and no later step touches the BlockRecord. *)
Lemma execute_user_blocking_run env uid reason ui w :
  fails env UpsertBlockingStatus = false ->
  exists b w1 w',
    implement_iam_blocking env uid (status_written env uid reason ui w) = (Ok b, w1)
    /\ execute_user_blocking env uid reason ui w = (Ok b, w')
    /\ user_blocking_status w' = user_blocking_status (status_written env uid reason ui w)
    /\ user_limits w' = user_limits w
    /\ bedrock_requests w' = bedrock_requests w.
Proof.
  intros H. unfold execute_user_blocking, status_written. unfold_m. cbv beta.
  rewrite H. cbv beta iota. unfold negb at 1.
  match goal with |- context [implement_iam_blocking env uid ?W] =>
    destruct (implement_iam_blocking_run env uid W)
      as (b & w1 & E1 & (T1 & T2 & T3 & T4 & _) & _)
  end. rewrite E1. cbv beta iota.
  destruct (send_blocking_email_gmail_run env uid w1)
    as (b2 & w2 & E2 & (U1 & U2 & U3 & U4 & _) & _).
  rewrite E2. cbv beta iota.
  exists b, w1. proj_simpl.
  destruct (fails env InsertAudit); destruct b; cbv beta iota; simpl negb; cbv iota;
    (eexists; split; [reflexivity|]; split; [reflexivity|]); proj_simpl;
    (split; [rewrite U1; exact T1|]); (split; [rewrite U2; exact T2|]);
    rewrite U3; exact T3.
Qed.

(** C1. Policy-sync failure is asymmetric.  Blocking: when the BlockRecord
    write goes through and the IAM step that follows it reports failure,
    [execute_user_blocking] returns [False] although the record now says
    BLOCKED.  Unblocking: when the BlockRecord write goes through,
    [execute_user_unblocking] returns [True] whatever the IAM step does (its
    failure is only logged), and the record says unblocked. *)
Theorem policy_sync_failure_asymmetric env uid reason ui w wu :
  fails env UpsertBlockingStatus = false ->
  fails env UpdateBlockingStatus = false ->
  (implement_iam_blocking env uid (status_written env uid reason ui w)).1 = Ok false ->
  ((execute_user_blocking env uid reason ui w).1 = Ok false
   /\ exists r, user_blocking_status (execute_user_blocking env uid reason ui w).2 !! uid
                = Some r
        /\ is_blocked r = "Y" /\ blocked_reason r = Some reason)
  /\ ((execute_user_unblocking env uid wu).1 = Ok true
      /\ forall r, user_blocking_status wu !! uid = Some r ->
           exists r', user_blocking_status (execute_user_unblocking env uid wu).2 !! uid
                      = Some r'
             /\ is_blocked r' = "N").
Proof.
  intros Hup Hun Hiam. split.
  - destruct (execute_user_blocking_run env uid reason ui w Hup)
      as (b & w1 & w' & E1 & E & S1 & _).
    rewrite E1 in Hiam. simpl in Hiam. injection Hiam as ->.
    rewrite E. simpl. split; [reflexivity|].
    rewrite S1. unfold status_written. proj_simpl. rewrite lookup_insert_eq.
    eexists. split; [reflexivity|].
    destruct (user_blocking_status w !! uid); split; reflexivity.
  - destruct (execute_user_unblocking_run env uid wu Hun) as (w' & E & S1 & _).
    rewrite E. simpl. split; [reflexivity|].
    intros r Hr. rewrite S1, lookup_alter_eq, Hr. simpl.
    eexists. split; reflexivity.
Qed.

(** The IAM step does fail when IAM refuses [get_user_policy]. *)
Lemma implement_iam_blocking_fails env uid w :
  fails env GetUserPolicy = true -> (implement_iam_blocking env uid w).1 = Ok false.
Proof.
  intros H. destruct (implement_iam_blocking_run env uid w)
    as (b & w' & E & _ & _ & _ & Hb & _).
  rewrite E. simpl. f_equal. apply Hb. now left.
Qed.

Lemma implement_iam_unblocking_fails env uid w :
  fails env GetUserPolicy = true -> (implement_iam_unblocking env uid w).1 = Ok false.
Proof.
  intros H. destruct (implement_iam_unblocking_run env uid w)
    as (b & w' & E & _ & _ & _ & Hb & _).
  rewrite E. simpl. f_equal. now apply Hb.
Qed.

Lemma policy_sync_failure_asymmetric_witness :
  (implement_iam_blocking Scenario.env_iam_down "u1"
     (status_written Scenario.env_iam_down "u1" "Daily limit exceeded"
        Scenario.usage_u1 Scenario.world0)).1 = Ok false
  /\ (execute_user_blocking Scenario.env_iam_down "u1" "Daily limit exceeded"
        Scenario.usage_u1 Scenario.world0).1 = Ok false
  /\ (execute_user_unblocking Scenario.env_iam_down "u3" Scenario.world0).1 = Ok true.
Proof.
  split; [reflexivity|].
  pose proof (policy_sync_failure_asymmetric Scenario.env_iam_down "u1"
                "Daily limit exceeded" Scenario.usage_u1 Scenario.world0 Scenario.world0
                eq_refl eq_refl eq_refl) as [[Hb _] _].
  pose proof (policy_sync_failure_asymmetric Scenario.env_iam_down "u3"
                "Daily limit exceeded" Scenario.usage_u1 Scenario.world0 Scenario.world0
                eq_refl eq_refl eq_refl) as [_ [Hu _]].
  split; [exact Hb | exact Hu].
Defined.

(** *** Expiration of an automatic block *)

Lemma micros_midnight m : Time.is_midnight m -> Time.micros m = Time.day m * 86400000000.
Proof. intros (h & mi & se & us). unfold Time.micros. rewrite h, mi, se, us. lia. Qed.

Lemma micros_bounds n :
  Time.well_formed n ->
  Time.day n * 86400000000 <= Time.micros n < (Time.day n + 1) * 86400000000.
Proof. intros (h & mi & se & us). unfold Time.micros. lia. Qed.

(** The aware value computed for the expiration keeps the offset of the
    current time: the arithmetic is on the wall clock. *)
Remark blocked_until_keeps_offset T :
  Time.utcoffset (blocked_until_cet T) = Time.utcoffset T.
Proof. reflexivity. Qed.

(** C7. Expiration monotonicity.  For an automatic block applied at local
    time [T] (any well-formed wall-clock reading, with whatever UTC offset
    is in force), the expiration [E] written to the BlockRecord is a local
    midnight, it is later than [T] (on the wall clock and as an instant),
    and no local midnight lies strictly between [T] and [E]: [E] is the next
    local midnight strictly after [T]. *)
Theorem automatic_block_expires_next_midnight env uid reason ui w :
  Time.well_formed (Time.wall (now env)) ->
  fails env UpsertBlockingStatus = false ->
  let T := now env in
  let E := blocked_until_cet T in
  (exists r, user_blocking_status (execute_user_blocking env uid reason ui w).2 !! uid
             = Some r
     /\ blocked_until r = Some (Time.wall E))
  /\ Time.is_midnight (Time.wall E)
  /\ Time.day (Time.wall E) = Time.day (Time.wall T) + 1
  /\ Time.micros (Time.wall T) < Time.micros (Time.wall E)
  /\ Time.instant T < Time.instant E
  /\ forall m, Time.is_midnight m -> Time.micros (Time.wall T) < Time.micros m ->
               Time.micros (Time.wall E) <= Time.micros m.
Proof.
  intros Hwf Hup T E.
  assert (HE : Time.is_midnight (Time.wall E)) by (repeat split).
  pose proof (micros_bounds _ Hwf) as HT. fold T in HT.
  pose proof (micros_midnight _ HE) as HmE.
  assert (Hday : Time.day (Time.wall E) = Time.day (Time.wall T) + 1) by reflexivity.
  split.
  { destruct (execute_user_blocking_run env uid reason ui w Hup)
      as (b & w1 & w' & _ & Ex & S1 & _).
    rewrite Ex. simpl. rewrite S1. unfold status_written. proj_simpl.
    rewrite lookup_insert_eq. eexists. split; [reflexivity|].
    destruct (user_blocking_status w !! uid); reflexivity. }
  split; [exact HE|]. split; [exact Hday|].
  split; [rewrite HmE, Hday; lia|].
  split.
  { unfold Time.instant. change (Time.utcoffset E) with (Time.utcoffset T).
    rewrite HmE, Hday. lia. }
  intros m Hm Hlt. rewrite (micros_midnight _ Hm) in *. rewrite HmE, Hday.
  assert (Time.day (Time.wall T) < Time.day m) by lia. lia.
Qed.

(** On the day the clocks go forward the stored expiration is still the
    next local midnight: read back with [CET.localize] it carries the summer
    offset and lies after the time of the block. *)
Example expiration_on_dst_day :
  Time.wall (blocked_until_cet Scenario.before_switch)
  = Time.mkNaive (Time.ymd2ord 2025 3 31) 0 0 0 0
  /\ Time.utcoffset (Time.localize Scenario.spring_forward
                       (Time.strftime (blocked_until_cet Scenario.before_switch))) = 7200
  /\ Time.instant Scenario.before_switch
     < Time.instant (Time.localize Scenario.spring_forward
                       (Time.strftime (blocked_until_cet Scenario.before_switch))).
Proof. repeat split. Qed.

Lemma automatic_block_expires_next_midnight_witness :
  Time.well_formed (Time.wall Scenario.noon)
  /\ Time.wall (blocked_until_cet Scenario.noon)
     = Time.mkNaive (Scenario.jan15 + 1) 0 0 0 0
  /\ Time.micros (Time.wall Scenario.noon)
     < Time.micros (Time.wall (blocked_until_cet Scenario.noon)).
Proof.
  assert (Hwf : Time.well_formed (Time.wall Scenario.noon))
    by (unfold Time.well_formed; simpl; lia).
  split; [exact Hwf|]. split; [reflexivity|].
  exact (proj1 (proj2 (proj2 (proj2
    (automatic_block_expires_next_midnight Scenario.env_ok "u1" "Daily limit exceeded"
       Scenario.usage_u1 Scenario.world0 Hwf eq_refl))))).
Defined.

(** *** Usage evaluation *)

(** C3. Protection overrides automatic blocking.  For an account whose
    limits row carries [administrative_safe = 'Y'], the evaluation returns
    [should_block = False], whatever the usage and the limits are and
    whichever external call fails; it changes no store.  When the limits
    row can be read, the reason is [None] and the usage is not even
    counted. *)
Theorem protection_overrides_usage env uid w row :
  user_limits w !! uid = Some row ->
  administrative_safe row = "Y" ->
  exists reason info w',
    check_user_limits_with_protection env uid w = (Ok (false, reason, info), w')
    /\ only_calls w w'
    /\ (fails env SelectUserLimits = false ->
        reason = None
        /\ info = Some (mkUsageInfo 0 0 (daily_request_limit row)
                                    (monthly_request_limit row) true)
        /\ calls w' = (calls w ++ [(SelectUserLimits, uid)])%list).
Proof.
  intros Hrow Hsafe. unfold check_user_limits_with_protection. unfold_m. cbv beta.
  destruct (fails env SelectUserLimits) eqn:Hf.
  - eexists _, _, _. split; [reflexivity|]. split; [auto with run|]. discriminate.
  - proj_simpl. rewrite Hrow. cbv beta iota. rewrite Hsafe. cbv beta iota.
    eexists _, _, _. split; [reflexivity|]. split; [auto with run|].
    intros _. repeat split.
Qed.

Lemma protection_overrides_usage_witness :
  count_daily Scenario.jan15 "u2" (bedrock_requests Scenario.world0) = 4
  /\ exists reason info w',
       check_user_limits_with_protection Scenario.env_ok "u2" Scenario.world0
       = (Ok (false, reason, info), w').
Proof.
  split; [reflexivity|].
  destruct (protection_overrides_usage Scenario.env_ok "u2" Scenario.world0
              (Scenario.limits "team_a" "Ben" 3 "Y") eq_refl eq_refl)
    as (reason & info & w' & E & _).
  exists reason, info, w'. exact E.
Defined.

(** *** Checking the blocking status *)

(** What the IAM step of an unblock leaves in the policies. *)
Lemma implement_iam_unblocking_effects env uid w :
  exists b w', implement_iam_unblocking env uid w = (Ok b, w')
    /\ same_tables w w' /\ mailbox w' = mailbox w
    /\ (exists l, calls w' = (calls w ++ (GetUserPolicy, uid) :: l)%list)
    /\ iam_policies w'
       = (if fails env GetUserPolicy then iam_policies w
          else match iam_policies w !! (uid, policy_name uid) with
               | Some d => if fails env PutUserPolicy then iam_policies w
                           else <[(uid, policy_name uid) := without_deny d]> (iam_policies w)
               | None => iam_policies w
               end).
Proof.
  unfold implement_iam_unblocking, get_user_policy, put_user_policy. unfold_m. cbv beta.
  destruct (fails env GetUserPolicy) eqn:Hg.
  { eexists _, _. split; [reflexivity|]. proj_simpl.
    split; [repeat split; solve_calls|]. split; [reflexivity|]. split; [solve_calls|].
    reflexivity. }
  proj_simpl.
  destruct (iam_policies w !! (uid, policy_name uid)) as [d|] eqn:Hd.
  - destruct (fails env PutUserPolicy) eqn:Hp;
      eexists _, _; (split; [reflexivity|]); proj_simpl;
      (split; [repeat split; solve_calls|]); (split; [reflexivity|]);
      (split; [solve_calls|]); reflexivity.
  - eexists _, _. split; [reflexivity|]. proj_simpl.
    split; [repeat split; solve_calls|]. split; [reflexivity|]. split; [solve_calls|].
    reflexivity.
Qed.

(** What the notification of an unblock leaves in the mailbox: nothing when
    notifications are disabled, one message through the e-mail service when
    it is invoked and answers 200. *)
Lemma send_enhanced_unblocking_email_effects env uid reason by_ w :
  exists b w', send_enhanced_unblocking_email env uid reason by_ w = (Ok b, w')
    /\ same_tables w w' /\ iam_policies w' = iam_policies w
    /\ (EMAIL_NOTIFICATIONS_ENABLED env = true ->
        exists l, calls w' = (calls w ++ (InvokeEmailService, uid) :: l)%list)
    /\ (EMAIL_NOTIFICATIONS_ENABLED env = false -> mailbox w' = mailbox w)
    /\ (EMAIL_NOTIFICATIONS_ENABLED env = true ->
        fails env InvokeEmailService = false ->
        email_service_status env = 200 ->
        mailbox w'
        = (mailbox w
           ++ [mkMail EmailService
                 (if (negb (String.eqb by_ "system")
                      && negb (String.eqb by_ "daily_reset"))%bool
                  then "send_admin_unblocking_email" else "send_unblocking_email")
                 uid])%list).
Proof.
  unfold send_enhanced_unblocking_email, invoke_email_service. unfold_m. cbv beta.
  destruct (EMAIL_NOTIFICATIONS_ENABLED env).
  2:{ eexists _, _. split; [reflexivity|]. solve_frame; intros; discriminate. }
  destruct (fails env InvokeEmailService).
  - destruct (send_unblocking_email_gmail_run env uid (log_call (InvokeEmailService, uid) w))
      as (b & w' & E & F & I). rewrite E.
    eexists _, _. split; [reflexivity|]. split; [eapply same_tables_log, F|].
    split; [exact I|]. split; [|split; intros; discriminate].
    intros _. destruct F as (_&_&_&_&[l Hl]). exists l. rewrite Hl.
    simpl. now rewrite <- app_assoc.
  - destruct (email_service_status env =? 200) eqn:Hs; cbv beta iota; rewrite ?Hs.
    + eexists _, _. split; [reflexivity|]. proj_simpl.
      split; [repeat split; solve_calls|]. split; [reflexivity|].
      split; [intros _; solve_calls|]. split; [intros; discriminate|]. reflexivity.
    + match goal with |- context [send_unblocking_email_gmail env uid ?W] =>
        destruct (send_unblocking_email_gmail_run env uid W) as (b & w' & E & F & I)
      end. rewrite E.
      eexists _, _. split; [reflexivity|]. split; [eapply same_tables_log, F|].
      split; [exact I|]. split; [|split; [intros; discriminate|]].
      * intros _. destruct F as (_&_&_&_&[l Hl]). exists l. rewrite Hl.
        simpl. now rewrite <- app_assoc.
      * intros _ _ H200. apply Z.eqb_neq in Hs. contradiction.
Qed.

(** The automatic unblocking once the BlockRecord update went through: what
    every store holds afterwards. *)
Lemma execute_user_unblocking_effects env uid w :
  fails env UpdateBlockingStatus = false ->
  exists w', execute_user_unblocking env uid w = (Ok true, w')
    /\ user_blocking_status w'
       = alter (unblock_row (get_cet_timestamp_string env)) uid (user_blocking_status w)
    /\ user_limits w'
       = (if fails env UpdateUserLimits then user_limits w
          else alter (clear_protection (get_cet_timestamp_string env)) uid (user_limits w))
    /\ bedrock_requests w' = bedrock_requests w
    /\ blocking_audit_log w'
       = (if fails env InsertAudit then blocking_audit_log w
          else blocking_audit_log w ++ [unblock_audit_row env uid])%list
    /\ iam_policies w'
       = (if fails env GetUserPolicy then iam_policies w
          else match iam_policies w !! (uid, policy_name uid) with
               | Some d => if fails env PutUserPolicy then iam_policies w
                           else <[(uid, policy_name uid) := without_deny d]> (iam_policies w)
               | None => iam_policies w
               end)
    /\ (EMAIL_NOTIFICATIONS_ENABLED env = false -> mailbox w' = mailbox w)
    /\ (EMAIL_NOTIFICATIONS_ENABLED env = true ->
        fails env InvokeEmailService = false ->
        email_service_status env = 200 ->
        mailbox w' = (mailbox w ++ [mkMail EmailService "send_unblocking_email" uid])%list)
    /\ exists l, calls w' = (calls w ++ (UpdateBlockingStatus, uid) :: l)%list
         /\ In (GetUserPolicy, uid) l
         /\ (EMAIL_NOTIFICATIONS_ENABLED env = true -> In (InvokeEmailService, uid) l).
Proof.
  intros H. unfold execute_user_unblocking. unfold_m. cbv beta. rewrite H. cbv beta iota.
  unfold negb.
  destruct (fails env UpdateUserLimits) eqn:Hl; destruct (fails env InsertAudit) eqn:Ha;
    cbv beta iota;
    match goal with |- context [implement_iam_unblocking env uid ?W] =>
      destruct (implement_iam_unblocking_effects env uid W)
        as (b & w1 & E1 & (T1 & T2 & T3 & T4 & _) & M1 & [l1 C1] & P1)
    end; rewrite E1; cbv beta iota;
    match goal with |- context [send_enhanced_unblocking_email env uid ?r ?p ?W] =>
      destruct (send_enhanced_unblocking_email_effects env uid r p W)
        as (b2 & w2 & E2 & (U1 & U2 & U3 & U4 & [l2 C2]) & P2 & C3 & M2 & M3)
    end; rewrite E2; cbv beta iota;
    (eexists; split; [reflexivity|]);
    proj_simpl;
    (split; [rewrite U1; exact T1|]); (split; [rewrite U2; exact T2|]);
    (split; [rewrite U3; exact T3|]); (split; [rewrite U4; exact T4|]);
    (split; [rewrite P2; exact P1|]);
    (split; [intros He; rewrite (M2 He); exact M1|]);
    (split; [intros He Hf Hs; rewrite (M3 He Hf Hs), M1; reflexivity|]);
    eexists; (split; [rewrite C2, C1; rewrite <- ?app_assoc; simpl; reflexivity|]);
    (split; [rewrite ?in_app_iff; simpl; intuition auto|]);
    intros Hen; destruct (C3 Hen) as [l3 C4]; rewrite C4 in C2;
    apply app_inv_head in C2; subst l2;
    repeat (rewrite in_app_iff || simpl); intuition auto.
Qed.

(** The claim of C9 as it is stated fails when the database does not
    answer.  Account [u3] is blocked with an expiration that has passed.
    When the update of the BlockRecord fails, the check answers "blocked"
    with the stored reason and no store has changed; when the status read
    itself fails, it answers "not blocked" without the marker and nothing
    has been done either. *)
Lemma check_status_expired_counterexample :
  (exists r, user_blocking_status Scenario.world0 !! "u3" = Some r
     /\ is_blocked r = "Y" /\ blocked_until r = Some Scenario.eleven)
  /\ Time.instant (Time.localize (CET Scenario.env_ok) Scenario.eleven)
     <= Time.instant (now Scenario.env_ok)
  /\ check_user_blocking_status (Scenario.env_with (Op_eqb UpdateBlockingStatus)) "u3"
       Scenario.world0
     = (Ok (true, Some "Daily limit exceeded"),
        log_call (UpdateBlockingStatus, "u3")
          (log_call (SelectBlockingStatus, "u3") Scenario.world0))
  /\ check_user_blocking_status (Scenario.env_with (Op_eqb SelectBlockingStatus)) "u3"
       Scenario.world0
     = (Ok (false, None), log_call (SelectBlockingStatus, "u3") Scenario.world0).
Proof.
  split; [eexists; repeat split|].
  split; [vm_compute; discriminate|].
  split; vm_compute; reflexivity.
Qed.

(** C9 (amended). Checking the blocking status is not read-only, as long
    as the database answers.  For a user whose record is blocked with a
    [blocked_until] at or before the current time:
    when the status read fails, [check_user_blocking_status] answers
    [(False, None)] and nothing is done;
    when the read succeeds and the update of the BlockRecord fails, it
    answers [(True, stored reason)] and no store has changed;
    when both succeed, the check itself has run the automatic unblocking
    and answers [(False, 'expired')]: the record is left unblocked with no
    expiration; administrative protection is cleared and one UNBLOCK audit
    row is appended, each when its own statement succeeds; the policy sync
    has been attempted, so that the user's policy is rewritten without the
    deny statement when IAM answers; and the notification has been
    attempted, so that with notifications enabled the e-mail service is
    invoked and one message leaves through it when it answers 200. *)
Theorem check_status_unblocks_expired env uid w r until :
  user_blocking_status w !! uid = Some r ->
  is_blocked r = "Y" ->
  blocked_until r = Some until ->
  Time.instant (Time.localize (CET env) until) <= Time.instant (now env) ->
  (fails env SelectBlockingStatus = true ->
   check_user_blocking_status env uid w
   = (Ok (false, None), log_call (SelectBlockingStatus, uid) w))
  /\ (fails env SelectBlockingStatus = false ->
      fails env UpdateBlockingStatus = true ->
      check_user_blocking_status env uid w
      = (Ok (true, blocked_reason r),
         log_call (UpdateBlockingStatus, uid) (log_call (SelectBlockingStatus, uid) w)))
  /\ (fails env SelectBlockingStatus = false ->
      fails env UpdateBlockingStatus = false ->
      exists w',
        check_user_blocking_status env uid w = (Ok (false, Some "expired"), w')
        /\ user_blocking_status w'
           = <[uid := unblock_row (get_cet_timestamp_string env) r]> (user_blocking_status w)
        /\ is_blocked (unblock_row (get_cet_timestamp_string env) r) = "N"
        /\ blocked_until (unblock_row (get_cet_timestamp_string env) r) = None
        /\ user_limits w'
           = (if fails env UpdateUserLimits then user_limits w
              else alter (clear_protection (get_cet_timestamp_string env)) uid
                         (user_limits w))
        /\ (forall l, administrative_safe (clear_protection (get_cet_timestamp_string env) l)
                      = "N")
        /\ bedrock_requests w' = bedrock_requests w
        /\ blocking_audit_log w'
           = (if fails env InsertAudit then blocking_audit_log w
              else blocking_audit_log w ++ [unblock_audit_row env uid])%list
        /\ iam_policies w'
           = (if fails env GetUserPolicy then iam_policies w
              else match iam_policies w !! (uid, policy_name uid) with
                   | Some d =>
                       if fails env PutUserPolicy then iam_policies w
                       else <[(uid, policy_name uid) := without_deny d]> (iam_policies w)
                   | None => iam_policies w
                   end)
        /\ (EMAIL_NOTIFICATIONS_ENABLED env = false -> mailbox w' = mailbox w)
        /\ (EMAIL_NOTIFICATIONS_ENABLED env = true ->
            fails env InvokeEmailService = false ->
            email_service_status env = 200 ->
            mailbox w'
            = (mailbox w ++ [mkMail EmailService "send_unblocking_email" uid])%list)
        /\ exists cs,
             calls w' = (calls w ++ (SelectBlockingStatus, uid)
                                    :: (UpdateBlockingStatus, uid) :: cs)%list
             /\ In (GetUserPolicy, uid) cs
             /\ (EMAIL_NOTIFICATIONS_ENABLED env = true -> In (InvokeEmailService, uid) cs)).
Proof.
  intros Hr Hb Hu Hexp. split; [|split].
  - intros Hsel. unfold check_user_blocking_status. unfold_m. cbv beta. now rewrite Hsel.
  - intros Hsel Hupd.
    unfold check_user_blocking_status. unfold_m. cbv beta. rewrite Hsel. cbv beta iota.
    proj_simpl. rewrite Hr. cbv beta iota. rewrite Hb, String.eqb_refl. cbn [negb].
    cbv beta iota. rewrite Hu. cbv beta iota.
    unfold Time.aware_geb, get_current_cet_time.
    apply Z.leb_le in Hexp. rewrite Hexp. cbv beta iota.
    now rewrite (execute_user_unblocking_store_failure env uid _ Hupd).
  - intros Hsel Hupd.
    unfold check_user_blocking_status. unfold_m. cbv beta. rewrite Hsel. cbv beta iota.
    proj_simpl. rewrite Hr. cbv beta iota. rewrite Hb, String.eqb_refl. cbn [negb].
    cbv beta iota. rewrite Hu. cbv beta iota.
    unfold Time.aware_geb, get_current_cet_time.
    apply Z.leb_le in Hexp. rewrite Hexp. cbv beta iota.
    destruct (execute_user_unblocking_effects env uid
                (log_call (SelectBlockingStatus, uid) w) Hupd)
      as (w' & E & S1 & S2 & S3 & S4 & S5 & M1 & M2 & cs & C1 & C2 & C3).
    rewrite E. cbv beta iota. exists w'. split; [reflexivity|].
    proj_simpl.
    split.
    { rewrite S1. apply map_eq. intros k. destruct (decide (k = uid)) as [->|Hk].
      - now rewrite lookup_alter_eq, lookup_insert_eq, Hr.
      - now rewrite lookup_alter_ne, lookup_insert_ne by congruence. }
    split; [reflexivity|]. split; [reflexivity|]. split; [exact S2|].
    split; [reflexivity|]. split; [exact S3|]. split; [exact S4|]. split; [exact S5|].
    split; [exact M1|]. split; [exact M2|].
    exists cs. split; [|split; assumption].
    rewrite C1. now rewrite <- app_assoc.
Qed.

Lemma check_status_unblocks_expired_witness :
  Time.instant (Time.localize (CET Scenario.env_ok) Scenario.eleven)
  <= Time.instant (now Scenario.env_ok)
  /\ exists w',
       check_user_blocking_status Scenario.env_ok "u3" Scenario.world0
       = (Ok (false, Some "expired"), w')
       /\ length (blocking_audit_log w') = 1%nat.
Proof.
  assert (H : Time.instant (Time.localize (CET Scenario.env_ok) Scenario.eleven)
              <= Time.instant (now Scenario.env_ok)) by (vm_compute; discriminate).
  split; [exact H|].
  destruct (proj2 (proj2
              (check_status_unblocks_expired Scenario.env_ok "u3" Scenario.world0
                 (Scenario.blocked_row "Daily limit exceeded" (Some Scenario.eleven))
                 Scenario.eleven eq_refl eq_refl eq_refl H)) eq_refl eq_refl)
    as (w' & E & _ & _ & _ & _ & _ & _ & A & _).
  exists w'. split; [exact E|]. rewrite A. reflexivity.
Defined.

(** An indefinite block never expires on this path: the status check
    answers "blocked" and changes no store. *)
Lemma check_status_keeps_indefinite env uid w r :
  user_blocking_status w !! uid = Some r ->
  is_blocked r = "Y" ->
  blocked_until r = None ->
  fails env SelectBlockingStatus = false ->
  check_user_blocking_status env uid w
  = (Ok (true, blocked_reason r), log_call (SelectBlockingStatus, uid) w).
Proof.
  intros Hr Hb Hu Hsel.
  unfold check_user_blocking_status. unfold_m. cbv beta. rewrite Hsel. cbv beta iota.
  proj_simpl. rewrite Hr. cbv beta iota. rewrite Hb, String.eqb_refl. cbn [negb]. cbv beta iota.
  now rewrite Hu.
Qed.

(** *** CloudTrail events of unidentified users *)

Ltac solve_reads :=
  eexists _, _, _; split; [reflexivity|]; split; [repeat split|];
  split; [proj_simpl; rewrite <- ?app_assoc; simpl; reflexivity|];
  repeat first [ apply List.Forall_nil
               | apply List.Forall_cons; [unfold is_metadata_read; simpl; tauto|] ].

Lemma get_user_team_reads env uid w :
  exists r w' cs, get_user_team env uid w = (Ok r, w')
    /\ same_stores w w' /\ calls w' = (calls w ++ cs)%list /\ Forall is_metadata_read cs.
Proof.
  unfold get_user_team, list_user_tags, get_groups_for_user. unfold_m. cbv beta.
  destruct (fails env ListTeamTags); [solve_reads|].
  destruct (user_tags env !! uid) as [tags|]; [|solve_reads].
  destruct (find_tag _ tags); [solve_reads|].
  destruct (fails env GetGroupsForUser); [solve_reads|].
  destruct (user_groups env !! uid) as [gs|]; [|solve_reads].
  destruct (head _); solve_reads.
Qed.

Lemma get_user_person_tag_reads env uid w :
  exists r w' cs, get_user_person_tag env uid w = (Ok r, w')
    /\ same_stores w w' /\ calls w' = (calls w ++ cs)%list /\ Forall is_metadata_read cs.
Proof.
  unfold get_user_person_tag, list_user_tags. unfold_m. cbv beta.
  destruct (fails env ListPersonTags); [solve_reads|].
  destruct (user_tags env !! uid) as [tags|]; [|solve_reads].
  destruct (find_tag _ tags); solve_reads.
Qed.

(** C10. An event whose user resolves to team ['unknown'] and person
    ['Unknown'] is skipped: the loop body returns the counters it was given
    and leaves every table, policy and mailbox as it was; the only calls it
    made are the reads of the user's IAM tags and groups, so no usage row
    is written, no account row is created, no limits are evaluated and no
    block or unblock is started. *)
Theorem unknown_user_event_skipped env detail c w uid :
  extract_user_from_arn (userIdentity_arn detail) = Some uid ->
  (get_user_team env uid w).1 = Ok "unknown" ->
  (get_user_person_tag env uid (get_user_team env uid w).2).1 = Ok "Unknown" ->
  exists w' cs,
    process_event env detail c w = (Ok c, w')
    /\ same_stores w w'
    /\ calls w' = (calls w ++ cs)%list
    /\ Forall is_metadata_read cs.
Proof.
  intros Hu Ht Hp. unfold process_event. rewrite Hu.
  unfold try_except at 1, bind at 1.
  destruct (get_user_team_reads env uid w) as (t & w1 & cs1 & E1 & S1 & C1 & F1).
  rewrite E1 in Ht, Hp |- *. simpl in Ht, Hp. injection Ht as ->.
  unfold bind at 1.
  destruct (get_user_person_tag_reads env uid w1) as (p & w2 & cs2 & E2 & S2 & C2 & F2).
  rewrite E2 in Hp |- *. simpl in Hp. injection Hp as ->.
  simpl. unfold ret. exists w2, (cs1 ++ cs2)%list.
  split; [reflexivity|].
  destruct S1 as (?&?&?&?&?&?), S2 as (?&?&?&?&?&?).
  split; [repeat split; congruence|].
  split; [rewrite C2, C1; now rewrite app_assoc|].
  apply Forall_app. split; assumption.
Qed.

Lemma unknown_user_event_skipped_witness :
  extract_user_from_arn (userIdentity_arn (Scenario.event_of "kb")) = Some "kb"
  /\ exists w' cs,
       process_event Scenario.env_ok (Scenario.event_of "kb") (mkCounters 0 0 0)
                     Scenario.world0
       = (Ok (mkCounters 0 0 0), w')
       /\ same_stores Scenario.world0 w'
       /\ calls w' = (calls Scenario.world0 ++ cs)%list
       /\ Forall is_metadata_read cs.
Proof.
  split; [reflexivity|].
  exact (unknown_user_event_skipped Scenario.env_ok (Scenario.event_of "kb")
           (mkCounters 0 0 0) Scenario.world0 "kb" eq_refl eq_refl eq_refl).
Defined.

(** An identified user's event does reach the stores: the filter is what
    keeps the event above out. *)
Example identified_user_event_recorded :
  length (bedrock_requests
            (process_event Scenario.env_ok (Scenario.event_of "u2") (mkCounters 0 0 0)
                           Scenario.world0).2) = 8%nat.
Proof. reflexivity. Qed.

(** *** The deny statement in the policy document *)

Lemma strip_deny_unrelated l : has_deny_sid l = false -> strip_deny l = l.
Proof.
  induction l as [|s l IH]; [reflexivity|].
  unfold has_deny_sid, strip_deny in *. simpl.
  intros H. apply orb_false_iff in H as [Hs Hl]. rewrite Hs. simpl.
  f_equal. now apply IH.
Qed.

Lemma strip_deny_deny_statement l : strip_deny (deny_statement :: l) = strip_deny l.
Proof. reflexivity. Qed.

Lemma strip_deny_idempotent l : strip_deny (strip_deny l) = strip_deny l.
Proof.
  unfold strip_deny. induction l as [|s l IH]; [reflexivity|]. simpl.
  destruct (negb (Py.opt_eqb (Sid s) DENY_STATEMENT_SID)) eqn:E; simpl.
  - rewrite E. now f_equal.
  - exact IH.
Qed.

(** The claim of C5 as the specification states it fails on a document
    without an allow statement: block followed by unblock leaves the
    unrelated deny statement followed by a new allow statement. *)
Lemma deny_roundtrip_counterexample :
  has_deny_sid (Statement Scenario.restrictive_policy) = false
  /\ Statement <$>
       (iam_policies
          (implement_iam_unblocking Scenario.env_ok "u1"
             (implement_iam_blocking Scenario.env_ok "u1" Scenario.world_restrictive).2).2
        !! policy_key "u1")
     = Some [Scenario.no_delete_stmt; Scenario.allow_stmt]
  /\ [Scenario.no_delete_stmt; Scenario.allow_stmt]
     <> Statement Scenario.restrictive_policy.
Proof. split; [reflexivity|]. split; [reflexivity|]. discriminate. Qed.

(** C5 (amended). Round trip of the deny statement.  On an existing
    document without a [DailyLimitBlock] statement, with IAM answering,
    [implement_iam_blocking] followed by [implement_iam_unblocking] both
    succeed and leave the original statements in their original order; when
    none of them has effect Allow, the default allow statement is appended
    after them.  The version and every other policy are untouched. *)
Theorem deny_roundtrip_preserves_statements env uid w d :
  iam_policies w !! policy_key uid = Some d ->
  has_deny_sid (Statement d) = false ->
  fails env GetUserPolicy = false ->
  fails env PutUserPolicy = false ->
  fails env VerifyUserPolicy = false ->
  let blocked := implement_iam_blocking env uid w in
  let unblocked := implement_iam_unblocking env uid blocked.2 in
  blocked.1 = Ok true
  /\ unblocked.1 = Ok true
  /\ iam_policies unblocked.2
     = <[policy_key uid :=
           mkDocument (Version d)
             (Statement d ++
              (if has_allow (Statement d) then []
               else [mkStmt (Some "BedrockAccess") (Some "Allow") invoke_actions "*"]))%list]>
         (iam_policies w).
Proof.
  intros Hd Hno Hg Hp Hv blocked unblocked. subst unblocked blocked.
  destruct (implement_iam_blocking_run env uid w)
    as (b & w1 & E1 & _ & _ & _ & _ & H1).
  destruct (H1 Hg Hp) as [P1 B1]. rewrite (B1 Hv) in E1. rewrite E1. simpl.
  destruct (implement_iam_unblocking_run env uid w1)
    as (b2 & w2 & E2 & _ & _ & _ & _ & H2).
  destruct (H2 Hg Hp) as [-> P2]. rewrite E2. simpl.
  split; [reflexivity|]. split; [reflexivity|].
  rewrite P2, P1, lookup_insert_eq, insert_insert_eq, Hd. f_equal.
  unfold without_deny, with_deny. cbn [Statement Version].
  rewrite strip_deny_deny_statement, strip_deny_idempotent, (strip_deny_unrelated _ Hno).
  destruct (has_allow (Statement d)); simpl; [now rewrite app_nil_r | reflexivity].
Qed.

Lemma deny_roundtrip_preserves_statements_witness :
  has_deny_sid [Scenario.allow_stmt] = false
  /\ iam_policies
       (implement_iam_unblocking Scenario.env_ok "u9"
          (implement_iam_blocking Scenario.env_ok "u9"
             (set_iam_policies
                (fun m => <[policy_key "u9" := mkDocument "2012-10-17" [Scenario.allow_stmt]]> m)
                Scenario.world0)).2).2
       !! policy_key "u9"
     = Some (mkDocument "2012-10-17" [Scenario.allow_stmt]).
Proof.
  split; [reflexivity|].
  pose proof (deny_roundtrip_preserves_statements Scenario.env_ok "u9"
                (set_iam_policies
                   (fun m => <[policy_key "u9" := mkDocument "2012-10-17" [Scenario.allow_stmt]]> m)
                   Scenario.world0)
                (mkDocument "2012-10-17" [Scenario.allow_stmt])
                eq_refl eq_refl eq_refl eq_refl eq_refl) as (_ & _ & H).
  cbv zeta in H. rewrite H. now rewrite lookup_insert_eq.
Defined.

(** *** Administrative commands *)

Lemma get_user_current_usage_run env uid w :
  exists ui w', get_user_current_usage env uid w = (Ok ui, w') /\ only_calls w w'.
Proof.
  unfold get_user_current_usage. unfold_m. cbv beta.
  destruct (fails env SelectUserLimits).
  { eexists _, _. split; [reflexivity|]. auto with run. }
  proj_simpl.
  destruct (user_limits w !! uid) as [l|]; cbv beta iota;
    destruct (fails env SelectDailyUsage); cbv beta iota;
    try destruct (fails env SelectMonthlyUsage); cbv beta iota;
    eexists _, _; (split; [reflexivity|]); (split; [repeat split | solve_calls]).
Qed.

Lemma execute_admin_blocking_run env uid reason by_ ui exp w :
  fails env UpsertBlockingStatus = false ->
  fails env InsertAudit = false ->
  exists w', execute_admin_blocking env uid reason by_ ui exp w = (Ok true, w')
    /\ user_blocking_status w'
       = <[uid := upsert_blocked reason (get_cet_timestamp_string env)
                    (admin_blocked_until env exp) (daily_requests_used ui)
                    (user_blocking_status w !! uid)]> (user_blocking_status w)
    /\ user_limits w' = user_limits w
    /\ bedrock_requests w' = bedrock_requests w
    /\ blocking_audit_log w'
       = (blocking_audit_log w ++ [admin_block_audit_row env uid reason by_])%list.
Proof.
  intros Hup Haud. unfold execute_admin_blocking. unfold_m. cbv beta.
  rewrite Hup. cbv beta iota. rewrite Haud. cbv beta iota.
  match goal with |- context [implement_iam_blocking env uid ?W] =>
    destruct (implement_iam_blocking_run env uid W)
      as (b & w1 & E1 & (T1 & T2 & T3 & T4 & _) & _)
  end. rewrite E1. cbv beta iota.
  destruct (send_enhanced_blocking_email_run env uid reason ui by_ w1)
    as (b2 & w2 & E2 & (U1 & U2 & U3 & U4 & _) & _).
  rewrite E2. cbv beta iota. proj_simpl.
  exists w2. split; [reflexivity|].
  split; [rewrite U1; exact T1|]. split; [rewrite U2; exact T2|].
  split; [rewrite U3; exact T3|]. rewrite U4; exact T4.
Qed.

(** The claim of C6 as the specification states it fails on an
    [expires_at] that does not parse: the command is answered 200 and the
    BlockRecord and the audit log are written. *)
Lemma unparseable_expiry_counterexample :
  fromisoformat Scenario.env_ok (replace_Z "next tuesday") = None
  /\ status_of
       (handle_api_event Scenario.env_ok
          (mkApiEvent (Some "block") (Some "u1") None None (Some "next tuesday") None)
          Scenario.world0).1
     = Some 200
  /\ user_blocking_status Scenario.world0 !! "u1" = None
  /\ is_blocked <$>
       (user_blocking_status
          (handle_api_event Scenario.env_ok
             (mkApiEvent (Some "block") (Some "u1") None None (Some "next tuesday") None)
             Scenario.world0).2 !! "u1")
     = Some "Y"
  /\ length (blocking_audit_log
       (handle_api_event Scenario.env_ok
          (mkApiEvent (Some "block") (Some "u1") None None (Some "next tuesday") None)
          Scenario.world0).2) = 1%nat.
Proof. repeat split. Qed.

(** C6 (amended). A command with an unknown action is rejected with a 400
    answer and changes nothing, not even the record of calls.  The duration
    token is never read: the command behaves the same with any other token.
    An [expires_at] that does not parse is not rejected: with the store
    writes going through, the block is applied with the default expiration
    of 24 hours from now, an audit row is appended and the answer is 200. *)
Theorem admin_request_validation env event w uid :
  ev_user_id event = Some uid ->
  (forall act, action event = Some act ->
     act <> "block" -> act <> "unblock" -> act <> "check_status" ->
     handle_api_event env event w
     = (Ok (mkResponse 400 [("error", JStr ("Invalid action: " ++ act))]), w))
  /\ (forall d, handle_api_event env (with_duration d event) w = handle_api_event env event w)
  /\ (forall exp, action event = Some "block" ->
        ev_expires_at event = Some exp ->
        exp <> "" -> exp <> "Indefinite" ->
        fromisoformat env (replace_Z exp) = None ->
        fails env UpsertBlockingStatus = false ->
        fails env InsertAudit = false ->
        exists resp w',
          handle_api_event env event w = (Ok resp, w')
          /\ statusCode resp = 200
          /\ (exists r, user_blocking_status w' !! uid = Some r
                /\ is_blocked r = "Y"
                /\ blocked_until r
                   = Some (Time.strftime (Time.add_24_hours (now env))))
          /\ blocking_audit_log w'
             = (blocking_audit_log w
                ++ [admin_block_audit_row env uid
                      (default "Manual admin block" (ev_reason event))
                      (default "admin" (ev_performed_by event))])%list).
Proof.
  intros Huid. split; [|split].
  - intros act Hact Hb Hu Hc. unfold handle_api_event. rewrite Hact, Huid.
    apply String.eqb_neq in Hb, Hu, Hc. rewrite Hb, Hu, Hc. reflexivity.
  - intros d. destruct event. reflexivity.
  - intros exp Hact Hexp Hne Hni Hparse Hup Haud.
    unfold handle_api_event. rewrite Hact, Huid. cbn [String.eqb Ascii.eqb Bool.eqb].
    cbv iota. unfold manual_block_user. rewrite Huid, Hexp. cbn [default id].
    unfold try_except at 1 2, bind at 1.
    destruct (get_user_current_usage_run env uid w)
      as (ui & w1 & E1 & (S1 & S2 & S3 & S4 & _ & _) & _).
    rewrite E1. unfold bind at 1.
    destruct (execute_admin_blocking_run env uid
                (default "Manual admin block" (ev_reason event))
                (default "admin" (ev_performed_by event)) ui (Some exp) w1 Hup Haud)
      as (w2 & E2 & B1 & _ & _ & B4).
    rewrite E2. unfold ret. eexists _, w2. split; [reflexivity|].
    split; [reflexivity|]. split.
    + rewrite B1, lookup_insert_eq. eexists. split; [reflexivity|].
      assert (admin_blocked_until env (Some exp)
              = Some (Time.strftime (Time.add_24_hours (now env)))) as ->.
      { unfold admin_blocked_until. simpl.
        apply String.eqb_neq in Hne, Hni. rewrite Hne, Hni. simpl. now rewrite Hparse. }
      destruct (user_blocking_status w1 !! uid); split; reflexivity.
    + rewrite B4, S4. reflexivity.
Qed.

Lemma admin_request_validation_witness :
  ("purge" <> "block" /\ "purge" <> "unblock" /\ "purge" <> "check_status")
  /\ handle_api_event Scenario.env_ok
       (mkApiEvent (Some "purge") (Some "u1") None None None (Some "1day")) Scenario.world0
     = (Ok (mkResponse 400 [("error", JStr "Invalid action: purge")]), Scenario.world0).
Proof.
  assert (H : "purge" <> "block" /\ "purge" <> "unblock" /\ "purge" <> "check_status")
    by (repeat split; discriminate).
  split; [exact H|].
  destruct H as (H1 & H2 & H3).
  exact (proj1 (admin_request_validation Scenario.env_ok
                  (mkApiEvent (Some "purge") (Some "u1") None None None (Some "1day"))
                  Scenario.world0 "u1" eq_refl) "purge" eq_refl H1 H2 H3).
Defined.

(** *** Events and commands for an account that is already blocked *)

Lemma ensure_user_exists_present env uid t p w :
  is_Some (user_limits w !! uid) ->
  exists w', ensure_user_exists env uid t p w = (Ok tt, w') /\ only_calls w w'.
Proof.
  intros [l Hl]. unfold ensure_user_exists. unfold_m. cbv beta.
  destruct (fails env SelectUserLimits); cbv beta iota.
  - eexists. split; [reflexivity|]. auto with run.
  - proj_simpl. rewrite Hl. eexists. split; [reflexivity|]. auto with run.
Qed.

Lemma check_status_still_blocked env uid w r :
  user_blocking_status w !! uid = Some r ->
  is_blocked r = "Y" ->
  (blocked_until r = None
   \/ exists t, blocked_until r = Some t
        /\ Time.instant (now env) < Time.instant (Time.localize (CET env) t)) ->
  fails env SelectBlockingStatus = false ->
  check_user_blocking_status env uid w
  = (Ok (true, blocked_reason r), log_call (SelectBlockingStatus, uid) w).
Proof.
  intros Hr Hb [Hu | (t & Hu & Hlt)] Hsel; [now apply check_status_keeps_indefinite|].
  unfold check_user_blocking_status. unfold_m. cbv beta. rewrite Hsel. cbv beta iota.
  proj_simpl. rewrite Hr. cbv beta iota. rewrite Hb, String.eqb_refl. cbn [negb].
  cbv beta iota. rewrite Hu. cbv beta iota.
  unfold Time.aware_geb, get_current_cet_time.
  apply Z.leb_gt in Hlt. now rewrite Hlt.
Qed.

(** [ensure_user_exists] never raises.  The only store it can change is
    [user_limits], where it inserts the default row of a user that has
    none. *)
Lemma ensure_user_exists_run env uid t p w :
  exists w', ensure_user_exists env uid t p w = (Ok tt, w')
    /\ user_blocking_status w' = user_blocking_status w
    /\ bedrock_requests w' = bedrock_requests w
    /\ blocking_audit_log w' = blocking_audit_log w
    /\ iam_policies w' = iam_policies w
    /\ mailbox w' = mailbox w
    /\ (user_limits w' = user_limits w
        \/ (user_limits w !! uid = None
            /\ user_limits w'
               = <[uid := mkLimitsRow t p 350 5000 "N"
                            (Some (get_cet_timestamp_string env)) None]> (user_limits w))).
Proof.
  unfold ensure_user_exists. unfold_m. cbv beta.
  destruct (fails env SelectUserLimits); cbv beta iota.
  { eexists. split; [reflexivity|]. repeat split. now left. }
  proj_simpl. destruct (user_limits w !! uid) as [l|] eqn:Hl.
  { eexists. split; [reflexivity|]. repeat split. now left. }
  destruct (fails env InsertUserLimits); cbv beta iota.
  { eexists. split; [reflexivity|]. repeat split. now left. }
  eexists. split; [reflexivity|]. proj_simpl. repeat split. right. now split.
Qed.

(** A usage event of an account that is blocked and not expired is
    dropped: the counters stay as they are, and the only store that can
    change is [user_limits], when the account had no row there. *)
Lemma blocked_user_event_dropped env detail c w uid r :
  extract_user_from_arn (userIdentity_arn detail) = Some uid ->
  user_blocking_status w !! uid = Some r ->
  is_blocked r = "Y" ->
  (blocked_until r = None
   \/ exists t, blocked_until r = Some t
        /\ Time.instant (now env) < Time.instant (Time.localize (CET env) t)) ->
  blocked_reason r <> Some "expired" ->
  fails env SelectBlockingStatus = false ->
  exists w', process_event env detail c w = (Ok c, w')
    /\ user_blocking_status w' = user_blocking_status w
    /\ bedrock_requests w' = bedrock_requests w
    /\ blocking_audit_log w' = blocking_audit_log w
    /\ iam_policies w' = iam_policies w
    /\ mailbox w' = mailbox w
    /\ (user_limits w' = user_limits w
        \/ (user_limits w !! uid = None
            /\ exists t p,
                 user_limits w'
                 = <[uid := mkLimitsRow t p 350 5000 "N"
                              (Some (get_cet_timestamp_string env)) None]> (user_limits w))).
Proof.
  intros Hu Hr Hb Hexp Hreason Hsel. unfold process_event. rewrite Hu.
  unfold try_except at 1, bind at 1.
  destruct (get_user_team_reads env uid w) as (t & w1 & cs1 & E1 & S1 & _).
  rewrite E1. unfold bind at 1.
  destruct (get_user_person_tag_reads env uid w1) as (p & w2 & cs2 & E2 & S2 & _).
  rewrite E2.
  assert (S12 : same_stores w w2).
  { destruct S1 as (?&?&?&?&?&?), S2 as (?&?&?&?&?&?). repeat split; congruence. }
  destruct S12 as (A1 & A2 & A3 & A4 & A5 & A6).
  destruct (_ && _)%bool.
  { unfold ret. exists w2. split; [reflexivity|]. repeat split; try assumption. now left. }
  unfold bind at 1.
  destruct (ensure_user_exists_run env uid t p w2) as (w3 & E3 & B1 & B3 & B4 & B5 & B6 & B2).
  rewrite E3. unfold bind at 1.
  assert (Hr3 : user_blocking_status w3 !! uid = Some r) by (rewrite B1, A1; exact Hr).
  rewrite (check_status_still_blocked env uid w3 r Hr3 Hb Hexp Hsel).
  assert (Py.opt_eqb (blocked_reason r) "expired" = false) as ->.
  { destruct (blocked_reason r) as [s|]; [|reflexivity]. simpl.
    apply String.eqb_neq. congruence. }
  simpl. unfold ret. eexists. split; [reflexivity|]. proj_simpl.
  split; [congruence|]. split; [congruence|]. split; [congruence|].
  split; [congruence|]. split; [congruence|].
  destruct B2 as [B2 | [Hnone B2]]; [left; congruence|].
  right. split; [congruence|]. exists t, p. now rewrite B2, A2.
Qed.

(** The answer of [manual_block_user] never carries an ['already_blocked']
    key. *)
Lemma manual_block_user_no_indicator env event w :
  exists resp w', manual_block_user env event w = (Ok resp, w')
    /\ Py.assoc "already_blocked" (body resp) = None.
Proof.
  unfold manual_block_user. unfold try_except at 1. unfold bind at 1.
  destruct (get_user_current_usage env _ w) as [[ui|] w1];
    [unfold bind at 1;
     destruct (execute_admin_blocking env _ _ _ ui _ w1) as [[[|]|] w2]|];
    eexists _, _; (split; [reflexivity|]); reflexivity.
Qed.

(** The claim of C4 as the specification states it fails in the realtime
    controller: a manual block of [u4], which is already blocked, is
    answered 200 without any "already blocked" key, rewrites the
    BlockRecord (it now expires in 24 hours), appends an audit row and
    sends a notification. *)
Lemma block_again_counterexample :
  (exists r, user_blocking_status Scenario.world0 !! "u4" = Some r
     /\ is_blocked r = "Y" /\ blocked_until r = None)
  /\ exists resp w',
       handle_api_event Scenario.env_ok
         (mkApiEvent (Some "block") (Some "u4") (Some "again") (Some "admin1") None None)
         Scenario.world0 = (Ok resp, w')
       /\ statusCode resp = 200
       /\ Py.assoc "already_blocked" (body resp) = None
       /\ (blocked_until <$> user_blocking_status w' !! "u4")
          = Some (Some (Time.mkNaive (Scenario.jan15 + 1) 12 0 0 0))
       /\ length (blocking_audit_log w') = 1%nat
       /\ length (mailbox w') = 1%nat.
Proof.
  split; [eexists; repeat split|].
  eexists _, _. split; [vm_compute; reflexivity|]. repeat split.
Qed.


End ControllerFacts.

(* ===================================================================== *)
(** ** The sweep of the daily reset *)
(* ===================================================================== *)

Module DailyResetFacts.

Import Controller.
Import DailyReset.

(** Which accounts pass 1 of the sweep selects. *)
Lemma select_expired_spec cet_now w uid :
  In uid (select_expired_blocked_users cet_now w)
  <-> exists r, user_blocking_status w !! uid = Some r
        /\ is_blocked r = "Y"
        /\ (blocked_until r = None
            \/ exists t, blocked_until r = Some t
                 /\ Time.micros t <= Time.micros (Time.wall cet_now))
        /\ is_Some (user_limits w !! uid).
Proof.
  unfold select_expired_blocked_users. rewrite in_map_iff. split.
  - intros ([u r] & Hu & Hin). simpl in Hu. subst u.
    apply filter_In in Hin as [Hin Hf].
    apply list_elem_of_In, elem_of_map_to_list in Hin.
    unfold is_expired_block in Hf. simpl in Hf.
    apply andb_true_iff in Hf as [Hf Hl]. apply andb_true_iff in Hf as [Hb Ht].
    exists r. split; [exact Hin|]. split; [now apply String.eqb_eq|]. split.
    + destruct (blocked_until r) as [t|]; [right|now left].
      exists t. split; [reflexivity|]. now apply Z.leb_le.
    + destruct (user_limits w !! uid); [eauto|discriminate].
  - intros (r & Hr & Hb & Ht & Hl). exists (uid, r). split; [reflexivity|].
    apply filter_In. split.
    + now apply list_elem_of_In, elem_of_map_to_list.
    + unfold is_expired_block. simpl. rewrite Hb, String.eqb_refl. simpl.
      destruct Hl as [l ->]. rewrite andb_true_r.
      destruct Ht as [-> | (t & -> & Hle)]; [reflexivity|].
      now apply Z.leb_le.
Qed.




(** A block with an expiration in the future is not selected. *)
Lemma unexpired_block_not_selected cet_now w uid r t :
  user_blocking_status w !! uid = Some r ->
  blocked_until r = Some t ->
  Time.micros (Time.wall cet_now) < Time.micros t ->
  ~ In uid (select_expired_blocked_users cet_now w).
Proof.
  intros Hr Ht Hlt. rewrite select_expired_spec.
  intros (r' & Hr' & _ & [Hn | (t' & Ht' & Hle)] & _);
    rewrite Hr in Hr'; injection Hr' as <-; rewrite Ht in *; [discriminate|].
  injection Ht' as <-. lia.
Qed.

End DailyResetFacts.

(* ===================================================================== *)
(** ** The policy manager *)
(* ===================================================================== *)

Module PolicyManagerFacts.

Import Policy.
Import PolicyManager.

Ltac unfold_pm := unfold try_except, bind, ret, raise, gets, modify, call.

Ltac proj_pm :=
  cbn [iam_policies table sns_messages emails history calls log_call
       set_iam_policies set_table add_sns add_email add_history] in *.

(** The warning is best-effort: it never raises, and it touches nothing but
    the outgoing messages. *)
Lemma send_warning_notification_run env uid ur w :
  exists w', send_warning_notification env uid ur w = (Ok tt, w')
    /\ iam_policies w' = iam_policies w
    /\ table w' = table w
    /\ history w' = history w
    /\ (exists l, sns_messages w' = (sns_messages w ++ l)%list /\ Forall is_warning_sns l)
    /\ (exists l, emails w' = (emails w ++ l)%list /\ Forall is_warning_email l)
    /\ (fails env PublishWarning = false ->
        exists l, sns_messages w' = (sns_messages w ++ mkNotice "user_warning" uid :: l)%list).
Proof.
  unfold send_warning_notification. unfold_pm. cbv beta.
  destruct (fails env PublishWarning); cbv beta iota.
  { eexists. split; [reflexivity|]. proj_pm. repeat split.
    - exists []. rewrite app_nil_r. split; [reflexivity | constructor].
    - exists []. rewrite app_nil_r. split; [reflexivity | constructor].
    - discriminate. }
  destruct (email_service_present env); cbv beta iota;
    [destruct (fails env SendWarningEmail); cbv beta iota;
     [|destruct (email_delivered env); cbv beta iota]|];
    (eexists; split; [reflexivity|]); proj_pm; repeat split;
    try (exists [mkNotice "user_warning" uid]; split;
         [reflexivity | repeat constructor]);
    try (exists []; rewrite app_nil_r; split; [reflexivity | constructor]);
    try (exists [mkNotice "warning" uid]; split; [reflexivity | repeat constructor]);
    try (intros _; exists []; reflexivity).
Qed.

(** *** Computations that differ only in the notifier *)

Lemma same_core_refl w : same_core w w.
Proof. repeat split. Qed.









Lemma send_warning_notification_quiet env uid ur w :
  exists w', send_warning_notification env uid ur w = (Ok tt, w') /\ same_core w w'.
Proof.
  destruct (send_warning_notification_run env uid ur w) as (w' & E & H1 & H2 & H3 & _).
  exists w'. repeat split; assumption.
Qed.

Lemma send_block_notification_quiet env uid reason by_ w :
  exists w', send_block_notification env uid reason by_ w = (Ok tt, w') /\ same_core w w'.
Proof.
  unfold send_block_notification. unfold_pm. cbv beta.
  destruct (fails env PublishBlocked); cbv beta iota;
    [eexists; split; [reflexivity | repeat split]|].
  destruct (email_service_present env); cbv beta iota;
    [destruct (fails env SendBlockingEmail); cbv beta iota;
     [|destruct (email_delivered env); cbv beta iota]|];
    eexists; (split; [reflexivity | repeat split]).
Qed.




(** *** SNS messages are only ever appended *)










(** *** Blocking an account that is already blocked *)

Lemma already_blocked_is_noop env uid reason ur by_ w d :
  iam_policies w !! (uid, policy_name uid) = Some d ->
  is_user_blocked d = true ->
  fails env GetUserPolicy = false ->
  exists w',
    block_user_access env uid reason ur by_ w
    = (Ok (mkResponse 200 ("User " ++ uid ++ " is already blocked") true), w')
    /\ same_core w w'
    /\ (exists l, sns_messages w' = (sns_messages w ++ l)%list /\ Forall is_warning_sns l)
    /\ (exists l, emails w' = (emails w ++ l)%list /\ Forall is_warning_email l).
Proof.
  intros Hd Hb Hg. unfold block_user_access. unfold try_except at 1, bind at 1.
  assert (exists w1,
            (if ((warning_threshold (default 250 (ur_daily_limit ur))
                  <=? default 0 (ur_request_count ur))
                 && (default 0 (ur_request_count ur) <? default 250 (ur_daily_limit ur)))%bool
             then send_warning_notification env uid ur else ret tt) w = (Ok tt, w1)
            /\ iam_policies w1 = iam_policies w /\ table w1 = table w
            /\ history w1 = history w
            /\ (exists l, sns_messages w1 = (sns_messages w ++ l)%list
                  /\ Forall is_warning_sns l)
            /\ (exists l, emails w1 = (emails w ++ l)%list /\ Forall is_warning_email l))
    as (w1 & E1 & I1 & T1 & H1 & S1 & M1).
  { destruct (_ && _)%bool.
    - destruct (send_warning_notification_run env uid ur w)
        as (w1 & E & ? & ? & ? & ? & ? & _). exists w1. repeat split; assumption.
    - exists w. repeat split; exists []; rewrite app_nil_r; (split; [reflexivity|constructor]). }
  rewrite E1. unfold get_or_create_user_policy. unfold_pm. cbv beta.
  rewrite Hg. cbv beta iota. proj_pm. rewrite I1, Hd. cbv beta iota. rewrite Hb.
  eexists. split; [reflexivity|]. proj_pm.
  split; [repeat split; assumption|]. split; assumption.
Qed.

(** C4 (amended). A block request on an account that is already blocked.
    In the policy manager, when the account's policy can be read and
    already carries the deny statement, [block_user_access] writes no
    policy, no usage-table item and no history entry, sends no block
    notification (at most the 80% warning), and answers 200 with
    [already_blocked = True].  In the realtime controller a usage event of
    an account whose BlockRecord is blocked, without expiration or not yet
    expired, with a stored reason other than the text ['expired'] and the
    status read succeeding, is dropped: the counters stay as they are and
    no BlockRecord, request row, audit row, policy or mail is written.  The
    only store such an event can change is [user_limits], where
    [ensure_user_exists] inserts the default row of an account that has
    none; with a row there, no store changes at all.  A manual block has no
    such guard: with the BlockRecord write and the audit insert going
    through, [execute_admin_blocking] on a blocked account rewrites the
    BlockRecord with the new reason and expiration and appends a BLOCK
    audit row, and the answer of [manual_block_user] never carries an
    ['already_blocked'] key. *)
Theorem block_on_blocked_account
  (penv : Env) uid reason ur by_ (pw : World) d
  (cenv : Controller.Env) cuid creason cby ui exp (cw : Controller.World) r :
  (iam_policies pw !! (uid, policy_name uid) = Some d ->
   is_user_blocked d = true ->
   fails penv GetUserPolicy = false ->
   exists pw',
     block_user_access penv uid reason ur by_ pw
     = (Ok (mkResponse 200 ("User " ++ uid ++ " is already blocked") true), pw')
     /\ same_core pw pw'
     /\ (exists l, sns_messages pw' = (sns_messages pw ++ l)%list /\ Forall is_warning_sns l)
     /\ (exists l, emails pw' = (emails pw ++ l)%list /\ Forall is_warning_email l))
  /\ (Controller.user_blocking_status cw !! cuid = Some r ->
      Controller.is_blocked r = "Y" ->
      (forall detail c,
         Controller.extract_user_from_arn (Controller.userIdentity_arn detail) = Some cuid ->
         (Controller.blocked_until r = None
          \/ exists t, Controller.blocked_until r = Some t
               /\ Time.instant (Controller.now cenv)
                  < Time.instant (Time.localize (Controller.CET cenv) t)) ->
         Controller.blocked_reason r <> Some "expired" ->
         Controller.fails cenv Controller.SelectBlockingStatus = false ->
         exists cw', Controller.process_event cenv detail c cw = (Ok c, cw')
           /\ Controller.user_blocking_status cw' = Controller.user_blocking_status cw
           /\ Controller.bedrock_requests cw' = Controller.bedrock_requests cw
           /\ Controller.blocking_audit_log cw' = Controller.blocking_audit_log cw
           /\ Controller.iam_policies cw' = Controller.iam_policies cw
           /\ Controller.mailbox cw' = Controller.mailbox cw
           /\ (Controller.user_limits cw' = Controller.user_limits cw
               \/ (Controller.user_limits cw !! cuid = None
                   /\ exists t p,
                        Controller.user_limits cw'
                        = <[cuid := Controller.mkLimitsRow t p 350 5000 "N"
                                      (Some (Controller.get_cet_timestamp_string cenv)) None]>
                            (Controller.user_limits cw)))
           /\ (is_Some (Controller.user_limits cw !! cuid) -> Controller.same_stores cw cw'))
      /\ (Controller.fails cenv Controller.UpsertBlockingStatus = false ->
          Controller.fails cenv Controller.InsertAudit = false ->
          exists cw',
            Controller.execute_admin_blocking cenv cuid creason cby ui exp cw = (Ok true, cw')
            /\ Controller.user_blocking_status cw' !! cuid
               = Some (Controller.upsert_blocked creason
                         (Controller.get_cet_timestamp_string cenv)
                         (Controller.admin_blocked_until cenv exp)
                         (Controller.daily_requests_used ui) (Some r))
            /\ Controller.blocking_audit_log cw'
               = (Controller.blocking_audit_log cw
                  ++ [Controller.admin_block_audit_row cenv cuid creason cby])%list))
  /\ (forall event w0, exists resp w',
        Controller.manual_block_user cenv event w0 = (Ok resp, w')
        /\ Py.assoc "already_blocked" (Controller.body resp) = None).
Proof.
  split; [|split].
  - intros Hd Hb Hg. now apply (already_blocked_is_noop penv uid reason ur by_ pw d).
  - intros Hr Hy. split.
    + intros detail c Hu Hexp Hreason Hsel.
      destruct (ControllerFacts.blocked_user_event_dropped cenv detail c cw cuid r
                  Hu Hr Hy Hexp Hreason Hsel)
        as (cw' & E & S1 & S3 & S4 & S5 & S6 & S2).
      exists cw'. split; [exact E|]. do 5 (split; [assumption|]).
      split; [exact S2|]. intros [l Hl].
      destruct S2 as [S2 | [Hnone _]]; [|congruence].
      repeat split; assumption.
    + intros Hup Haud.
      destruct (ControllerFacts.execute_admin_blocking_run cenv cuid creason cby ui exp cw
                  Hup Haud) as (cw' & E & B1 & _ & _ & B4).
      exists cw'. split; [exact E|]. split; [|exact B4].
      rewrite B1, lookup_insert_eq, Hr. reflexivity.
  - intros event w0. apply ControllerFacts.manual_block_user_no_indicator.
Qed.

Lemma block_on_blocked_account_witness :
  is_user_blocked (mkDocument "2012-10-17"
                     [create_deny_statement; PolicyScenario.allow_stmt]) = true
  /\ (exists pw',
        block_user_access PolicyScenario.env_ok "u6" "Daily limit exceeded"
          PolicyScenario.usage_over (Some "system") PolicyScenario.world0
        = (Ok (mkResponse 200 "User u6 is already blocked" true), pw')
        /\ same_core PolicyScenario.world0 pw')
  /\ exists cw',
       Controller.process_event Scenario.env_ok (Scenario.event_of "u4")
         (Controller.mkCounters 0 0 0) Scenario.world0
       = (Ok (Controller.mkCounters 0 0 0), cw')
       /\ Controller.same_stores Scenario.world0 cw'.
Proof.
  split; [reflexivity|].
  destruct (block_on_blocked_account PolicyScenario.env_ok "u6" "Daily limit exceeded"
              PolicyScenario.usage_over (Some "system") PolicyScenario.world0
              (mkDocument "2012-10-17" [create_deny_statement; PolicyScenario.allow_stmt])
              Scenario.env_ok "u4" "again" "admin1" Scenario.usage_u1 None Scenario.world0
              (Scenario.blocked_row "Manual admin block" None))
    as (Hpm & Hct & _).
  destruct (Hpm eq_refl eq_refl eq_refl) as (pw' & E & C & _).
  split; [exists pw'; split; [exact E | exact C]|].
  destruct (Hct eq_refl eq_refl) as [Hev _].
  destruct (Hev (Scenario.event_of "u4") (Controller.mkCounters 0 0 0)
              eq_refl (or_introl eq_refl) ltac:(discriminate) eq_refl)
    as (cw' & Ec & _ & _ & _ & _ & _ & _ & Hs).
  exists cw'. split; [exact Ec|]. apply Hs. eexists. reflexivity.
Defined.

(** *** The 80% warning *)




End PolicyManagerFacts.

(* ===================================================================== *)
(** ** Further properties of the realtime controller *)
(* ===================================================================== *)

Module ControllerExtra.

Import Policy.
Import Controller.
Import Notions.
Import ControllerFacts.

#[local] Hint Resolve only_calls_refl same_tables_refl log_call_only_calls
  only_calls_same_tables same_tables_mail same_tables_iam : run.

(** *** Reading the user out of an ARN *)

Lemma append_cons c a b : String c a ++ b = String c (a ++ b).
Proof. reflexivity. Qed.

Lemma drop_prefix_app p s : drop_prefix p (p ++ s) = Some s.
Proof.
  induction p as [|a p IH]; [reflexivity|].
  rewrite append_cons. simpl. now rewrite Ascii.eqb_refl.
Qed.

Lemma drop_prefix_some p s r : drop_prefix p s = Some r -> s = p ++ r.
Proof.
  revert s. induction p as [|a p IH]; intros s; simpl.
  - now intros [= ->].
  - destruct s as [|b s]; [discriminate|].
    destruct (Ascii.eqb a b) eqn:E; [|discriminate].
    apply Ascii.eqb_eq in E as ->. intros H. now rewrite append_cons, <- (IH _ H).
Qed.

Lemma skip_while_digits acct rest :
  all_chars is_digit acct = true ->
  skip_while is_digit (acct ++ String ":"%char rest) = String ":"%char rest.
Proof.
  induction acct as [|c acct IH]; [reflexivity|].
  rewrite append_cons. simpl.
  intros H. apply andb_true_iff in H as [Hc Hr]. rewrite Hc. now apply IH.
Qed.

Lemma until_newline_line s : all_chars not_newline s = true -> until_newline s = s.
Proof.
  induction s as [|c s IH]; simpl; [reflexivity|].
  unfold not_newline at 1. intros H. apply andb_true_iff in H as [Hc Hr].
  apply negb_true_iff in Hc. rewrite Hc. now rewrite IH.
Qed.

Lemma re_search_here m s g : m s = Some g -> re_search m s = Some g.
Proof. intros H. destruct s; simpl; now rewrite H. Qed.

Lemma re_search_some m s g :
  re_search m s = Some g -> exists p t, s = p ++ t /\ m t = Some g.
Proof.
  induction s as [|c s IH]; simpl.
  - destruct (m "") eqn:E; [|discriminate]. intros [= ->]. now exists "", "".
  - destruct (m (String c s)) eqn:E.
    + intros [= ->]. now exists "", (String c s).
    + intros H. destruct (IH H) as (p & t & -> & Ht). now exists (String c p), t.
Qed.

Lemma skip_while_suffix p s : exists q, s = q ++ skip_while p s.
Proof.
  induction s as [|c s [q IH]]; simpl; [now exists ""|].
  destruct (p c); [|now exists ""].
  exists (String c q). rewrite append_cons. f_equal. exact IH.
Qed.

Lemma plus_class_some p s r : plus_class p s = Some r -> exists q, s = q ++ r.
Proof.
  destruct s as [|c s]; simpl; [discriminate|].
  destruct (p c); [|discriminate]. intros [= <-].
  destruct (skip_while_suffix p s) as [q Hq]. exists (String c q). rewrite append_cons. f_equal. exact Hq.
Qed.

Lemma until_newline_prefix s :
  all_chars not_newline (until_newline s) = true /\ exists q, s = until_newline s ++ q.
Proof.
  induction s as [|c s [IH1 [q IH2]]]; simpl; [split; [reflexivity | now exists ""]|].
  destruct (Ascii.eqb c newline) eqn:E; simpl.
  - split; [reflexivity|]. now exists (String c s).
  - unfold not_newline at 1. rewrite E, IH1. split; [reflexivity|].
    exists q. rewrite append_cons. f_equal. exact IH2.
Qed.

Lemma dot_plus_some s g :
  dot_plus s = Some g ->
  g <> "" /\ all_chars not_newline g = true /\ exists q, s = g ++ q.
Proof.
  unfold dot_plus. destruct (String.eqb (until_newline s) "") eqn:E; [discriminate|].
  intros [= <-]. apply String.eqb_neq in E. split; [exact E|]. apply until_newline_prefix.
Qed.

Lemma occurs_in_suffix u a s : occurs_in u s -> occurs_in u (a ++ s).
Proof.
  intros (p & q & ->). exists (a ++ p), q.
  induction a as [|c a IH]; [reflexivity|]. now rewrite !append_cons, IH.
Qed.

Lemma occurs_in_prefix u q : occurs_in u (u ++ q).
Proof. now exists "", q. Qed.

(** X1. The ARN of an IAM user yields the user name: for an account number
    made of digits and a name that is one non-empty line,
    [arn:aws:iam::<account>:user/<name>] is read as [<name>] (a path in front
    of the name is part of what is returned). *)
Theorem iam_user_arn_yields_user_name acct name :
  acct <> "" ->
  all_chars is_digit acct = true ->
  name <> "" ->
  all_chars not_newline name = true ->
  extract_user_from_arn ("arn:aws:iam::" ++ acct ++ ":user/" ++ name) = Some name.
Proof.
  intros Ha Hd Hn Hl. unfold extract_user_from_arn.
  change (String.eqb ("arn:aws:iam::" ++ acct ++ ":user/" ++ name) "") with false.
  cbv iota.
  assert (E : match_iam_user ("arn:aws:iam::" ++ acct ++ ":user/" ++ name) = Some name).
  { unfold match_iam_user. rewrite drop_prefix_app. cbn [mbind option_bind].
    destruct acct as [|c acct]; [congruence|].
    simpl in Hd. apply andb_true_iff in Hd as [Hc Hr].
    rewrite append_cons. cbn [plus_class]. rewrite Hc. cbn [mbind option_bind].
    change (":user/" ++ name) with (String ":"%char ("user/" ++ name)).
    rewrite (skip_while_digits _ _ Hr).
    change (String ":"%char ("user/" ++ name)) with (":user/" ++ name).
    rewrite drop_prefix_app. cbn [mbind option_bind].
    unfold dot_plus. rewrite (until_newline_line _ Hl).
    apply String.eqb_neq in Hn. now rewrite Hn. }
  now rewrite (re_search_here _ _ _ E).
Qed.

Lemma iam_user_arn_yields_user_name_witness :
  extract_user_from_arn "arn:aws:iam::701055077130:user/division/alice"
  = Some "division/alice".
Proof.
  apply (iam_user_arn_yields_user_name "701055077130" "division/alice");
    [discriminate | reflexivity | discriminate | reflexivity].
Defined.

(** X2. Whatever [extract_user_from_arn] returns is a non-empty text
    without a line break that occurs in the ARN it was given: the caller's
    test [if not user_id] can only ever see [None]. *)
Theorem extracted_user_is_a_nonempty_line arn u :
  extract_user_from_arn arn = Some u ->
  u <> "" /\ all_chars not_newline u = true /\ occurs_in u arn.
Proof.
  unfold extract_user_from_arn. destruct (String.eqb arn ""); [discriminate|].
  destruct (re_search match_iam_user arn) as [g|] eqn:E.
  - intros [= ->]. apply re_search_some in E as (p & t & -> & Ht).
    unfold match_iam_user in Ht.
    destruct (drop_prefix "arn:aws:iam::" t) as [r1|] eqn:E1; [|discriminate].
    cbn [mbind option_bind] in Ht.
    destruct (plus_class is_digit r1) as [r2|] eqn:E2; [|discriminate].
    cbn [mbind option_bind] in Ht.
    destruct (drop_prefix ":user/" r2) as [r3|] eqn:E3; [|discriminate].
    cbn [mbind option_bind] in Ht.
    apply dot_plus_some in Ht as (Hne & Hl & q & ->).
    split; [exact Hne|]. split; [exact Hl|].
    apply drop_prefix_some in E1 as ->, E3 as ->.
    apply plus_class_some in E2 as [d ->].
    do 4 apply occurs_in_suffix. apply occurs_in_prefix.
  - intros H. apply re_search_some in H as (p & t & -> & Ht).
    unfold match_assumed_role in Ht.
    destruct (drop_prefix "arn:aws:sts::" t) as [r1|] eqn:E1; [|discriminate].
    cbn [mbind option_bind] in Ht.
    destruct (plus_class is_digit r1) as [r2|] eqn:E2; [|discriminate].
    cbn [mbind option_bind] in Ht.
    destruct (drop_prefix ":assumed-role/" r2) as [r3|] eqn:E3; [|discriminate].
    cbn [mbind option_bind] in Ht.
    destruct (plus_class _ r3) as [r4|] eqn:E4; [|discriminate].
    cbn [mbind option_bind] in Ht.
    destruct (drop_prefix "/" r4) as [r5|] eqn:E5; [|discriminate].
    cbn [mbind option_bind] in Ht.
    apply dot_plus_some in Ht as (Hne & Hl & q & ->).
    split; [exact Hne|]. split; [exact Hl|].
    apply drop_prefix_some in E1 as ->, E3 as ->, E5 as ->.
    apply plus_class_some in E2 as [d ->], E4 as [d' ->].
    do 6 apply occurs_in_suffix. apply occurs_in_prefix.
Qed.

Lemma extracted_user_is_a_nonempty_line_witness :
  extract_user_from_arn "arn:aws:sts::701055077130:assumed-role/analyst/alice"
  = Some "alice"
  /\ "alice" <> ""
  /\ occurs_in "alice" "arn:aws:sts::701055077130:assumed-role/analyst/alice".
Proof.
  assert (E : extract_user_from_arn "arn:aws:sts::701055077130:assumed-role/analyst/alice"
              = Some "alice") by reflexivity.
  split; [exact E|].
  destruct (extracted_user_is_a_nonempty_line _ _ E) as (H1 & _ & H3).
  split; [exact H1 | exact H3].
Defined.

(** *** The block decision *)

(** X3. A block decision is sound and the evaluation fails open.  Whenever
    [check_user_limits_with_protection] answers "block", the three reads it
    makes went through, the account is not protected, the usage handed back
    is the one counted in [bedrock_requests] against the account's limits
    (350 a day and 5000 a month when it has no limits row), and the limit
    named in the reason is reached; the daily limit is named first.  A
    failed read can therefore never block an account, and a block decision
    always comes with its usage figures. *)
Theorem block_decision_is_sound env uid w reason info w' :
  check_user_limits_with_protection env uid w = (Ok (true, reason, info), w') ->
  (fails env SelectUserLimits = false /\ fails env SelectDailyUsage = false
   /\ fails env SelectMonthlyUsage = false)
  /\ (forall row, user_limits w !! uid = Some row -> administrative_safe row <> "Y")
  /\ exists ui, info = Some ui
       /\ ui_administrative_safe ui = false
       /\ daily_requests_used ui = count_daily (CURDATE env) uid (bedrock_requests w)
       /\ monthly_requests_used ui = count_monthly (month_start env) uid (bedrock_requests w)
       /\ daily_limit ui = match user_limits w !! uid with
                           | Some row => daily_request_limit row | None => 350 end
       /\ monthly_limit ui = match user_limits w !! uid with
                             | Some row => monthly_request_limit row | None => 5000 end
       /\ ((daily_limit ui <= daily_requests_used ui /\ reason = Some "Daily limit exceeded")
           \/ (daily_requests_used ui < daily_limit ui
               /\ monthly_limit ui <= monthly_requests_used ui
               /\ reason = Some "Monthly limit exceeded")).
Proof.
  unfold check_user_limits_with_protection. unfold_m. cbv beta.
  destruct (fails env SelectUserLimits) eqn:Hl; cbv beta iota; [discriminate|].
  proj_simpl.
  assert (Hcase : exists dl ml safe,
             match user_limits w !! uid with
             | Some r => (daily_request_limit r, monthly_request_limit r, administrative_safe r)
             | None => (350, 5000, "N")
             end = (dl, ml, safe)
             /\ dl = match user_limits w !! uid with
                     | Some row => daily_request_limit row | None => 350 end
             /\ ml = match user_limits w !! uid with
                     | Some row => monthly_request_limit row | None => 5000 end
             /\ (forall row, user_limits w !! uid = Some row -> administrative_safe row = safe)).
  { destruct (user_limits w !! uid) as [r|]; eexists _, _, _;
      (split; [reflexivity|]); repeat split; congruence. }
  destruct Hcase as (dl & ml & safe & -> & Hdl & Hml & Hsafe). cbv beta iota.
  destruct (String.eqb safe "Y") eqn:Hs; cbv beta iota; [discriminate|].
  apply String.eqb_neq in Hs.
  destruct (fails env SelectDailyUsage) eqn:Hd; cbv beta iota; [discriminate|].
  destruct (fails env SelectMonthlyUsage) eqn:Hm; cbv beta iota; [discriminate|].
  proj_simpl.
  destruct (dl <=? count_daily (CURDATE env) uid (bedrock_requests w)) eqn:E1; cbv beta iota.
  - intros [= <- <- <-]. apply Z.leb_le in E1.
    split; [repeat split|]. split; [intros row Hr; now rewrite (Hsafe row Hr)|].
    eexists. split; [reflexivity|]. cbn [ui_administrative_safe daily_requests_used
      monthly_requests_used daily_limit monthly_limit]. repeat split; try assumption.
    left. now split.
  - destruct (ml <=? count_monthly (month_start env) uid (bedrock_requests w)) eqn:E2;
      cbv beta iota; [|discriminate].
    intros [= <- <- <-]. apply Z.leb_gt in E1. apply Z.leb_le in E2.
    split; [repeat split|]. split; [intros row Hr; now rewrite (Hsafe row Hr)|].
    eexists. split; [reflexivity|]. cbn [ui_administrative_safe daily_requests_used
      monthly_requests_used daily_limit monthly_limit]. repeat split; try assumption.
    right. now repeat split.
Qed.

Lemma block_decision_is_sound_witness :
  exists info w',
    check_user_limits_with_protection Scenario.env_ok "u1" Scenario.world0
    = (Ok (true, Some "Daily limit exceeded", info), w')
    /\ exists ui, info = Some ui /\ daily_limit ui = 3 /\ daily_requests_used ui = 3.
Proof.
  eexists _, _. split; [reflexivity|].
  destruct (block_decision_is_sound Scenario.env_ok "u1" Scenario.world0 _ _ _ eq_refl)
    as (_ & _ & ui & E & _ & Hu & _ & Hd & _).
  exists ui. split; [exact E|]. split; [exact Hd | exact Hu].
Defined.

(** *** Manual unblocking *)

Lemma execute_admin_unblocking_run env uid reason by_ w :
  fails env UpdateBlockingStatus = false ->
  exists b w', execute_admin_unblocking env uid reason by_ w = (Ok b, w')
    /\ b = negb (fails env SelectUserLimits
                 || match user_limits w !! uid with
                    | Some _ => fails env UpdateUserLimits
                    | None => fails env InsertUserLimits
                    end)
    /\ user_blocking_status w'
       = alter (admin_unblock_row reason (get_cet_timestamp_string env)) uid
               (user_blocking_status w)
    /\ user_limits w'
       = (if b then
            match user_limits w !! uid with
            | Some _ => alter (set_protection (get_cet_timestamp_string env)) uid
                              (user_limits w)
            | None => <[uid := mkLimitsRow "unknown" "Unknown" 350 5000 "Y"
                                 (Some (get_cet_timestamp_string env)) None]>
                        (user_limits w)
            end
          else user_limits w)
    /\ bedrock_requests w' = bedrock_requests w
    /\ blocking_audit_log w'
       = (if fails env InsertAudit then blocking_audit_log w
          else blocking_audit_log w
               ++ [mkAuditRow uid "UNBLOCK" reason by_ (get_cet_timestamp_string env)
                              None None None None])%list
    /\ exists l, calls w' = (calls w ++ (UpdateBlockingStatus, uid) :: l)%list
         /\ In (GetUserPolicy, uid) l.
Proof.
  intros H. unfold execute_admin_unblocking. unfold_m. cbv beta. rewrite H. cbv beta iota.
  unfold negb at 1. cbv iota.
  destruct (fails env SelectUserLimits) eqn:Hs; cbv beta iota; proj_simpl;
    [| destruct (user_limits w !! uid) as [row|] eqn:Hrow; cbv beta iota;
       [ destruct (fails env UpdateUserLimits) eqn:Hu
       | destruct (fails env InsertUserLimits) eqn:Hi ]; cbv beta iota ];
    destruct (fails env InsertAudit) eqn:Ha; cbv beta iota;
    match goal with |- context [implement_iam_unblocking env uid ?W] =>
      destruct (implement_iam_unblocking_run env uid W)
        as (b1 & w1 & E1 & (T1 & T2 & T3 & T4 & _) & _ & [l1 C1] & _)
    end; rewrite E1; cbv beta iota;
    match goal with |- context [send_enhanced_unblocking_email env uid ?r ?p ?W] =>
      destruct (send_enhanced_unblocking_email_run env uid r p W)
        as (b2 & w2 & E2 & (U1 & U2 & U3 & U4 & [l2 C2]) & _ & _)
    end; rewrite E2; cbv beta iota; cbn [negb orb]; cbv iota;
    (eexists _, _; split; [reflexivity|]); proj_simpl;
    (split; [reflexivity|]);
    (split; [rewrite U1; exact T1|]); (split; [rewrite U2; exact T2|]);
    (split; [rewrite U3; exact T3|]); (split; [rewrite U4; exact T4|]);
    eexists; (split; [rewrite C2, C1; rewrite <- ?app_assoc; simpl; reflexivity|]);
    repeat (rewrite in_app_iff || simpl); intuition auto.
Qed.

(** X4. A manual unblock protects the account.  With the store writes
    going through, [execute_admin_unblocking] returns [True], leaves the
    BlockRecord (if there is one) unblocked without expiration, and leaves a
    limits row with [administrative_safe = 'Y'], creating one with the
    default limits when the account had none.  From then on, whatever
    requests are recorded, the evaluation answers "do not block" for this
    account as long as that row stays as it is. *)
Theorem manual_unblock_grants_protection env uid reason by_ w :
  fails env UpdateBlockingStatus = false ->
  fails env SelectUserLimits = false ->
  fails env InsertUserLimits = false ->
  fails env UpdateUserLimits = false ->
  exists w', execute_admin_unblocking env uid reason by_ w = (Ok true, w')
    /\ (exists l, user_limits w' !! uid = Some l
          /\ administrative_safe l = "Y"
          /\ daily_request_limit l = match user_limits w !! uid with
                                    | Some r => daily_request_limit r | None => 350 end
          /\ monthly_request_limit l = match user_limits w !! uid with
                                      | Some r => monthly_request_limit r | None => 5000 end)
    /\ (forall r, user_blocking_status w !! uid = Some r ->
          exists r', user_blocking_status w' !! uid = Some r'
            /\ is_blocked r' = "N" /\ blocked_until r' = None)
    /\ forall w2, user_limits w2 !! uid = user_limits w' !! uid ->
         exists info w3,
           check_user_limits_with_protection env uid w2 = (Ok (false, None, info), w3).
Proof.
  intros Hb Hs Hi Hu.
  destruct (execute_admin_unblocking_run env uid reason by_ w Hb)
    as (b & w' & E & -> & S1 & S2 & _).
  rewrite Hs in E, S2. cbn [orb] in E, S2.
  assert (Hl : exists l, user_limits w' !! uid = Some l
             /\ administrative_safe l = "Y"
             /\ daily_request_limit l = match user_limits w !! uid with
                                       | Some r => daily_request_limit r | None => 350 end
             /\ monthly_request_limit l = match user_limits w !! uid with
                                         | Some r => monthly_request_limit r | None => 5000 end).
  { rewrite S2. destruct (user_limits w !! uid) as [row|] eqn:Hrow.
    - rewrite Hu. cbn [negb]. rewrite lookup_alter_eq, Hrow. cbn.
      eexists. split; [reflexivity|]. repeat split.
    - rewrite Hi. cbn [negb]. rewrite lookup_insert_eq.
      eexists. split; [reflexivity|]. repeat split. }
  assert (Hbt : negb match user_limits w !! uid with
                     | Some _ => fails env UpdateUserLimits
                     | None => fails env InsertUserLimits
                     end = true).
  { destruct (user_limits w !! uid); [now rewrite Hu | now rewrite Hi]. }
  rewrite Hbt in E. exists w'. split; [exact E|]. split; [exact Hl|]. split.
  - intros r Hr. rewrite S1, lookup_alter_eq, Hr. cbn. eexists. repeat split.
  - intros w2 H2. destruct Hl as (l & Hl & Hsafe & _). rewrite Hl in H2.
    unfold check_user_limits_with_protection. unfold_m. cbv beta. rewrite Hs.
    cbv beta iota. proj_simpl. rewrite H2. cbv beta iota. rewrite Hsafe.
    cbn [String.eqb Ascii.eqb Bool.eqb]. cbv beta iota. eexists _, _. reflexivity.
Qed.

Lemma manual_unblock_grants_protection_witness :
  count_daily Scenario.jan15 "u1" (bedrock_requests Scenario.world0) = 3
  /\ exists w', execute_admin_unblocking Scenario.env_ok "u1" "on request" "admin1"
                  Scenario.world0 = (Ok true, w')
       /\ exists info w3,
            check_user_limits_with_protection Scenario.env_ok "u1" w' = (Ok (false, None, info), w3).
Proof.
  split; [reflexivity|].
  destruct (manual_unblock_grants_protection Scenario.env_ok "u1" "on request" "admin1"
              Scenario.world0 eq_refl eq_refl eq_refl eq_refl) as (w' & E & _ & _ & H).
  exists w'. split; [exact E|]. exact (H w' eq_refl).
Defined.

(** X5. A manual unblock whose protection step fails is answered as a
    failure although the account has been unblocked.  When the BlockRecord
    update goes through and the read or write of the limits row fails,
    the command is answered 500 "Unblocking failed"; yet the record says
    unblocked, the limits row is as before (no protection), and the audit
    row, the policy sync and the notification were still carried out. *)
Theorem failed_protection_reports_failure_after_unblocking env event uid r w :
  action event = Some "unblock" ->
  ev_user_id event = Some uid ->
  user_blocking_status w !! uid = Some r ->
  fails env UpdateBlockingStatus = false ->
  (fails env SelectUserLimits = true
   \/ (is_Some (user_limits w !! uid) /\ fails env UpdateUserLimits = true)
   \/ (user_limits w !! uid = None /\ fails env InsertUserLimits = true)) ->
  exists resp w',
    handle_api_event env event w = (Ok resp, w')
    /\ statusCode resp = 500
    /\ Py.assoc "message" (body resp) = Some (JStr "Unblocking failed")
    /\ (exists r', user_blocking_status w' !! uid = Some r'
          /\ is_blocked r' = "N" /\ blocked_until r' = None)
    /\ user_limits w' = user_limits w
    /\ (fails env InsertAudit = false ->
        exists a, blocking_audit_log w' = (blocking_audit_log w ++ [a])%list
          /\ operation_type a = "UNBLOCK")
    /\ In (GetUserPolicy, uid) (calls w').
Proof.
  intros Hact Huid Hr Hb Hfail.
  unfold handle_api_event. rewrite Hact, Huid.
  change (String.eqb "unblock" "block") with false.
  change (String.eqb "unblock" "unblock") with true. cbv iota.
  unfold manual_unblock_user. rewrite Huid. cbn [default id].
  unfold try_except at 1 2, bind at 1.
  destruct (execute_admin_unblocking_run env uid
              (default "Manual admin unblock" (ev_reason event))
              (default "admin" (ev_performed_by event)) w Hb)
    as (b & w' & E & Hbv & S1 & S2 & _ & S4 & l & C1 & C2).
  assert (b = false) as ->.
  { rewrite Hbv. destruct Hfail as [-> | [[[row Hrow] Hu] | [Hrow Hi]]]; [reflexivity| |].
    - rewrite Hrow, Hu. now rewrite orb_true_r.
    - rewrite Hrow, Hi. now rewrite orb_true_r. }
  rewrite E. unfold ret. eexists _, w'. split; [reflexivity|].
  split; [reflexivity|]. split; [reflexivity|]. split.
  { rewrite S1, lookup_alter_eq, Hr. cbn. eexists. repeat split. }
  split; [exact S2|]. split.
  { intros Ha. rewrite Ha in S4. eexists. split; [exact S4 | reflexivity]. }
  rewrite C1. rewrite in_app_iff. right. right. exact C2.
Qed.

Lemma failed_protection_reports_failure_after_unblocking_witness :
  exists resp w',
    handle_api_event (Scenario.env_with (Op_eqb UpdateUserLimits))
      (mkApiEvent (Some "unblock") (Some "u4") None None None None) Scenario.world0
    = (Ok resp, w')
    /\ statusCode resp = 500
    /\ exists r', user_blocking_status w' !! "u4" = Some r' /\ is_blocked r' = "N".
Proof.
  destruct (failed_protection_reports_failure_after_unblocking
              (Scenario.env_with (Op_eqb UpdateUserLimits))
              (mkApiEvent (Some "unblock") (Some "u4") None None None None) "u4"
              (Scenario.blocked_row "Manual admin block" None) Scenario.world0
              eq_refl eq_refl eq_refl eq_refl
              (or_intror (or_introl (conj (mk_is_Some _ _ eq_refl) eq_refl))))
    as (resp & w' & E & Hc & _ & (r' & Hr & Hn & _) & _).
  exists resp, w'. split; [exact E|]. split; [exact Hc|]. exists r'. now split.
Defined.

(** *** The status shown on the dashboard *)

Lemma check_user_status_reads env event w :
  exists resp w', check_user_status env event w = (Ok resp, w') /\ only_calls w w'.
Proof.
  unfold check_user_status. unfold_m. cbv beta.
  destruct (fails env SelectBlockingStatus); cbv beta iota.
  { eexists _, _. split; [reflexivity|]. auto with run. }
  destruct (fails env SelectUserLimits); cbv beta iota.
  { eexists _, _. split; [reflexivity|]. split; [repeat split | solve_calls]. }
  proj_simpl.
  destruct (user_blocking_status w !! default "" (ev_user_id event)) as [r|];
    [destruct (String.eqb (is_blocked r) "Y");
       [destruct (blocked_until r) as [t|]; [destruct (expires_at_midnight t)|]|]|];
    eexists _, _; (split; [reflexivity|]); (split; [repeat split | solve_calls]).
Qed.

Lemma check_user_status_blocked env event uid r w :
  ev_user_id event = Some uid ->
  user_blocking_status w !! uid = Some r ->
  is_blocked r = "Y" ->
  fails env SelectBlockingStatus = false ->
  fails env SelectUserLimits = false ->
  exists resp w',
    check_user_status env event w = (Ok resp, w')
    /\ statusCode resp = 200
    /\ Py.assoc "is_blocked" (body resp) = Some (JBool true)
    /\ Py.assoc "block_reason" (body resp) = Some (jopt_str (blocked_reason r))
    /\ Py.assoc "expires_at" (body resp) = Some (jopt_time (blocked_until r))
    /\ Py.assoc "block_type" (body resp)
       = Some (JStr match blocked_until r with
                    | Some t => if expires_at_midnight t then "AUTO" else "Manual"
                    | None => "Manual"
                    end)
    /\ Py.assoc "performed_by" (body resp)
       = Some (JStr match blocked_until r with
                    | Some t => if expires_at_midnight t then "system" else "dashboard_admin"
                    | None => "dashboard_admin"
                    end).
Proof.
  intros Huid Hr Hb Hs Hl. unfold check_user_status. rewrite Huid. cbn [default id].
  unfold_m. cbv beta. rewrite Hs. cbv beta iota. rewrite Hl. cbv beta iota.
  proj_simpl. rewrite Hr. cbv beta iota. rewrite Hb.
  change (String.eqb "Y" "Y") with true. cbv beta iota.
  destruct (blocked_until r) as [t|] eqn:Hu; [destruct (expires_at_midnight t)|];
    eexists _, _; (split; [reflexivity|]); repeat split;
    cbn [body Py.assoc String.eqb Ascii.eqb Bool.eqb mbind option_bind];
    rewrite Hu; reflexivity.
Qed.

(** X6. The dashboard's status check is read-only and does not look at the
    clock.  [check_user_status] always answers and changes no store (only
    the record of calls grows).  For an account whose record says blocked it
    reports [is_blocked = true] together with the stored reason and
    expiration, whether or not that expiration has passed: unlike
    [check_user_blocking_status] it never unblocks. *)
Theorem dashboard_status_is_read_only env event uid w :
  ev_user_id event = Some uid ->
  (exists resp w', check_user_status env event w = (Ok resp, w') /\ only_calls w w')
  /\ forall r,
       user_blocking_status w !! uid = Some r ->
       is_blocked r = "Y" ->
       fails env SelectBlockingStatus = false ->
       fails env SelectUserLimits = false ->
       exists resp w',
         check_user_status env event w = (Ok resp, w')
         /\ statusCode resp = 200
         /\ Py.assoc "is_blocked" (body resp) = Some (JBool true)
         /\ Py.assoc "block_reason" (body resp) = Some (jopt_str (blocked_reason r))
         /\ Py.assoc "expires_at" (body resp) = Some (jopt_time (blocked_until r))
         /\ user_blocking_status w' !! uid = Some r.
Proof.
  intros Huid. split; [apply check_user_status_reads|].
  intros r Hr Hb Hs Hl.
  destruct (check_user_status_blocked env event uid r w Huid Hr Hb Hs Hl)
    as (resp & w' & E & H1 & H2 & H3 & H4 & _).
  exists resp, w'. repeat (split; [assumption|]).
  destruct (check_user_status_reads env event w) as (resp' & w'' & E' & [(S1 & _) _]).
  rewrite E in E'. injection E' as _ <-. now rewrite S1.
Qed.

Lemma dashboard_status_is_read_only_witness :
  Time.naive_ltb Scenario.eleven (Time.wall Scenario.noon) = true
  /\ exists resp w',
       check_user_status Scenario.env_ok
         (mkApiEvent (Some "check_status") (Some "u3") None None None None) Scenario.world0
       = (Ok resp, w')
       /\ Py.assoc "is_blocked" (body resp) = Some (JBool true)
       /\ Py.assoc "expires_at" (body resp) = Some (JTime Scenario.eleven).
Proof.
  split; [reflexivity|].
  destruct (proj2 (dashboard_status_is_read_only Scenario.env_ok
              (mkApiEvent (Some "check_status") (Some "u3") None None None None) "u3"
              Scenario.world0 eq_refl)
              (Scenario.blocked_row "Daily limit exceeded" (Some Scenario.eleven))
              eq_refl eq_refl eq_refl eq_refl)
    as (resp & w' & E & _ & H2 & _ & H4 & _).
  exists resp, w'. split; [exact E|]. split; [exact H2 | exact H4].
Defined.

(** X7. An automatic block is shown as such.  After [execute_user_blocking]
    has written the BlockRecord, the dashboard's status check reports the
    account as blocked with block type [AUTO], performed by [system], and
    the expiration at the next local midnight, whatever the IAM step, the
    e-mail and the audit insert did. *)
Theorem automatic_block_is_reported_as_auto env event uid reason ui w :
  ev_user_id event = Some uid ->
  fails env UpsertBlockingStatus = false ->
  fails env SelectBlockingStatus = false ->
  fails env SelectUserLimits = false ->
  exists resp w',
    check_user_status env event (execute_user_blocking env uid reason ui w).2 = (Ok resp, w')
    /\ statusCode resp = 200
    /\ Py.assoc "is_blocked" (body resp) = Some (JBool true)
    /\ Py.assoc "block_reason" (body resp) = Some (JStr reason)
    /\ Py.assoc "block_type" (body resp) = Some (JStr "AUTO")
    /\ Py.assoc "performed_by" (body resp) = Some (JStr "system")
    /\ Py.assoc "expires_at" (body resp)
       = Some (JTime (Time.mkNaive (Time.day (Time.wall (now env)) + 1) 0 0 0 0)).
Proof.
  intros Huid Hup Hs Hl.
  destruct (execute_user_blocking_run env uid reason ui w Hup)
    as (b & w1 & w' & _ & E & S1 & _).
  rewrite E. cbn [snd].
  assert (Hr : user_blocking_status w' !! uid
               = Some (upsert_blocked reason (get_cet_timestamp_string env)
                         (Some (Time.strftime (blocked_until_cet (get_current_cet_time env))))
                         (daily_requests_used ui) (user_blocking_status w !! uid))).
  { rewrite S1. unfold status_written. proj_simpl. now rewrite lookup_insert_eq. }
  assert (Hb : is_blocked (upsert_blocked reason (get_cet_timestamp_string env)
                         (Some (Time.strftime (blocked_until_cet (get_current_cet_time env))))
                         (daily_requests_used ui) (user_blocking_status w !! uid)) = "Y")
    by (destruct (user_blocking_status w !! uid); reflexivity).
  destruct (check_user_status_blocked env event uid _ w' Huid Hr Hb Hs Hl)
    as (resp & w2 & E2 & H1 & H2 & H3 & H4 & H5 & H6).
  exists resp, w2. split; [exact E2|]. split; [exact H1|]. split; [exact H2|].
  split; [rewrite H3; destruct (user_blocking_status w !! uid); reflexivity|].
  split; [rewrite H5; destruct (user_blocking_status w !! uid); reflexivity|].
  split; [rewrite H6; destruct (user_blocking_status w !! uid); reflexivity|].
  rewrite H4; destruct (user_blocking_status w !! uid); reflexivity.
Qed.

Lemma automatic_block_is_reported_as_auto_witness :
  exists resp w',
    check_user_status Scenario.env_iam_down
      (mkApiEvent (Some "check_status") (Some "u1") None None None None)
      (execute_user_blocking Scenario.env_iam_down "u1" "Daily limit exceeded"
         Scenario.usage_u1 Scenario.world0).2 = (Ok resp, w')
    /\ Py.assoc "block_type" (body resp) = Some (JStr "AUTO").
Proof.
  destruct (automatic_block_is_reported_as_auto Scenario.env_iam_down
              (mkApiEvent (Some "check_status") (Some "u1") None None None None) "u1"
              "Daily limit exceeded" Scenario.usage_u1 Scenario.world0
              eq_refl eq_refl eq_refl eq_refl)
    as (resp & w' & E & _ & _ & _ & H & _).
  exists resp, w'. split; [exact E | exact H].
Defined.

(** X8. How a manual block is shown depends on the clock, not on who made
    it.  After [execute_admin_blocking] without a custom expiration (the
    block expires 24 hours later), the dashboard's status check reports
    block type [Manual] by [dashboard_admin], whatever name the command
    carried, unless the block was made at a time that reads 00:00:00: then
    the expiration falls on a midnight too and the block is reported as
    [AUTO] by [system]. *)
Theorem manual_block_report_depends_on_clock env event uid reason by_ ui w :
  ev_user_id event = Some uid ->
  fails env UpsertBlockingStatus = false ->
  fails env InsertAudit = false ->
  fails env SelectBlockingStatus = false ->
  fails env SelectUserLimits = false ->
  exists resp w',
    check_user_status env event (execute_admin_blocking env uid reason by_ ui None w).2
    = (Ok resp, w')
    /\ Py.assoc "is_blocked" (body resp) = Some (JBool true)
    /\ Py.assoc "block_type" (body resp)
       = Some (JStr (if expires_at_midnight (Time.wall (now env)) then "AUTO" else "Manual"))
    /\ Py.assoc "performed_by" (body resp)
       = Some (JStr (if expires_at_midnight (Time.wall (now env))
                     then "system" else "dashboard_admin")).
Proof.
  intros Huid Hup Ha Hs Hl.
  destruct (execute_admin_blocking_run env uid reason by_ ui None w Hup Ha)
    as (w' & E & S1 & _).
  rewrite E. cbn [snd].
  assert (Hr : user_blocking_status w' !! uid
               = Some (upsert_blocked reason (get_cet_timestamp_string env)
                         (admin_blocked_until env None) (daily_requests_used ui)
                         (user_blocking_status w !! uid)))
    by (rewrite S1; now rewrite lookup_insert_eq).
  assert (Hb : is_blocked (upsert_blocked reason (get_cet_timestamp_string env)
                         (admin_blocked_until env None) (daily_requests_used ui)
                         (user_blocking_status w !! uid)) = "Y")
    by (destruct (user_blocking_status w !! uid); reflexivity).
  destruct (check_user_status_blocked env event uid _ w' Huid Hr Hb Hs Hl)
    as (resp & w2 & E2 & _ & H2 & _ & _ & H5 & H6).
  exists resp, w2. split; [exact E2|]. split; [exact H2|].
  split; [rewrite H5 | rewrite H6]; destruct (user_blocking_status w !! uid); reflexivity.
Qed.

Lemma manual_block_report_depends_on_clock_witness :
  expires_at_midnight (Time.wall (now Scenario.env_ok)) = false
  /\ exists resp w',
       check_user_status Scenario.env_ok
         (mkApiEvent (Some "check_status") (Some "u1") None None None None)
         (execute_admin_blocking Scenario.env_ok "u1" "abuse" "admin1"
            Scenario.usage_u1 None Scenario.world0).2 = (Ok resp, w')
       /\ Py.assoc "performed_by" (body resp) = Some (JStr "dashboard_admin").
Proof.
  split; [reflexivity|].
  destruct (manual_block_report_depends_on_clock Scenario.env_ok
              (mkApiEvent (Some "check_status") (Some "u1") None None None None) "u1"
              "abuse" "admin1" Scenario.usage_u1 Scenario.world0
              eq_refl eq_refl eq_refl eq_refl eq_refl)
    as (resp & w' & E & _ & _ & H).
  exists resp, w'. split; [exact E | exact H].
Defined.

(** *** The deny statement, once more *)

Lemma has_deny_sid_strip_deny l : has_deny_sid (strip_deny l) = false.
Proof.
  unfold has_deny_sid, strip_deny. induction l as [|s l IH]; [reflexivity|]. simpl.
  destruct (Py.opt_eqb (Sid s) DENY_STATEMENT_SID) eqn:E; simpl; [exact IH|].
  now rewrite E.
Qed.

Lemma with_deny_idempotent found : with_deny (Some (with_deny found)) = with_deny found.
Proof.
  destruct found as [d|]; [|reflexivity].
  unfold with_deny. cbn [Version Statement].
  now rewrite strip_deny_deny_statement, strip_deny_idempotent.
Qed.

Lemma without_deny_clean d :
  has_deny_sid (Statement (without_deny d)) = false
  /\ has_allow (Statement (without_deny d)) = true
  /\ Version (without_deny d) = Version d.
Proof.
  unfold without_deny. cbn [Statement Version].
  destruct (has_allow (strip_deny (Statement d))) eqn:E; cbn [negb].
  - split; [apply has_deny_sid_strip_deny|]. now split.
  - split; [|split; [|reflexivity]].
    + unfold has_deny_sid. rewrite existsb_app. fold (has_deny_sid (strip_deny (Statement d))).
      now rewrite has_deny_sid_strip_deny.
    + unfold has_allow. rewrite existsb_app. simpl. now rewrite orb_true_r.
Qed.

Lemma without_deny_idempotent d : without_deny (without_deny d) = without_deny d.
Proof.
  destruct (without_deny_clean d) as (Hd & Ha & Hv).
  unfold without_deny at 1. rewrite (strip_deny_unrelated _ Hd), Ha. cbn [negb].
  now destruct (without_deny d).
Qed.

(** X9. Placing the deny statement is idempotent.  With IAM answering,
    [implement_iam_blocking] leaves the user's policy with the
    [DailyLimitBlock] statement first and no other statement of that Sid
    (it creates the policy when the user has none), leaves every other
    policy alone, and running it again changes nothing. *)
Theorem iam_blocking_is_idempotent env uid w :
  fails env GetUserPolicy = false ->
  fails env PutUserPolicy = false ->
  let w1 := (implement_iam_blocking env uid w).2 in
  let w2 := (implement_iam_blocking env uid w1).2 in
  (exists d rest, iam_policies w1 !! policy_key uid = Some d
     /\ Statement d = deny_statement :: rest
     /\ has_deny_sid rest = false)
  /\ (forall k, k <> policy_key uid -> iam_policies w1 !! k = iam_policies w !! k)
  /\ iam_policies w2 = iam_policies w1.
Proof.
  intros Hg Hp w1 w2. subst w2 w1.
  destruct (implement_iam_blocking_run env uid w) as (b & w1 & E1 & _ & _ & _ & _ & H1).
  destruct (H1 Hg Hp) as [P1 _]. rewrite E1. cbn [snd].
  destruct (implement_iam_blocking_run env uid w1) as (b2 & w2 & E2 & _ & _ & _ & _ & H2).
  destruct (H2 Hg Hp) as [P2 _]. rewrite E2. cbn [snd].
  split; [|split].
  - rewrite P1, lookup_insert_eq.
    destruct (iam_policies w !! policy_key uid) as [d|].
    + eexists _, _. split; [reflexivity|]. split; [reflexivity|].
      apply has_deny_sid_strip_deny.
    + eexists _, _. split; [reflexivity|]. split; reflexivity.
  - intros k Hk. rewrite P1. now apply lookup_insert_ne.
  - rewrite P2, P1, lookup_insert_eq, insert_insert_eq. now rewrite with_deny_idempotent.
Qed.

Lemma iam_blocking_is_idempotent_witness :
  iam_policies (implement_iam_blocking Scenario.env_ok "u1" Scenario.world_restrictive).2
    !! policy_key "u1"
  = Some (mkDocument "2012-10-17" [deny_statement; Scenario.no_delete_stmt])
  /\ iam_policies
       (implement_iam_blocking Scenario.env_ok "u1"
          (implement_iam_blocking Scenario.env_ok "u1" Scenario.world_restrictive).2).2
     = iam_policies (implement_iam_blocking Scenario.env_ok "u1" Scenario.world_restrictive).2.
Proof.
  split; [reflexivity|].
  exact (proj2 (proj2 (iam_blocking_is_idempotent Scenario.env_ok "u1"
                         Scenario.world_restrictive eq_refl eq_refl))).
Defined.

(** X10. Lifting the deny statement.  With IAM answering,
    [implement_iam_unblocking] returns [True].  For a user without a policy
    it writes nothing: no policy is created and no [put_user_policy] is
    attempted.  For a user with a policy, the policy it leaves has no
    [DailyLimitBlock] statement and at least one Allow statement, keeps its
    version, and running the function again changes nothing. *)
Theorem iam_unblocking_postcondition env uid w :
  fails env GetUserPolicy = false ->
  fails env PutUserPolicy = false ->
  exists w', implement_iam_unblocking env uid w = (Ok true, w')
    /\ (iam_policies w !! policy_key uid = None ->
        w' = log_call (GetUserPolicy, uid) w)
    /\ (forall d, iam_policies w !! policy_key uid = Some d ->
        exists d', iam_policies w' !! policy_key uid = Some d'
          /\ has_deny_sid (Statement d') = false
          /\ has_allow (Statement d') = true
          /\ Version d' = Version d)
    /\ iam_policies (implement_iam_unblocking env uid w').2 = iam_policies w'.
Proof.
  intros Hg Hp.
  destruct (implement_iam_unblocking_run env uid w) as (b & w' & E & _ & _ & _ & _ & H).
  destruct (H Hg Hp) as [-> P]. exists w'. split; [exact E|]. split; [|split].
  - intros Hn. revert E. unfold implement_iam_unblocking, get_user_policy. unfold_m.
    cbv beta. rewrite Hg. cbv beta iota. proj_simpl. unfold policy_key in Hn. rewrite Hn.
    now intros [= <-].
  - intros d Hd. rewrite Hd in P. rewrite P, lookup_insert_eq.
    eexists. split; [reflexivity|]. apply without_deny_clean.
  - destruct (implement_iam_unblocking_run env uid w') as (b2 & w2 & E2 & _ & _ & _ & _ & H2).
    destruct (H2 Hg Hp) as [_ P2]. rewrite E2. cbn [snd]. rewrite P2.
    destruct (iam_policies w !! policy_key uid) as [d|] eqn:Hd.
    + rewrite P, lookup_insert_eq, insert_insert_eq. now rewrite without_deny_idempotent.
    + rewrite P, Hd. reflexivity.
Qed.

Lemma iam_unblocking_postcondition_witness :
  iam_policies Scenario.world0 !! policy_key "u1" = None
  /\ implement_iam_unblocking Scenario.env_ok "u1" Scenario.world0
     = (Ok true, log_call (GetUserPolicy, "u1") Scenario.world0).
Proof.
  split; [reflexivity|].
  destruct (iam_unblocking_postcondition Scenario.env_ok "u1" Scenario.world0 eq_refl eq_refl)
    as (w' & E & Hn & _).
  rewrite E. now rewrite (Hn eq_refl).
Defined.

(** *** Automatic and manual blocking, step by step *)

(** X11. A fresh automatic block holds.  Right after
    [execute_user_blocking] has written the BlockRecord, and provided the
    stored expiration (read back as local time) lies after the current
    time, [check_user_blocking_status] answers "blocked" with the reason of
    the block and leaves every store as it is, whatever became of the IAM
    step, the e-mail and the audit insert. *)
Theorem fresh_automatic_block_holds env uid reason ui w :
  fails env UpsertBlockingStatus = false ->
  fails env SelectBlockingStatus = false ->
  Time.instant (now env)
  < Time.instant (Time.localize (CET env) (Time.strftime (blocked_until_cet (now env)))) ->
  let w1 := (execute_user_blocking env uid reason ui w).2 in
  check_user_blocking_status env uid w1
  = (Ok (true, Some reason), log_call (SelectBlockingStatus, uid) w1).
Proof.
  intros Hup Hs Hlt w1. subst w1.
  destruct (execute_user_blocking_run env uid reason ui w Hup)
    as (b & w1 & w' & _ & E & S1 & _).
  rewrite E. cbn [snd].
  assert (Hr : user_blocking_status w' !! uid
               = Some (upsert_blocked reason (get_cet_timestamp_string env)
                         (Some (Time.strftime (blocked_until_cet (get_current_cet_time env))))
                         (daily_requests_used ui) (user_blocking_status w !! uid))).
  { rewrite S1. unfold status_written. proj_simpl. now rewrite lookup_insert_eq. }
  rewrite (check_status_still_blocked env uid w' _ Hr).
  - destruct (user_blocking_status w !! uid); reflexivity.
  - destruct (user_blocking_status w !! uid); reflexivity.
  - right. eexists. split; [destruct (user_blocking_status w !! uid); reflexivity|].
    exact Hlt.
  - exact Hs.
Qed.

Lemma fresh_automatic_block_holds_witness :
  Time.instant (now Scenario.env_ok)
  < Time.instant (Time.localize (CET Scenario.env_ok)
                    (Time.strftime (blocked_until_cet (now Scenario.env_ok))))
  /\ (check_user_blocking_status Scenario.env_ok "u1"
        (execute_user_blocking Scenario.env_ok "u1" "Daily limit exceeded"
           Scenario.usage_u1 Scenario.world0).2).1
     = Ok (true, Some "Daily limit exceeded").
Proof.
  assert (H : Time.instant (now Scenario.env_ok)
              < Time.instant (Time.localize (CET Scenario.env_ok)
                                (Time.strftime (blocked_until_cet (now Scenario.env_ok)))))
    by reflexivity.
  split; [exact H|].
  now rewrite (fresh_automatic_block_holds Scenario.env_ok "u1" "Daily limit exceeded"
                 Scenario.usage_u1 Scenario.world0 eq_refl eq_refl H).
Defined.

(** X12. The audit row of an automatic block tells what happened.  With
    the BlockRecord write and the audit insert going through,
    [execute_user_blocking] appends exactly one audit row: a [BLOCK] by
    [system] with the reason and the usage figures it was given, whose
    [iam_policy_updated] column is ['Y'] exactly when the function returns
    [True]. *)
Theorem automatic_block_audit_row_matches_outcome env uid reason ui w :
  fails env UpsertBlockingStatus = false ->
  fails env InsertAudit = false ->
  exists b w' a,
    execute_user_blocking env uid reason ui w = (Ok b, w')
    /\ blocking_audit_log w' = (blocking_audit_log w ++ [a])%list
    /\ au_user_id a = uid
    /\ operation_type a = "BLOCK"
    /\ operation_reason a = reason
    /\ performed_by a = "system"
    /\ operation_timestamp a = get_cet_timestamp_string env
    /\ daily_requests_at_operation a = Some (daily_requests_used ui)
    /\ daily_limit_at_operation a = Some (daily_limit ui)
    /\ iam_policy_updated a = Some (if b then "Y" else "N").
Proof.
  intros Hup Ha. unfold execute_user_blocking. unfold_m. cbv beta.
  rewrite Hup. cbv beta iota. unfold negb at 1.
  match goal with |- context [implement_iam_blocking env uid ?W] =>
    destruct (implement_iam_blocking_run env uid W)
      as (b & w1 & E1 & (T1 & T2 & T3 & T4 & _) & _)
  end. rewrite E1. cbv beta iota.
  destruct (send_blocking_email_gmail_run env uid w1)
    as (b2 & w2 & E2 & (U1 & U2 & U3 & U4 & _) & _).
  rewrite E2. cbv beta iota. rewrite Ha. cbv beta iota. proj_simpl.
  exists b. destruct b; cbn [negb]; cbv iota;
    eexists _, _; (split; [reflexivity|]); proj_simpl;
    (split; [rewrite U4, T4; reflexivity|]); repeat split.
Qed.

Lemma automatic_block_audit_row_matches_outcome_witness :
  exists w' a,
    execute_user_blocking Scenario.env_iam_down "u1" "Daily limit exceeded"
      Scenario.usage_u1 Scenario.world0 = (Ok false, w')
    /\ blocking_audit_log w' = [a]
    /\ iam_policy_updated a = Some "N".
Proof.
  destruct (automatic_block_audit_row_matches_outcome Scenario.env_iam_down "u1"
              "Daily limit exceeded" Scenario.usage_u1 Scenario.world0 eq_refl eq_refl)
    as (b & w' & a & E & L & _ & _ & _ & _ & _ & _ & _ & I).
  assert (b = false) as ->.
  { assert (H : (execute_user_blocking Scenario.env_iam_down "u1" "Daily limit exceeded"
                   Scenario.usage_u1 Scenario.world0).1 = Ok false) by reflexivity.
    rewrite E in H. now injection H. }
  exists w', a. split; [exact E|]. split; [exact L | exact I].
Defined.

(** X13. A failed audit insert stops a manual block half-way, but not an
    automatic one.  In [execute_admin_blocking] the audit insert shares the
    outer [try] with the steps after it: when it fails after the
    BlockRecord was written, the function returns [False] with the record
    saying blocked, and neither the IAM policy nor the notification is
    attempted.  In [execute_user_blocking] the audit insert comes last and
    has a handler of its own: the IAM step has been attempted by then and
    its outcome is what the function returns. *)
Theorem audit_failure_stops_manual_block_only env uid reason by_ ui exp w :
  fails env UpsertBlockingStatus = false ->
  fails env InsertAudit = true ->
  (exists w', execute_admin_blocking env uid reason by_ ui exp w = (Ok false, w')
     /\ (exists r, user_blocking_status w' !! uid = Some r
           /\ is_blocked r = "Y" /\ blocked_reason r = Some reason)
     /\ iam_policies w' = iam_policies w
     /\ mailbox w' = mailbox w
     /\ blocking_audit_log w' = blocking_audit_log w
     /\ calls w' = (calls w ++ [(UpsertBlockingStatus, uid); (InsertAudit, uid)])%list)
  /\ (exists b w1 w',
        implement_iam_blocking env uid (status_written env uid reason ui w) = (Ok b, w1)
        /\ execute_user_blocking env uid reason ui w = (Ok b, w')
        /\ blocking_audit_log w' = blocking_audit_log w
        /\ iam_policies w' = iam_policies w1
        /\ In (GetUserPolicy, uid) (calls w')).
Proof.
  intros Hup Ha. split.
  - unfold execute_admin_blocking. unfold_m. cbv beta. rewrite Hup. cbv beta iota.
    rewrite Ha. cbv beta iota. eexists. split; [reflexivity|]. proj_simpl.
    split.
    { rewrite lookup_insert_eq. eexists. split; [reflexivity|].
      destruct (user_blocking_status w !! uid); split; reflexivity. }
    repeat split. now rewrite <- app_assoc.
  - unfold execute_user_blocking, status_written. unfold_m. cbv beta.
    rewrite Hup. cbv beta iota. unfold negb at 1.
    match goal with |- context [implement_iam_blocking env uid ?W] =>
      destruct (implement_iam_blocking_run env uid W)
        as (b & w1 & E1 & (T1 & T2 & T3 & T4 & _) & _ & [l1 C1] & _)
    end. rewrite E1. cbv beta iota.
    destruct (send_blocking_email_gmail_run env uid w1)
      as (b2 & w2 & E2 & (U1 & U2 & U3 & U4 & [l2 C2]) & I2).
    rewrite E2. cbv beta iota. rewrite Ha. cbv beta iota. proj_simpl.
    exists b, w1. destruct b; cbn [negb]; cbv iota;
      (eexists; split; [reflexivity|]; split; [reflexivity|]); proj_simpl;
      (split; [rewrite U4; exact T4|]); (split; [exact I2|]);
      rewrite C2, C1; repeat (rewrite in_app_iff || simpl); intuition auto.
Qed.

Lemma audit_failure_stops_manual_block_only_witness :
  iam_policies
    (execute_admin_blocking (Scenario.env_with (Op_eqb InsertAudit)) "u1" "abuse" "admin1"
       Scenario.usage_u1 None Scenario.world0).2 !! policy_key "u1" = None
  /\ exists w', execute_admin_blocking (Scenario.env_with (Op_eqb InsertAudit)) "u1" "abuse"
                  "admin1" Scenario.usage_u1 None Scenario.world0 = (Ok false, w')
       /\ exists r, user_blocking_status w' !! "u1" = Some r /\ is_blocked r = "Y".
Proof.
  split; [reflexivity|].
  destruct (proj1 (audit_failure_stops_manual_block_only (Scenario.env_with (Op_eqb InsertAudit))
              "u1" "abuse" "admin1" Scenario.usage_u1 None Scenario.world0 eq_refl eq_refl))
    as (w' & E & (r & Hr & Hb & _) & _).
  exists w'. split; [exact E|]. exists r. now split.
Defined.

(** *** One usage event, end to end *)

Lemma same_stores_trans w1 w2 w3 : same_stores w1 w2 -> same_stores w2 w3 -> same_stores w1 w3.
Proof. intros (?&?&?&?&?&?) (?&?&?&?&?&?). repeat split; congruence. Qed.

Lemma check_status_not_blocked env uid w :
  (forall r, user_blocking_status w !! uid = Some r -> is_blocked r <> "Y") ->
  check_user_blocking_status env uid w
  = (Ok (false, None), log_call (SelectBlockingStatus, uid) w).
Proof.
  intros Hn. unfold check_user_blocking_status. unfold_m. cbv beta.
  destruct (fails env SelectBlockingStatus); cbv beta iota; [reflexivity|].
  proj_simpl. destruct (user_blocking_status w !! uid) as [r|] eqn:Hr; [|reflexivity].
  specialize (Hn r eq_refl). apply String.eqb_neq in Hn. now rewrite Hn.
Qed.

(** The first steps of the event loop for an identified account with a limits
    row only read. *)
Lemma process_event_reads env uid t p w :
  (get_user_team env uid w).1 = Ok t ->
  (get_user_person_tag env uid (get_user_team env uid w).2).1 = Ok p ->
  is_Some (user_limits w !! uid) ->
  exists w1 w2 w3,
    get_user_team env uid w = (Ok t, w1)
    /\ get_user_person_tag env uid w1 = (Ok p, w2)
    /\ ensure_user_exists env uid t p w2 = (Ok tt, w3)
    /\ same_stores w w3.
Proof.
  intros Ht Hp Hl.
  destruct (get_user_team_reads env uid w) as (t' & w1 & cs1 & E1 & S1 & _).
  rewrite E1 in Ht, Hp. cbn [fst snd] in Ht, Hp. injection Ht as ->.
  destruct (get_user_person_tag_reads env uid w1) as (p' & w2 & cs2 & E2 & S2 & _).
  rewrite E2 in Hp. cbn [fst] in Hp. injection Hp as ->.
  pose proof (same_stores_trans _ _ _ S1 S2) as S12.
  assert (Hl2 : is_Some (user_limits w2 !! uid))
    by (destruct S12 as (_ & -> & _); exact Hl).
  destruct (ensure_user_exists_present env uid t p w2 Hl2) as (w3 & E3 & [S3 _]).
  exists w1, w2, w3. repeat (split; [assumption|]).
  exact (same_stores_trans _ _ _ S12 S3).
Qed.

(** Up to the evaluation of the limits, an event of an identified account
    that is not blocked only reads. *)
Lemma process_event_prefix env uid t p w :
  (get_user_team env uid w).1 = Ok t ->
  (get_user_person_tag env uid (get_user_team env uid w).2).1 = Ok p ->
  is_Some (user_limits w !! uid) ->
  (forall r, user_blocking_status w !! uid = Some r -> is_blocked r <> "Y") ->
  exists w1 w2 w3 w4,
    get_user_team env uid w = (Ok t, w1)
    /\ get_user_person_tag env uid w1 = (Ok p, w2)
    /\ ensure_user_exists env uid t p w2 = (Ok tt, w3)
    /\ check_user_blocking_status env uid w3 = (Ok (false, None), w4)
    /\ same_stores w w4.
Proof.
  intros Ht Hp Hl Hn.
  destruct (process_event_reads env uid t p w Ht Hp Hl) as (w1 & w2 & w3 & E1 & E2 & E3 & S3).
  assert (Hn3 : forall r, user_blocking_status w3 !! uid = Some r -> is_blocked r <> "Y")
    by (destruct S3 as (-> & _); exact Hn).
  exists w1, w2, w3, (log_call (SelectBlockingStatus, uid) w3).
  split; [exact E1|]. split; [exact E2|]. split; [exact E3|].
  split; [exact (check_status_not_blocked env uid w3 Hn3)|].
  eapply same_stores_trans; [exact S3|]. repeat split.
Qed.

Lemma evaluation_blocks env uid w row :
  user_limits w !! uid = Some row ->
  administrative_safe row <> "Y" ->
  daily_request_limit row <= count_daily (CURDATE env) uid (bedrock_requests w) ->
  fails env SelectUserLimits = false ->
  fails env SelectDailyUsage = false ->
  fails env SelectMonthlyUsage = false ->
  exists w',
    check_user_limits_with_protection env uid w
    = (Ok (true, Some "Daily limit exceeded",
           Some (mkUsageInfo (count_daily (CURDATE env) uid (bedrock_requests w))
                             (count_monthly (month_start env) uid (bedrock_requests w))
                             (daily_request_limit row) (monthly_request_limit row) false)), w')
    /\ only_calls w w'.
Proof.
  intros Hrow Hsafe Hover Hl Hd Hm.
  unfold check_user_limits_with_protection. unfold_m. cbv beta.
  rewrite Hl. cbv beta iota. proj_simpl. rewrite Hrow. cbv beta iota.
  apply String.eqb_neq in Hsafe. rewrite Hsafe. cbv beta iota.
  rewrite Hd. cbv beta iota. rewrite Hm. cbv beta iota. proj_simpl.
  apply Z.leb_le in Hover. rewrite Hover. cbv beta iota.
  eexists. split; [reflexivity|]. split; [repeat split | solve_calls].
Qed.

Lemma evaluation_passes env uid w row :
  user_limits w !! uid = Some row ->
  (administrative_safe row = "Y"
   \/ (count_daily (CURDATE env) uid (bedrock_requests w) < daily_request_limit row
       /\ count_monthly (month_start env) uid (bedrock_requests w)
          < monthly_request_limit row)) ->
  exists reason info w',
    check_user_limits_with_protection env uid w = (Ok (false, reason, info), w')
    /\ only_calls w w'.
Proof.
  intros Hrow Hok.
  unfold check_user_limits_with_protection. unfold_m. cbv beta.
  destruct (fails env SelectUserLimits); cbv beta iota.
  { eexists _, _, _. split; [reflexivity|]. auto with run. }
  proj_simpl. rewrite Hrow. cbv beta iota.
  destruct (String.eqb (administrative_safe row) "Y") eqn:Hs; cbv beta iota.
  { eexists _, _, _. split; [reflexivity|]. auto with run. }
  destruct Hok as [Hy | [Hd Hm]]; [apply String.eqb_eq in Hy; congruence|].
  destruct (fails env SelectDailyUsage); cbv beta iota.
  { eexists _, _, _. split; [reflexivity|]. split; [repeat split | solve_calls]. }
  destruct (fails env SelectMonthlyUsage); cbv beta iota.
  { eexists _, _, _. split; [reflexivity|]. split; [repeat split | solve_calls]. }
  proj_simpl. apply Z.leb_gt in Hd, Hm. rewrite Hd, Hm. cbv beta iota.
  eexists _, _, _. split; [reflexivity|]. split; [repeat split | solve_calls].
Qed.

Lemma execute_user_blocking_frame env uid reason ui w :
  exists b w', execute_user_blocking env uid reason ui w = (Ok b, w')
    /\ bedrock_requests w' = bedrock_requests w
    /\ user_limits w' = user_limits w
    /\ (fails env UpsertBlockingStatus = false ->
        user_blocking_status w'
        = <[uid := upsert_blocked reason (get_cet_timestamp_string env)
                     (Some (Time.strftime (blocked_until_cet (get_current_cet_time env))))
                     (daily_requests_used ui) (user_blocking_status w !! uid)]>
            (user_blocking_status w)).
Proof.
  destruct (fails env UpsertBlockingStatus) eqn:Hup.
  - rewrite (execute_user_blocking_store_failure env uid reason ui w Hup).
    eexists _, _. split; [reflexivity|]. repeat split. discriminate.
  - destruct (execute_user_blocking_run env uid reason ui w Hup)
      as (b & w1 & w' & _ & E & S1 & S2 & S3).
    exists b, w'. split; [exact E|]. split; [exact S3|]. split; [exact S2|].
    intros _. rewrite S1. reflexivity.
Qed.

(** X14. An event that meets the daily limit blocks the account and is not
    recorded.  For an identified account with a limits row, not protected
    and not blocked, whose requests of today have reached the daily limit,
    and with the reads going through, [process_event] counts one blocked
    request and adds no row to [bedrock_requests]: the request that
    triggers the block is not counted as usage.  The counter moves whether
    or not the block could be written; when the BlockRecord write goes
    through, the record says blocked for "Daily limit exceeded" until the
    next local midnight, with the usage at that moment. *)
Theorem over_limit_event_blocks env detail c w uid t p row rd :
  extract_user_from_arn (userIdentity_arn detail) = Some uid ->
  (get_user_team env uid w).1 = Ok t ->
  (get_user_person_tag env uid (get_user_team env uid w).2).1 = Ok p ->
  (String.eqb t "unknown" && String.eqb p "Unknown")%bool = false ->
  user_limits w !! uid = Some row ->
  administrative_safe row <> "Y" ->
  (forall r, user_blocking_status w !! uid = Some r -> is_blocked r <> "Y") ->
  parse_bedrock_event env detail = Some rd ->
  daily_request_limit row <= count_daily (CURDATE env) uid (bedrock_requests w) ->
  fails env SelectUserLimits = false ->
  fails env SelectDailyUsage = false ->
  fails env SelectMonthlyUsage = false ->
  exists w',
    process_event env detail c w
    = (Ok (mkCounters (processed_requests c) (blocked_requests c + 1)
                      (unblocked_requests c)), w')
    /\ bedrock_requests w' = bedrock_requests w
    /\ user_limits w' = user_limits w
    /\ (fails env UpsertBlockingStatus = false ->
        exists r', user_blocking_status w' !! uid = Some r'
          /\ is_blocked r' = "Y"
          /\ blocked_reason r' = Some "Daily limit exceeded"
          /\ blocked_until r' = Some (Time.strftime (blocked_until_cet (now env)))
          /\ requests_at_blocking r'
             = count_daily (CURDATE env) uid (bedrock_requests w)).
Proof.
  intros Hu Ht Hp Hknown Hrow Hsafe Hn Hparse Hover Hl Hd Hm.
  destruct (process_event_prefix env uid t p w Ht Hp (mk_is_Some _ _ Hrow) Hn)
    as (w1 & w2 & w3 & w4 & E1 & E2 & E3 & E4 & S4).
  assert (Hrow4 : user_limits w4 !! uid = Some row)
    by (destruct S4 as (_ & -> & _); exact Hrow).
  assert (Hreq4 : bedrock_requests w4 = bedrock_requests w) by apply S4.
  assert (Hover4 : daily_request_limit row
                   <= count_daily (CURDATE env) uid (bedrock_requests w4))
    by (now rewrite Hreq4).
  destruct (evaluation_blocks env uid w4 row Hrow4 Hsafe Hover4 Hl Hd Hm)
    as (w5 & E5 & [S5 _]).
  pose proof (same_stores_trans _ _ _ S4 S5) as S05.
  match type of E5 with _ = (Ok (_, _, Some ?U), _) => set (ui := U) in * end.
  destruct (execute_user_blocking_frame env uid "Daily limit exceeded" ui w5)
    as (b & w6 & E6 & R6 & L6 & B6).
  exists w6. split.
  { unfold process_event. rewrite Hu. unfold try_except at 1.
    unfold bind at 1. rewrite E1. unfold bind at 1. rewrite E2. rewrite Hknown.
    unfold bind at 1. rewrite E3. unfold bind at 1. rewrite E4.
    cbn [Py.opt_eqb negb andb]. cbv iota. rewrite Hparse.
    unfold bind at 1. rewrite E5. cbv beta iota.
    unfold bind at 1 2. cbn [default id]. rewrite E6. reflexivity. }
  destruct S05 as (Y1 & Y2 & Y3 & _).
  split; [rewrite R6; exact Y3|]. split; [rewrite L6; exact Y2|].
  intros Hup. rewrite (B6 Hup), lookup_insert_eq. eexists. split; [reflexivity|].
  subst ui. cbn [daily_requests_used]. rewrite Y1, Hreq4.
  destruct (user_blocking_status w !! uid); repeat split.
Qed.

Lemma over_limit_event_blocks_witness :
  exists w',
    process_event Scenario.env_ok (Scenario.event_of "u1") (mkCounters 0 0 0) Scenario.world0
    = (Ok (mkCounters 0 1 0), w')
    /\ bedrock_requests w' = bedrock_requests Scenario.world0.
Proof.
  assert (Hn : forall r, user_blocking_status Scenario.world0 !! "u1" = Some r
                          -> is_blocked r <> "Y") by (intros r; discriminate).
  assert (Hs : administrative_safe (Scenario.limits "team_a" "Ana" 3 "N") <> "Y")
    by discriminate.
  assert (Ho : daily_request_limit (Scenario.limits "team_a" "Ana" 3 "N")
               <= count_daily (CURDATE Scenario.env_ok) "u1"
                    (bedrock_requests Scenario.world0)) by (vm_compute; discriminate).
  destruct (over_limit_event_blocks Scenario.env_ok (Scenario.event_of "u1")
              (mkCounters 0 0 0) Scenario.world0 "u1" "team_a" "Ana"
              (Scenario.limits "team_a" "Ana" 3 "N")
              (mkRequestData "u1" "anthropic.claude-3-haiku-20240307-v1:0"
                 (Time.mkNaive Scenario.jan15 12 0 0 0))
              eq_refl eq_refl eq_refl eq_refl eq_refl Hs Hn eq_refl Ho eq_refl eq_refl eq_refl)
    as (w' & E & R & _).
  exists w'. split; [exact E | exact R].
Defined.

Lemma parse_bedrock_event_user env detail uid rd :
  extract_user_from_arn (userIdentity_arn detail) = Some uid ->
  parse_bedrock_event env detail = Some rd ->
  rd_user_id rd = uid.
Proof.
  unfold parse_bedrock_event. intros ->.
  destruct (requestParameters detail) as [m|]; [|discriminate].
  destruct (String.eqb m ""); [discriminate|]. now intros [= <-].
Qed.

Lemma log_bedrock_request_cet_run env rd t p w :
  exists w', log_bedrock_request_cet env rd t p w = (Ok tt, w')
    /\ user_blocking_status w' = user_blocking_status w
    /\ user_limits w' = user_limits w
    /\ blocking_audit_log w' = blocking_audit_log w
    /\ iam_policies w' = iam_policies w
    /\ mailbox w' = mailbox w
    /\ bedrock_requests w'
       = (if fails env InsertRequest then bedrock_requests w
          else bedrock_requests w
               ++ [mkRequestRow (rd_user_id rd) t p (rd_model_id rd) (rd_cet_timestamp rd)
                                (get_cet_timestamp_string env)])%list.
Proof.
  unfold log_bedrock_request_cet. unfold_m. cbv beta.
  destruct (fails env InsertRequest); eexists; (split; [reflexivity|]); repeat split.
Qed.

(** X15. An event that passes the evaluation is recorded as usage.  For an
    identified account with a limits row and not blocked, that is either
    protected or below both limits, [process_event] counts one processed
    request and appends one row to [bedrock_requests] carrying the user,
    team, person, model and CET time of the event; nothing else changes.
    The counter moves even when the insert fails, in which case no row is
    added. *)
Theorem passing_event_is_recorded env detail c w uid t p row rd :
  extract_user_from_arn (userIdentity_arn detail) = Some uid ->
  (get_user_team env uid w).1 = Ok t ->
  (get_user_person_tag env uid (get_user_team env uid w).2).1 = Ok p ->
  (String.eqb t "unknown" && String.eqb p "Unknown")%bool = false ->
  user_limits w !! uid = Some row ->
  (forall r, user_blocking_status w !! uid = Some r -> is_blocked r <> "Y") ->
  parse_bedrock_event env detail = Some rd ->
  (administrative_safe row = "Y"
   \/ (count_daily (CURDATE env) uid (bedrock_requests w) < daily_request_limit row
       /\ count_monthly (month_start env) uid (bedrock_requests w)
          < monthly_request_limit row)) ->
  exists w',
    process_event env detail c w
    = (Ok (mkCounters (processed_requests c + 1) (blocked_requests c)
                      (unblocked_requests c)), w')
    /\ user_blocking_status w' = user_blocking_status w
    /\ user_limits w' = user_limits w
    /\ blocking_audit_log w' = blocking_audit_log w
    /\ iam_policies w' = iam_policies w
    /\ mailbox w' = mailbox w
    /\ bedrock_requests w'
       = (if fails env InsertRequest then bedrock_requests w
          else bedrock_requests w
               ++ [mkRequestRow uid t p (rd_model_id rd) (rd_cet_timestamp rd)
                                (get_cet_timestamp_string env)])%list.
Proof.
  intros Hu Ht Hp Hknown Hrow Hn Hparse Hok.
  destruct (process_event_prefix env uid t p w Ht Hp (mk_is_Some _ _ Hrow) Hn)
    as (w1 & w2 & w3 & w4 & E1 & E2 & E3 & E4 & S4).
  assert (Hrow4 : user_limits w4 !! uid = Some row)
    by (destruct S4 as (_ & -> & _); exact Hrow).
  assert (Hreq4 : bedrock_requests w4 = bedrock_requests w) by apply S4.
  rewrite <- Hreq4 in Hok.
  destruct (evaluation_passes env uid w4 row Hrow4 Hok)
    as (reason & info & w5 & E5 & [S5 _]).
  pose proof (same_stores_trans _ _ _ S4 S5) as (Y1 & Y2 & Y3 & Y4 & Y5 & Y6).
  destruct (log_bedrock_request_cet_run env rd t p w5)
    as (w6 & E6 & L1 & L2 & L4 & L5 & L6 & L3).
  exists w6. split.
  { unfold process_event. rewrite Hu. unfold try_except at 1.
    unfold bind at 1. rewrite E1. unfold bind at 1. rewrite E2. rewrite Hknown.
    unfold bind at 1. rewrite E3. unfold bind at 1. rewrite E4.
    cbn [Py.opt_eqb negb andb]. cbv iota. rewrite Hparse.
    unfold bind at 1. rewrite E5. cbv beta iota.
    unfold bind at 1. rewrite E6. reflexivity. }
  rewrite (parse_bedrock_event_user env detail uid rd Hu Hparse) in L3.
  split; [congruence|]. split; [congruence|]. split; [congruence|].
  split; [congruence|]. split; [congruence|]. rewrite L3, Y3. reflexivity.
Qed.

Lemma passing_event_is_recorded_witness :
  count_daily Scenario.jan15 "u2" (bedrock_requests Scenario.world0) = 4
  /\ exists w',
       process_event Scenario.env_ok (Scenario.event_of "u2") (mkCounters 0 0 0)
         Scenario.world0 = (Ok (mkCounters 1 0 0), w')
       /\ length (bedrock_requests w') = 8%nat.
Proof.
  split; [reflexivity|].
  assert (Hn : forall r, user_blocking_status Scenario.world0 !! "u2" = Some r
                          -> is_blocked r <> "Y") by (intros r; discriminate).
  destruct (passing_event_is_recorded Scenario.env_ok (Scenario.event_of "u2")
              (mkCounters 0 0 0) Scenario.world0 "u2" "team_a" "Ben"
              (Scenario.limits "team_a" "Ben" 3 "Y")
              (mkRequestData "u2" "anthropic.claude-3-haiku-20240307-v1:0"
                 (Time.mkNaive Scenario.jan15 12 0 0 0))
              eq_refl eq_refl eq_refl eq_refl eq_refl Hn eq_refl (or_introl eq_refl))
    as (w' & E & _ & _ & _ & _ & _ & R).
  exists w'. split; [exact E|]. rewrite R. reflexivity.
Defined.

(** *** A batch of events *)

Lemma ensures_ret {S A} (a : A) (P : A -> Prop) : P a -> ensures (ret (S:=S) a) P.
Proof. intros H s a' s' [= <- _]. exact H. Qed.

Lemma ensures_bind {S A B} (m : M S A) (k : A -> M S B) (P : B -> Prop) :
  (forall a, ensures (k a) P) -> ensures (bind m k) P.
Proof.
  intros H s b s'. unfold bind. destruct (m s) as [[a|] s1]; [apply H | discriminate].
Qed.

Lemma advanced_by_refl c : advanced_by 0 c c.
Proof. unfold advanced_by. lia. Qed.

Lemma advanced_by_trans n m c1 c2 c3 :
  advanced_by n c1 c2 -> advanced_by m c2 c3 -> advanced_by (n + m) c1 c3.
Proof. unfold advanced_by. lia. Qed.

Lemma process_event_advances env detail c w :
  exists c' w', process_event env detail c w = (Ok c', w') /\ advanced_by 1 c c'.
Proof.
  assert (Hc : advanced_by 1 c c) by (unfold advanced_by; lia).
  unfold process_event, try_except at 1.
  match goal with |- context [match ?m w with _ => _ end] =>
    assert (H : ensures m (advanced_by 1 c)); [|destruct (m w) as [[c'|] w'] eqn:E] end.
  - destruct (extract_user_from_arn (userIdentity_arn detail)) as [uid|];
      [|now apply ensures_ret].
    apply ensures_bind; intros team. apply ensures_bind; intros person.
    destruct (_ && _)%bool; [now apply ensures_ret|].
    apply ensures_bind; intros _. apply ensures_bind; intros [is_b reason].
    cbv beta iota zeta.
    destruct (Py.opt_eqb reason "expired"); cbn [negb andb];
      (try destruct is_b); try (apply ensures_ret; unfold advanced_by; simpl; lia);
      (destruct (parse_bedrock_event env detail);
         [|apply ensures_ret; unfold advanced_by; simpl; lia]);
      apply ensures_bind; intros [[sb nr] info]; cbv beta iota zeta;
      (destruct sb; apply ensures_bind; intros _; apply ensures_ret;
       unfold advanced_by; simpl; lia).
  - exists c', w'. split; [reflexivity|]. exact (H _ _ _ E).
  - exists c, w'. split; [reflexivity | exact Hc].
Qed.

Lemma process_events_advances env events c w :
  exists c' w', process_events env events c w = (Ok c', w')
    /\ advanced_by (Z.of_nat (length events)) c c'.
Proof.
  revert w c. induction events as [|detail rest IH]; intros w c.
  - exists c, w. split; [reflexivity | apply advanced_by_refl].
  - destruct (process_event_advances env detail c w) as (c1 & w1 & E1 & A1).
    destruct (IH w1 c1) as (c2 & w2 & E2 & A2).
    exists c2, w2. split.
    + cbn [process_events]. unfold bind. now rewrite E1.
    + replace (Z.of_nat (length (detail :: rest))) with (1 + Z.of_nat (length rest))
        by (cbn [length]; lia).
      eapply advanced_by_trans; eassumption.
Qed.

(** Unpacking the envelope: an entry that is no JSON is skipped, an event
    of another service is left out, a malformed entry fails the decoding;
    S3 deliveries among the records are skipped. *)
Example envelope_unpacking e1 e2 :
  events_to_process
    (AwsLogs (Some [Unparsable; Message (Some "bedrock.amazonaws.com") e1;
                    Message (Some "s3.amazonaws.com") e2; Message None e2]))
  = Some [e1]
  /\ events_to_process
       (AwsLogs (Some [Message (Some "bedrock.amazonaws.com") e1; Malformed])) = None
  /\ events_to_process (AwsLogs None) = None
  /\ events_to_process (Records [Delivered e1; S3Delivery; Delivered e2]) = Some [e1; e2].
Proof. repeat split. Qed.

(** The answer of [handle_cloudtrail_event]: 200 with the counters of the
    batch when the connection is there and the envelope unpacks, 500 with
    nothing touched otherwise. *)
Lemma handle_cloudtrail_event_run env connection event w :
  exists resp w',
    handle_cloudtrail_event env connection event w = (Ok resp, w')
    /\ match connection, events_to_process event with
       | Connected, Some batch =>
           exists c,
             process_events env batch (mkCounters 0 0 0) w = (Ok c, w')
             /\ advanced_by (Z.of_nat (length batch)) (mkCounters 0 0 0) c
             /\ resp = mkResponse 200
                  [("message", JStr "Successfully processed Bedrock requests with ENHANCED MERGED FUNCTIONALITY");
                   ("processed_requests", JNum (processed_requests c));
                   ("blocked_requests", JNum (blocked_requests c));
                   ("unblocked_requests", JNum (unblocked_requests c))]
       | _, _ => statusCode resp = 500 /\ w' = w
       end.
Proof.
  unfold handle_cloudtrail_event, try_except, bind.
  destruct connection; unfold get_mysql_connection, ret, raise.
  2:{ eexists _, _. split; [reflexivity|]. split; reflexivity. }
  destruct (events_to_process event) as [batch|].
  2:{ eexists _, _. split; [reflexivity|]. split; reflexivity. }
  destruct (process_events_advances env batch (mkCounters 0 0 0) w) as (c & w' & E & A).
  rewrite E. eexists _, w'. split; [reflexivity|]. exists c.
  split; [reflexivity|]. split; [exact A | reflexivity].
Qed.

(** X16. The counters of a batch.  [process_events] always returns: a
    failure while one event is handled never aborts the batch.  None of the
    three counters ever goes down, and over a batch of [n] events at most
    [n] are counted as unblocked and at most [n] as processed or blocked
    together: one event is never counted both as processed and as blocked.
    [handle_cloudtrail_event] always answers.  When the database connection
    is obtained and the envelope unpacks to a batch of [n] events, the
    answer carries status 200 and three counts between 0 and [n]; when the
    connection cannot be obtained or the CloudWatch Logs data cannot be
    decoded, the answer is 500 and nothing has been read or changed. *)
Theorem batch_counters_are_bounded env connection event events w :
  (forall c, exists c' w',
      process_events env events c w = (Ok c', w')
      /\ advanced_by (Z.of_nat (length events)) c c')
  /\ exists resp w',
       handle_cloudtrail_event env connection event w = (Ok resp, w')
       /\ match connection, events_to_process event with
          | Connected, Some batch =>
              exists p b u,
                statusCode resp = 200
                /\ Py.assoc "processed_requests" (body resp) = Some (JNum p)
                /\ Py.assoc "blocked_requests" (body resp) = Some (JNum b)
                /\ Py.assoc "unblocked_requests" (body resp) = Some (JNum u)
                /\ 0 <= p /\ 0 <= b /\ 0 <= u <= Z.of_nat (length batch)
                /\ p + b <= Z.of_nat (length batch)
          | _, _ => statusCode resp = 500 /\ w' = w
          end.
Proof.
  split; [intros c; apply process_events_advances|].
  destruct (handle_cloudtrail_event_run env connection event w) as (resp & w' & E & H).
  exists resp, w'. split; [exact E|].
  destruct connection; [|exact H].
  destruct (events_to_process event) as [batch|]; [|exact H].
  destruct H as (c & _ & A & ->).
  eexists _, _, _. split; [reflexivity|]. split; [reflexivity|].
  split; [reflexivity|]. split; [reflexivity|].
  unfold advanced_by in A. simpl in A. lia.
Qed.

(** X17. The word ['expired'] is taken for an unblock wherever it comes
    from.  The event loop recognises an automatic unblock by the reason
    [check_user_blocking_status] hands back.  For an account that is
    blocked, not due to expire, and whose stored reason is the text
    ['expired'], that reason is handed back as it is: the event is counted
    as an unblock although the record stays blocked, and it goes on to be
    evaluated and recorded like the event of an account that is not
    blocked. *)
Theorem stored_reason_expired_is_taken_for_unblock env detail c w uid t p row r rd :
  extract_user_from_arn (userIdentity_arn detail) = Some uid ->
  (get_user_team env uid w).1 = Ok t ->
  (get_user_person_tag env uid (get_user_team env uid w).2).1 = Ok p ->
  (String.eqb t "unknown" && String.eqb p "Unknown")%bool = false ->
  user_limits w !! uid = Some row ->
  user_blocking_status w !! uid = Some r ->
  is_blocked r = "Y" ->
  blocked_reason r = Some "expired" ->
  (blocked_until r = None
   \/ exists until, blocked_until r = Some until
        /\ Time.instant (now env) < Time.instant (Time.localize (CET env) until)) ->
  fails env SelectBlockingStatus = false ->
  parse_bedrock_event env detail = Some rd ->
  (administrative_safe row = "Y"
   \/ (count_daily (CURDATE env) uid (bedrock_requests w) < daily_request_limit row
       /\ count_monthly (month_start env) uid (bedrock_requests w)
          < monthly_request_limit row)) ->
  exists w',
    process_event env detail c w
    = (Ok (mkCounters (processed_requests c + 1) (blocked_requests c)
                      (unblocked_requests c + 1)), w')
    /\ user_blocking_status w' !! uid = Some r
    /\ bedrock_requests w'
       = (if fails env InsertRequest then bedrock_requests w
          else bedrock_requests w
               ++ [mkRequestRow uid t p (rd_model_id rd) (rd_cet_timestamp rd)
                                (get_cet_timestamp_string env)])%list.
Proof.
  intros Hu Ht Hp Hknown Hrow Hr Hb Hreason Hexp Hs Hparse Hok.
  destruct (process_event_reads env uid t p w Ht Hp (mk_is_Some _ _ Hrow))
    as (w1 & w2 & w3 & E1 & E2 & E3 & S3).
  assert (Hr3 : user_blocking_status w3 !! uid = Some r)
    by (destruct S3 as (-> & _); exact Hr).
  pose proof (check_status_still_blocked env uid w3 r Hr3 Hb Hexp Hs) as E4.
  rewrite Hreason in E4.
  set (w4 := log_call (SelectBlockingStatus, uid) w3) in *.
  assert (S4 : same_stores w w4).
  { eapply same_stores_trans; [exact S3|]. repeat split. }
  assert (Hrow4 : user_limits w4 !! uid = Some row)
    by (destruct S4 as (_ & -> & _); exact Hrow).
  assert (Hreq4 : bedrock_requests w4 = bedrock_requests w) by apply S4.
  rewrite <- Hreq4 in Hok.
  destruct (evaluation_passes env uid w4 row Hrow4 Hok)
    as (reason & info & w5 & E5 & [S5 _]).
  pose proof (same_stores_trans _ _ _ S4 S5) as (Y1 & Y2 & Y3 & Y4 & Y5 & Y6).
  destruct (log_bedrock_request_cet_run env rd t p w5)
    as (w6 & E6 & L1 & L2 & L4 & L5 & L6 & L3).
  exists w6. split.
  { unfold process_event. rewrite Hu. unfold try_except at 1.
    unfold bind at 1. rewrite E1. unfold bind at 1. rewrite E2. rewrite Hknown.
    unfold bind at 1. rewrite E3. unfold bind at 1. rewrite E4.
    cbn [Py.opt_eqb String.eqb Ascii.eqb Bool.eqb negb andb]. cbv iota. rewrite Hparse.
    unfold bind at 1. rewrite E5. cbv beta iota.
    unfold bind at 1. rewrite E6. reflexivity. }
  rewrite (parse_bedrock_event_user env detail uid rd Hu Hparse) in L3.
  split; [rewrite L1, Y1; exact Hr|]. rewrite L3, Y3. reflexivity.
Qed.

Lemma stored_reason_expired_is_taken_for_unblock_witness :
  exists w',
    process_event Scenario.env_ok (Scenario.event_of "u4") (mkCounters 0 0 0)
      (set_user_blocking_status
         (fun m => <["u4" := Scenario.blocked_row "expired" None]> m) Scenario.world0)
    = (Ok (mkCounters 1 0 1), w')
    /\ (is_blocked <$> user_blocking_status w' !! "u4") = Some "Y".
Proof.
  assert (Hr : user_blocking_status
                 (set_user_blocking_status
                    (fun m => <["u4" := Scenario.blocked_row "expired" None]> m)
                    Scenario.world0) !! "u4"
               = Some (Scenario.blocked_row "expired" None)) by (vm_compute; reflexivity).
  destruct (stored_reason_expired_is_taken_for_unblock Scenario.env_ok
              (Scenario.event_of "u4") (mkCounters 0 0 0)
              (set_user_blocking_status
                 (fun m => <["u4" := Scenario.blocked_row "expired" None]> m) Scenario.world0)
              "u4" "team_b" "Dan" (Scenario.limits "team_b" "Dan" 3 "Y")
              (Scenario.blocked_row "expired" None)
              (mkRequestData "u4" "anthropic.claude-3-haiku-20240307-v1:0"
                 (Time.mkNaive Scenario.jan15 12 0 0 0))
              eq_refl eq_refl eq_refl eq_refl eq_refl Hr eq_refl eq_refl
              (or_introl eq_refl) eq_refl eq_refl (or_introl eq_refl))
    as (w' & E & R & _).
  exists w'. split; [exact E|]. now rewrite R.
Defined.

(** *** Routing of incoming events *)

Lemma ensures_try {S A} (m h : M S A) (P : A -> Prop) :
  ensures m P -> ensures h P -> ensures (try_except m h) P.
Proof.
  intros Hm Hh s a s'. unfold try_except.
  destruct (m s) as [[a1|] s1] eqn:E.
  - intros [= <- <-]. exact (Hm _ _ _ E).
  - apply Hh.
Qed.

Lemma manual_block_user_status env event :
  ensures (manual_block_user env event) (fun r => statusCode r <> 400).
Proof.
  unfold manual_block_user. apply ensures_try; [|now apply ensures_ret].
  apply ensures_bind; intros ui. apply ensures_bind; intros [|]; now apply ensures_ret.
Qed.

Lemma manual_unblock_user_status env event :
  ensures (manual_unblock_user env event) (fun r => statusCode r <> 400).
Proof.
  unfold manual_unblock_user. apply ensures_try; [|now apply ensures_ret].
  apply ensures_bind; intros [|]; now apply ensures_ret.
Qed.

Lemma check_user_status_status env event :
  ensures (check_user_status env event) (fun r => statusCode r <> 400).
Proof.
  intros w resp w' E.
  destruct (check_user_status_reads env event w) as (resp' & w'' & E' & _).
  revert E. unfold check_user_status. unfold_m. cbv beta.
  destruct (fails env SelectBlockingStatus); cbv beta iota; [now intros [= <- _]|].
  destruct (fails env SelectUserLimits); cbv beta iota; [now intros [= <- _]|].
  proj_simpl.
  destruct (user_blocking_status w !! default "" (ev_user_id event)) as [r|];
    [destruct (String.eqb (is_blocked r) "Y");
       [destruct (blocked_until r) as [t|]; [destruct (expires_at_midnight t)|]|]|];
    now intros [= <- _].
Qed.

(** X18. The router decides before the validation does.  [lambda_handler]
    hands an event to [handle_api_event] only when it carries both
    ['action'] and ['user_id'], so the check for these two keys inside
    [handle_api_event] can never fail: no event is ever answered with 400
    "Missing required parameters".  A command that lacks one of the keys is
    handled as CloudTrail traffic instead.  With the database reachable and
    nothing to unpack from it, it is answered 200 with three zero counters;
    with the database unreachable it is answered 500; in both cases no
    store is read or changed. *)
Theorem missing_parameter_answer_is_unreachable env event connection envelope w :
  (lambda_handler env event connection envelope w).1
  <> Ok (mkResponse 400 [("error", JStr "Missing required parameters: action and user_id")])
  /\ (action event = None \/ ev_user_id event = None ->
      lambda_handler env event connection envelope w
      = handle_cloudtrail_event env connection envelope w
      /\ lambda_handler env event Connected (Records []) w
         = (Ok (mkResponse 200
                  [("message", JStr "Successfully processed Bedrock requests with ENHANCED MERGED FUNCTIONALITY");
                   ("processed_requests", JNum 0);
                   ("blocked_requests", JNum 0);
                   ("unblocked_requests", JNum 0)]), w)
      /\ exists resp,
           lambda_handler env event Unreachable envelope w = (Ok resp, w)
           /\ statusCode resp = 500).
Proof.
  split.
  - assert (Hct : (handle_cloudtrail_event env connection envelope w).1
                  <> Ok (mkResponse 400
                           [("error", JStr "Missing required parameters: action and user_id")])).
    { destruct (handle_cloudtrail_event_run env connection envelope w)
        as (resp & w' & E & H).
      rewrite E. cbn [fst]. intros [= Hr]. subst resp.
      destruct connection; [|now destruct H].
      destruct (events_to_process envelope); [|now destruct H].
      destruct H as (c & _ & _ & H). discriminate. }
    unfold lambda_handler.
    destruct (action event) as [act|] eqn:Ha; [|exact Hct].
    destruct (ev_user_id event) as [uid|] eqn:Hu; [|exact Hct].
    unfold handle_api_event. rewrite Ha, Hu. unfold try_except at 1.
    match goal with |- context [match ?m w with _ => _ end] =>
      assert (H : ensures m (fun r => r <> mkResponse 400
                  [("error", JStr "Missing required parameters: action and user_id")]));
      [|destruct (m w) as [[resp|] w'] eqn:E] end.
    + destruct (String.eqb act "block").
      { intros s a s' E ->. now apply (manual_block_user_status env event s _ s' E). }
      destruct (String.eqb act "unblock").
      { intros s a s' E ->. now apply (manual_unblock_user_status env event s _ s' E). }
      destruct (String.eqb act "check_status").
      { intros s a s' E ->. now apply (check_user_status_status env event s _ s' E). }
      apply ensures_ret. discriminate.
    + cbn [fst]. intros [= ->]. now apply (H _ _ _ E).
    + cbn [fst ret]. discriminate.
  - intros Hmiss.
    assert (Hroute : forall cn ev,
              lambda_handler env event cn ev w = handle_cloudtrail_event env cn ev w).
    { intros cn ev. unfold lambda_handler.
      destruct Hmiss as [-> | Hu]; [reflexivity|].
      rewrite Hu. destruct (action event); reflexivity. }
    split; [apply Hroute|]. split; [rewrite Hroute; reflexivity|].
    rewrite Hroute. eexists. split; reflexivity.
Qed.

Lemma missing_parameter_answer_is_unreachable_witness :
  status_of (lambda_handler Scenario.env_ok
               (mkApiEvent (Some "unblock") None None None None None)
               Connected (Records []) Scenario.world0).1 = Some 200
  /\ status_of (lambda_handler Scenario.env_ok
                  (mkApiEvent (Some "unblock") None None None None None)
                  Unreachable (Detail (Scenario.event_of "u1")) Scenario.world0).1 = Some 500.
Proof.
  destruct (proj2 (missing_parameter_answer_is_unreachable Scenario.env_ok
                     (mkApiEvent (Some "unblock") None None None None None)
                     Unreachable (Detail (Scenario.event_of "u1")) Scenario.world0)
              (or_intror eq_refl)) as (_ & E1 & resp & E2 & H2).
  rewrite E1, E2. cbn [fst status_of statusCode]. now rewrite H2.
Defined.

End ControllerExtra.

(* ===================================================================== *)
(** ** Further properties of the daily reset *)
(* ===================================================================== *)

Module DailyResetExtra.

Import Policy.
Import Controller.
Import DailyReset.
Import Notions.
Import ControllerFacts.
Import DailyResetFacts.

(** *** Unblocking one account *)

Lemma daily_unblocking_run env uid w :
  exists b w', execute_user_unblocking env uid w = (Ok b, w')
    /\ b = negb (fails env UpdateBlockingStatus || fails env UpdateUserLimits
                 || fails env InsertAudit)
    /\ user_blocking_status w'
       = (if fails env UpdateBlockingStatus then user_blocking_status w
          else alter (reset_row (get_cet_timestamp_string env)) uid (user_blocking_status w))
    /\ user_limits w'
       = (if (fails env UpdateBlockingStatus || fails env UpdateUserLimits)%bool
          then user_limits w
          else alter (clear_if_set (get_cet_timestamp_string env)) uid (user_limits w))
    /\ bedrock_requests w' = bedrock_requests w
    /\ blocking_audit_log w'
       = (if b then blocking_audit_log w
                    ++ [mkAuditRow uid "UNBLOCK" "Daily reset" "daily_reset"
                                   (get_cet_timestamp_string env) None None None None]
          else blocking_audit_log w)%list
    /\ mailbox w' = mailbox w
    /\ (b = false -> iam_policies w' = iam_policies w
                     /\ ~ In (GetUserPolicy, uid) (skipn (length (calls w)) (calls w'))).
Proof.
  unfold execute_user_unblocking. unfold_m. cbv beta.
  destruct (fails env UpdateBlockingStatus); cbv beta iota.
  { eexists _, _. split; [reflexivity|]. proj_simpl. repeat split.
    rewrite skipn_app, skipn_all, Nat.sub_diag. simpl. intros [[=]|[]]. }
  destruct (fails env UpdateUserLimits); cbv beta iota.
  { eexists _, _. split; [reflexivity|]. proj_simpl. repeat split.
    rewrite <- app_assoc, skipn_app, skipn_all, Nat.sub_diag. simpl.
    intros [[=]|[[=]|[]]]. }
  destruct (fails env InsertAudit); cbv beta iota.
  { eexists _, _. split; [reflexivity|]. proj_simpl. repeat split.
    rewrite <- !app_assoc, skipn_app, skipn_all, Nat.sub_diag. simpl.
    intros [[=]|[[=]|[[=]|[]]]]. }
  match goal with |- context [implement_iam_unblocking env uid ?W] =>
    destruct (implement_iam_unblocking_run env uid W)
      as (b1 & w1 & E1 & (T1 & T2 & T3 & T4 & _) & M1 & _)
  end. rewrite E1. cbv beta iota. proj_simpl.
  eexists _, _. split; [reflexivity|]. cbn [negb orb].
  split; [reflexivity|]. split; [exact T1|]. split; [exact T2|]. split; [exact T3|].
  split; [exact T4|]. split; [exact M1|]. discriminate.
Qed.

(** X19. A failed audit insert leaves the sweep half done for good.  In the
    sweeper's [execute_user_unblocking] the BlockRecord and the protection
    flag are updated before the audit insert, and all three share one
    [try].  When the two updates go through and the audit insert fails, the
    function returns [False]: the sweep reports "Failed to unblock user",
    counts nothing and sends no notification.  Yet the record already says
    unblocked, while the IAM policy has not been touched and keeps its deny
    statement; and since the record is no longer blocked, no later run of
    the sweep selects the account again. *)
Theorem sweep_audit_failure_leaves_policy_denied env uid r res w :
  user_blocking_status w !! uid = Some r ->
  fails env UpdateBlockingStatus = false ->
  fails env UpdateUserLimits = false ->
  fails env InsertAudit = true ->
  exists w',
    unblock_one env uid res w
    = (Ok (mkResults (unblocked_count res) (notified_count res)
                     (admin_safe_removed_count res)
                     (errors res ++ [("Failed to unblock user " ++ uid)%string])%list
                     (unblocked_users res) (admin_safe_removed_users res)), w')
    /\ (exists r', user_blocking_status w' !! uid = Some r'
          /\ is_blocked r' = "N" /\ blocked_until r' = None)
    /\ iam_policies w' = iam_policies w
    /\ mailbox w' = mailbox w
    /\ blocking_audit_log w' = blocking_audit_log w
    /\ forall later, ~ In uid (select_expired_blocked_users later w').
Proof.
  intros Hr Hb Hl Ha.
  destruct (daily_unblocking_run env uid w)
    as (b & w' & E & Hbv & S1 & _ & _ & S4 & S5 & S6).
  rewrite Hb, Hl, Ha in Hbv. cbn in Hbv. subst b. rewrite Hb in S1.
  destruct (S6 eq_refl) as [S7 _].
  exists w'. split.
  { unfold unblock_one, try_except at 1, bind at 1. rewrite E. reflexivity. }
  assert (Hr' : user_blocking_status w' !! uid
                = Some (reset_row (get_cet_timestamp_string env) r))
    by (now rewrite S1, lookup_alter_eq, Hr).
  split; [eexists; split; [exact Hr'|]; split; reflexivity|].
  split; [exact S7|]. split; [exact S5|]. split; [exact S4|].
  intros later Hin. apply select_expired_spec in Hin as (r' & Hr2 & Hy & _).
  rewrite Hr' in Hr2. injection Hr2 as <-. discriminate.
Qed.

Lemma sweep_audit_failure_leaves_policy_denied_witness :
  exists res w',
    unblock_one (Scenario.env_with (Op_eqb InsertAudit)) "u3" (mkResults 0 0 0 [] [] [])
      Scenario.world0 = (Ok res, w')
    /\ unblocked_count res = 0
    /\ (exists r', user_blocking_status w' !! "u3" = Some r' /\ is_blocked r' = "N")
    /\ iam_policies w' !! policy_key "u3" = Some Scenario.blocked_policy.
Proof.
  destruct (sweep_audit_failure_leaves_policy_denied (Scenario.env_with (Op_eqb InsertAudit))
              "u3" (Scenario.blocked_row "Daily limit exceeded" (Some Scenario.eleven))
              (mkResults 0 0 0 [] [] []) Scenario.world0 eq_refl eq_refl eq_refl eq_refl)
    as (w' & E & (r' & Hr & Hn & _) & I & _).
  eexists _, w'. split; [exact E|]. split; [reflexivity|].
  split; [exists r'; now split|]. now rewrite I.
Defined.

(** *** The sweep as a whole *)

Lemma clear_if_set_not_protected stamp l : administrative_safe (clear_if_set stamp l) <> "Y".
Proof.
  unfold clear_if_set. destruct (String.eqb (administrative_safe l) "Y") eqn:E.
  - discriminate.
  - now apply String.eqb_neq.
Qed.

(** What a row looks like after [alter f] has been applied along a list of
    keys. *)
Lemma lookup_alter_along {A} (f : A -> A) (us : list string) (m : gmap string A) k :
  (In k us -> forall x', foldl (fun m u => alter f u m) m us !! k = Some x' ->
     exists x, x' = f x)
  /\ (~ In k us -> foldl (fun m u => alter f u m) m us !! k = m !! k)
  /\ (is_Some (foldl (fun m u => alter f u m) m us !! k) <-> is_Some (m !! k)).
Proof.
  induction us as [|u us IH] using rev_ind.
  - split; [intros []|]. split; reflexivity.
  - rewrite foldl_app. cbn [foldl]. destruct IH as (IH1 & IH2 & IH3).
    destruct (decide (k = u)) as [->|Hne].
    + rewrite lookup_alter_eq. split; [|split].
      * intros _ x' Hx. apply fmap_Some in Hx as (x & _ & ->). now exists x.
      * intros Hn. exfalso. apply Hn, in_app_iff. right. now left.
      * rewrite <- IH3. apply fmap_is_Some.
    + rewrite lookup_alter_ne by congruence. split; [|split].
      * intros Hin. apply in_app_iff in Hin as [Hin | [-> | []]]; [now apply IH1 | congruence].
      * intros Hn. apply IH2. intros Hin. apply Hn, in_app_iff. now left.
      * exact IH3.
Qed.

Lemma send_reset_email_notification_run env uid w :
  exists b w', send_reset_email_notification env uid w = (Ok b, w')
    /\ user_blocking_status w' = user_blocking_status w
    /\ user_limits w' = user_limits w
    /\ blocking_audit_log w' = blocking_audit_log w.
Proof.
  unfold send_reset_email_notification. unfold_m. cbv beta.
  destruct (fails env InvokeEmailService); eexists _, _; (split; [reflexivity|]);
    repeat split.
Qed.

Lemma unblock_one_run env uid res w :
  fails env UpdateBlockingStatus = false ->
  fails env UpdateUserLimits = false ->
  fails env InsertAudit = false ->
  exists res' w', unblock_one env uid res w = (Ok res', w')
    /\ user_blocking_status w'
       = alter (reset_row (get_cet_timestamp_string env)) uid (user_blocking_status w)
    /\ user_limits w'
       = alter (clear_if_set (get_cet_timestamp_string env)) uid (user_limits w).
Proof.
  intros Hb Hl Ha.
  destruct (daily_unblocking_run env uid w) as (b & w1 & E & Hbv & S1 & S2 & _).
  rewrite Hb, Hl, Ha in Hbv. cbn in Hbv. subst b. rewrite Hb in S1, S2. rewrite Hl in S2.
  cbn [orb] in S2.
  destruct (send_reset_email_notification_run env uid w1) as (b2 & w2 & E2 & T1 & T2 & _).
  unfold unblock_one, try_except at 1, bind at 1. rewrite E. unfold bind at 1. rewrite E2.
  unfold ret. eexists _, w2. split; [reflexivity|]. split; congruence.
Qed.

Lemma remove_flag_one_run env uid res w :
  fails env UpdateUserLimits = false ->
  exists res' w', remove_flag_one env uid res w = (Ok res', w')
    /\ user_blocking_status w' = user_blocking_status w
    /\ user_limits w'
       = alter (clear_if_set (get_cet_timestamp_string env)) uid (user_limits w).
Proof.
  intros Hl. unfold remove_flag_one, remove_administrative_safe_flag. unfold_m. cbv beta.
  rewrite Hl. cbv beta iota. proj_simpl.
  destruct (match user_limits w !! uid with
            | Some r => String.eqb (administrative_safe r) "Y" | None => false end);
    cbv beta iota; [destruct (fails env InsertAudit); cbv beta iota|];
    eexists _, _; (split; [reflexivity|]); split; reflexivity.
Qed.

Lemma fold_unblock_run env us res w :
  fails env UpdateBlockingStatus = false ->
  fails env UpdateUserLimits = false ->
  fails env InsertAudit = false ->
  exists res' w', fold_users (unblock_one env) us res w = (Ok res', w')
    /\ user_blocking_status w'
       = foldl (fun m u => alter (reset_row (get_cet_timestamp_string env)) u m)
               (user_blocking_status w) us
    /\ user_limits w'
       = foldl (fun m u => alter (clear_if_set (get_cet_timestamp_string env)) u m)
               (user_limits w) us.
Proof.
  intros Hb Hl Ha. revert res w. induction us as [|u us IH]; intros res w.
  - exists res, w. repeat split.
  - destruct (unblock_one_run env u res w Hb Hl Ha) as (res1 & w1 & E1 & S1 & L1).
    destruct (IH res1 w1) as (res2 & w2 & E2 & S2 & L2).
    exists res2, w2. split.
    + cbn [fold_users]. unfold bind. now rewrite E1.
    + cbn [foldl]. rewrite S2, L2, S1, L1. split; reflexivity.
Qed.

Lemma fold_remove_flag_run env us res w :
  fails env UpdateUserLimits = false ->
  exists res' w', fold_users (remove_flag_one env) us res w = (Ok res', w')
    /\ user_blocking_status w' = user_blocking_status w
    /\ user_limits w'
       = foldl (fun m u => alter (clear_if_set (get_cet_timestamp_string env)) u m)
               (user_limits w) us.
Proof.
  intros Hl. revert res w. induction us as [|u us IH]; intros res w.
  - exists res, w. repeat split.
  - destruct (remove_flag_one_run env u res w Hl) as (res1 & w1 & E1 & S1 & L1).
    destruct (IH res1 w1) as (res2 & w2 & E2 & S2 & L2).
    exists res2, w2. split.
    + cbn [fold_users]. unfold bind. now rewrite E1.
    + cbn [foldl]. rewrite S2, L2, S1, L1. split; reflexivity.
Qed.

(** Which accounts pass 2 of the sweep selects. *)
Lemma select_active_spec w uid :
  In uid (select_active_admin_safe_users w)
  <-> exists l, user_limits w !! uid = Some l
        /\ administrative_safe l = "Y"
        /\ (user_blocking_status w !! uid = None
            \/ exists r, user_blocking_status w !! uid = Some r /\ is_blocked r = "N").
Proof.
  unfold select_active_admin_safe_users. rewrite in_map_iff. split.
  - intros ([u l] & Hu & Hin). simpl in Hu. subst u.
    apply filter_In in Hin as [Hin Hf].
    apply list_elem_of_In, elem_of_map_to_list in Hin.
    unfold is_active_admin_safe in Hf. simpl in Hf.
    apply andb_true_iff in Hf as [Hs Hb].
    exists l. split; [exact Hin|]. split; [now apply String.eqb_eq|].
    destruct (user_blocking_status w !! uid) as [r|]; [right|now left].
    exists r. split; [reflexivity|]. now apply String.eqb_eq.
  - intros (l & Hl & Hs & Hb). exists (uid, l). split; [reflexivity|].
    apply filter_In. split.
    + now apply list_elem_of_In, elem_of_map_to_list.
    + unfold is_active_admin_safe. simpl. rewrite Hs, String.eqb_refl. simpl.
      destruct Hb as [-> | (r & -> & Hn)]; [reflexivity|]. now rewrite Hn.
Qed.

Lemma nothing_selected (l : list string) : (forall u, ~ In u l) -> l = [].
Proof. destruct l as [|u l]; [reflexivity|]. intros H. destruct (H u). now left. Qed.

(** X20. The sweep leaves nothing to sweep.  With the two selections, the
    updates of the two tables and the audit insert going through (the IAM
    and e-mail steps may fail), after
    [unblock_all_blocked_users_and_notify] no account satisfies either
    selection any more: no account with a limits row is blocked with an
    expiration that is absent or past, and no account that is not blocked
    carries the protection flag.  Running the sweep again at the same time
    would find both lists empty. *)
Theorem sweep_leaves_nothing_to_sweep env w :
  fails env SelectBlockingStatus = false ->
  fails env SelectUserLimits = false ->
  fails env UpdateBlockingStatus = false ->
  fails env UpdateUserLimits = false ->
  fails env InsertAudit = false ->
  let w' := (unblock_all_blocked_users_and_notify env w).2 in
  select_expired_blocked_users (now env) w' = []
  /\ select_active_admin_safe_users w' = [].
Proof.
  intros Hs1 Hs2 Hb Hl Ha w'. subst w'.
  unfold unblock_all_blocked_users_and_notify. unfold_m. cbv beta.
  rewrite Hs1. cbv beta iota. rewrite Hs2. cbv beta iota.
  set (w0 := log_call (SelectUserLimits, "") (log_call (SelectBlockingStatus, "") w)).
  set (l1 := select_expired_blocked_users (get_current_cet_time env)
               (log_call (SelectBlockingStatus, "") w)).
  set (l2 := select_active_admin_safe_users w0).
  assert (Hl1 : forall u, In u l1 <-> In u (select_expired_blocked_users (now env) w0))
    by (intros u; reflexivity).
  destruct (fold_unblock_run env l1 (mkResults 0 0 0 [] [] []) w0 Hb Hl Ha)
    as (res1 & w1 & E1 & S1 & L1).
  fold (bind (fold_users (unblock_one env) l1 (mkResults 0 0 0 [] [] []))
             (fun res => fold_users (remove_flag_one env) l2 res) w0).
  unfold bind. rewrite E1.
  destruct (fold_remove_flag_run env l2 res1 w1 Hl) as (res2 & w2 & E2 & S2 & L2).
  rewrite E2. cbn [snd].
  set (stamp := get_cet_timestamp_string env) in *.
  split; apply nothing_selected; intros u Hin.
  - apply select_expired_spec in Hin as (r' & Hr' & Hy & Hexp & Hlim).
    rewrite S2, S1 in Hr'. rewrite L2, L1 in Hlim.
    destruct (lookup_alter_along (reset_row stamp) l1 (user_blocking_status w0) u)
      as (A1 & A2 & _).
    destruct (in_dec string_dec u l1) as [Hi | Hni].
    + destruct (A1 Hi r' Hr') as (x & ->). discriminate.
    + rewrite (A2 Hni) in Hr'. apply Hni, Hl1, select_expired_spec.
      exists r'. split; [exact Hr'|]. split; [exact Hy|]. split; [exact Hexp|].
      apply (proj1 (proj2 (proj2 (lookup_alter_along (clear_if_set stamp) l2 _ u)))) in Hlim.
      exact (proj1 (proj2 (proj2 (lookup_alter_along (clear_if_set stamp) l1 _ u))) Hlim).
  - apply select_active_spec in Hin as (l' & Hl' & Hy & Hblk).
    rewrite L2, L1 in Hl'. rewrite S2, S1 in Hblk.
    destruct (lookup_alter_along (clear_if_set stamp) l2
                (foldl (fun m u => alter (clear_if_set stamp) u m) (user_limits w0) l1) u)
      as (B1 & B2 & _).
    destruct (in_dec string_dec u l2) as [Hi2 | Hni2].
    { destruct (B1 Hi2 l' Hl') as (x & ->). now apply clear_if_set_not_protected in Hy. }
    rewrite (B2 Hni2) in Hl'.
    destruct (lookup_alter_along (clear_if_set stamp) l1 (user_limits w0) u)
      as (C1 & C2 & _).
    destruct (in_dec string_dec u l1) as [Hi1 | Hni1].
    { destruct (C1 Hi1 l' Hl') as (x & ->). now apply clear_if_set_not_protected in Hy. }
    rewrite (C2 Hni1) in Hl'.
    rewrite (proj1 (proj2 (lookup_alter_along (reset_row stamp) l1
                             (user_blocking_status w0) u)) Hni1) in Hblk.
    apply Hni2. apply select_active_spec. exists l'. repeat split; assumption.
Qed.

Lemma sweep_leaves_nothing_to_sweep_witness :
  length (select_expired_blocked_users (now Scenario.env_iam_down) Scenario.world0) = 2%nat
  /\ select_active_admin_safe_users Scenario.world0 = ["u2"]
  /\ select_expired_blocked_users (now Scenario.env_iam_down)
       (unblock_all_blocked_users_and_notify Scenario.env_iam_down Scenario.world0).2 = []
  /\ select_active_admin_safe_users
       (unblock_all_blocked_users_and_notify Scenario.env_iam_down Scenario.world0).2 = [].
Proof.
  split; [vm_compute; reflexivity|]. split; [vm_compute; reflexivity|].
  exact (sweep_leaves_nothing_to_sweep Scenario.env_iam_down Scenario.world0
           eq_refl eq_refl eq_refl eq_refl eq_refl).
Defined.

(** *** What the sweep reports *)

Lemma unblock_one_step env u res w :
  exists res' w', unblock_one env u res w = (Ok res', w')
    /\ admin_safe_removed_count res' = admin_safe_removed_count res
    /\ admin_safe_removed_users res' = admin_safe_removed_users res
    /\ ((unblocked_users res' = (unblocked_users res ++ [u])%list
         /\ unblocked_count res' = unblocked_count res + 1
         /\ notified_count res' = notified_count res + 1
         /\ errors res' = errors res)
        \/ (notified_count res' = notified_count res
            /\ (exists e, errors res' = (errors res ++ [e])%list)
            /\ ((unblocked_users res' = (unblocked_users res ++ [u])%list
                 /\ unblocked_count res' = unblocked_count res + 1)
                \/ (unblocked_users res' = unblocked_users res
                    /\ unblocked_count res' = unblocked_count res)))).
Proof.
  destruct (daily_unblocking_run env u w) as (b & w1 & E & _).
  unfold unblock_one, try_except at 1, bind at 1. rewrite E.
  destruct b.
  - destruct (send_reset_email_notification_run env u w1) as (b2 & w2 & E2 & _).
    unfold bind at 1. rewrite E2. unfold ret.
    destruct b2; eexists _, _; (split; [reflexivity|]); cbn; (split; [reflexivity|]);
      (split; [reflexivity|]).
    + left. repeat split.
    + right. split; [reflexivity|]. split; [eexists; reflexivity|]. left. now split.
  - unfold ret. eexists _, _. split; [reflexivity|]. cbn. split; [reflexivity|].
    split; [reflexivity|]. right. split; [reflexivity|]. split; [eexists; reflexivity|].
    right. now split.
Qed.

Lemma remove_flag_one_step env u res w :
  exists res' w', remove_flag_one env u res w = (Ok res', w')
    /\ unblocked_count res' = unblocked_count res
    /\ notified_count res' = notified_count res
    /\ unblocked_users res' = unblocked_users res
    /\ ((admin_safe_removed_users res' = (admin_safe_removed_users res ++ [u])%list
         /\ admin_safe_removed_count res' = admin_safe_removed_count res + 1
         /\ errors res' = errors res)
        \/ (admin_safe_removed_users res' = admin_safe_removed_users res
            /\ admin_safe_removed_count res' = admin_safe_removed_count res
            /\ exists e, errors res' = (errors res ++ [e])%list)).
Proof.
  unfold remove_flag_one, try_except at 1, bind at 1.
  assert (H : exists b w1, remove_administrative_safe_flag env u w = (Ok b, w1)).
  { unfold remove_administrative_safe_flag. unfold_m. cbv beta.
    destruct (fails env UpdateUserLimits); cbv beta iota; [eauto|].
    proj_simpl.
    destruct (match user_limits w !! u with
              | Some r => String.eqb (administrative_safe r) "Y" | None => false end);
      cbv beta iota; [destruct (fails env InsertAudit); cbv beta iota|]; eauto. }
  destruct H as (b & w1 & E). rewrite E. unfold ret.
  destruct b; eexists _, _; (split; [reflexivity|]); cbn; repeat (split; [reflexivity|]).
  - left. repeat split.
  - right. repeat split. eexists; reflexivity.
Qed.

Lemma app_not_nil {A} (l : list A) (e : A) : (l ++ [e])%list <> [].
Proof. destruct l; discriminate. Qed.

Lemma fold_unblock_results env us done res w :
  unblocked_count res = Z.of_nat (length (unblocked_users res)) ->
  0 <= notified_count res <= unblocked_count res ->
  (errors res = [] -> unblocked_users res = done
                      /\ notified_count res = unblocked_count res) ->
  exists res' w', fold_users (unblock_one env) us res w = (Ok res', w')
    /\ unblocked_count res' = Z.of_nat (length (unblocked_users res'))
    /\ 0 <= notified_count res' <= unblocked_count res'
    /\ (errors res' = [] -> unblocked_users res' = (done ++ us)%list
                            /\ notified_count res' = unblocked_count res')
    /\ admin_safe_removed_count res' = admin_safe_removed_count res
    /\ admin_safe_removed_users res' = admin_safe_removed_users res.
Proof.
  revert done res w. induction us as [|u us IH]; intros done res w H1 H2 H3.
  - exists res, w. split; [reflexivity|]. rewrite app_nil_r. repeat split; tauto || lia.
  - destruct (unblock_one_step env u res w) as (res1 & w1 & E1 & A1 & A2 & Hstep).
    destruct (IH (done ++ [u])%list res1 w1) as (res2 & w2 & E2 & I1 & I2 & I3 & I4 & I5).
    + destruct Hstep as [(U & C & _ & _) | (_ & _ & [(U & C) | (U & C)])];
        rewrite U, C, ?length_app; cbn [length]; lia.
    + destruct Hstep as [(U & C & N & _) | (N & _ & [(U & C) | (U & C)])]; lia.
    + intros He. destruct Hstep as [(U & C & N & Er) | (_ & (e & Er) & _)].
      * rewrite Er in He. destruct (H3 He) as [Hd HN]. split; [now rewrite U, Hd | lia].
      * rewrite Er in He. now apply app_not_nil in He.
    + exists res2, w2. split; [cbn [fold_users]; unfold bind; now rewrite E1|].
      rewrite <- app_assoc in I3. repeat split; try tauto; try lia; congruence.
Qed.

Lemma fold_remove_flag_results env us done res w :
  admin_safe_removed_count res = Z.of_nat (length (admin_safe_removed_users res)) ->
  (errors res = [] -> admin_safe_removed_users res = done) ->
  exists res' w', fold_users (remove_flag_one env) us res w = (Ok res', w')
    /\ admin_safe_removed_count res' = Z.of_nat (length (admin_safe_removed_users res'))
    /\ (errors res' = [] -> errors res = []
                            /\ admin_safe_removed_users res' = (done ++ us)%list)
    /\ unblocked_count res' = unblocked_count res
    /\ notified_count res' = notified_count res
    /\ unblocked_users res' = unblocked_users res.
Proof.
  revert done res w. induction us as [|u us IH]; intros done res w H1 H3.
  - exists res, w. split; [reflexivity|]. rewrite app_nil_r. repeat split; tauto.
  - destruct (remove_flag_one_step env u res w) as (res1 & w1 & E1 & A1 & A2 & A3 & Hstep).
    destruct (IH (done ++ [u])%list res1 w1) as (res2 & w2 & E2 & I1 & I3 & I4 & I5 & I6).
    + destruct Hstep as [(U & C & _) | (U & C & _)];
        rewrite U, C, ?length_app; cbn [length]; lia.
    + intros He. destruct Hstep as [(U & C & Er) | (_ & _ & e & Er)].
      * rewrite Er in He. now rewrite U, (H3 He).
      * rewrite Er in He. now apply app_not_nil in He.
    + exists res2, w2. split; [cbn [fold_users]; unfold bind; now rewrite E1|].
      rewrite <- app_assoc in I3. split; [exact I1|]. split.
      * intros He. destruct (I3 He) as [He1 Hu]. split; [|exact Hu].
        destruct Hstep as [(_ & _ & Er) | (_ & _ & e & Er)]; rewrite Er in He1;
          [exact He1 | now apply app_not_nil in He1].
      * repeat split; congruence.
Qed.

(** X21. What the sweep reports is consistent.
    [unblock_all_blocked_users_and_notify] always returns a result.  In it
    the number of unblocked accounts is the length of the list of unblocked
    accounts, the number of notified accounts lies between zero and the
    number of unblocked ones, and the number of removed flags is the length
    of the list of accounts they were removed from.  An empty error list
    means the sweep did everything it set out to do: every account of the
    first selection was unblocked and notified, and the flag of every
    account of the second selection was taken care of, in the order of the
    selections. *)
Theorem sweep_results_are_consistent env w :
  exists res w',
    unblock_all_blocked_users_and_notify env w = (Ok res, w')
    /\ consistent res
    /\ (errors res = [] ->
        unblocked_users res = select_expired_blocked_users (now env) w
        /\ notified_count res = unblocked_count res
        /\ admin_safe_removed_users res = select_active_admin_safe_users w).
Proof.
  unfold unblock_all_blocked_users_and_notify. unfold_m. cbv beta.
  destruct (fails env SelectBlockingStatus); cbv beta iota.
  { eexists _, _. split; [reflexivity|]. split; [repeat split; cbn; lia | discriminate]. }
  destruct (fails env SelectUserLimits); cbv beta iota.
  { eexists _, _. split; [reflexivity|]. split; [repeat split; cbn; lia | discriminate]. }
  set (w0 := log_call (SelectUserLimits, "") (log_call (SelectBlockingStatus, "") w)).
  set (l1 := select_expired_blocked_users (get_current_cet_time env)
               (log_call (SelectBlockingStatus, "") w)).
  set (l2 := select_active_admin_safe_users w0).
  fold (bind (fold_users (unblock_one env) l1 (mkResults 0 0 0 [] [] []))
             (fun res => fold_users (remove_flag_one env) l2 res) w0).
  destruct (fold_unblock_results env l1 [] (mkResults 0 0 0 [] [] []) w0)
    as (res1 & w1 & E1 & I1 & I2 & I3 & I4 & I5);
    [reflexivity | cbn; lia | intros _; split; reflexivity |].
  destruct (fold_remove_flag_results env l2 [] res1 w1)
    as (res2 & w2 & E2 & J1 & J3 & J4 & J5 & J6);
    [rewrite I4, I5; reflexivity | intros _; rewrite I5; reflexivity |].
  unfold bind. rewrite E1, E2.
  exists res2, w2. split; [reflexivity|]. split.
  - unfold consistent. rewrite J4, J5, J6. repeat split; try assumption; lia.
  - intros He. destruct (J3 He) as [He1 Hu]. destruct (I3 He1) as [Hu1 Hn1].
    rewrite J6, J5, J4. repeat split; assumption.
Qed.

End DailyResetExtra.

(* ===================================================================== *)
(** ** Further properties of the policy manager *)
(* ===================================================================== *)

Module PolicyManagerExtra.

Import Policy.
Import PolicyManager.
Import Notions.
Import PolicyManagerFacts.

(** *** Editing the policy document *)

Lemma is_user_blocked_strip_deny v l : is_user_blocked (mkDocument v (strip_deny l)) = false.
Proof.
  unfold is_user_blocked, strip_deny. cbn [Statement].
  induction l as [|s l IH]; [reflexivity|]. simpl.
  destruct (Py.opt_eqb (Sid s) DENY_STATEMENT_SID) eqn:E; simpl; [exact IH|].
  now rewrite E.
Qed.

Lemma policy_manager_deny_round_trip_aux d :
  has_deny_sid (Statement d) = false ->
  remove_deny_statement (add_deny_statement d create_deny_statement) = d
  /\ add_deny_statement (add_deny_statement d create_deny_statement) create_deny_statement
     = add_deny_statement d create_deny_statement.
Proof.
  intros Hno. unfold remove_deny_statement, add_deny_statement. cbn [Statement Version].
  change (strip_deny (create_deny_statement :: strip_deny (Statement d)))
    with (strip_deny (strip_deny (Statement d))).
  rewrite ControllerFacts.strip_deny_idempotent.
  split; [|reflexivity].
  rewrite (ControllerFacts.strip_deny_unrelated _ Hno). now destruct d.
Qed.

(** X22. Adding and removing the deny statement in the policy manager.
    [add_deny_statement] makes any policy count as blocked, and applying it
    twice is the same as applying it once; [remove_deny_statement] makes
    any policy count as not blocked, and undoes [add_deny_statement] up to
    the [DailyLimitBlock] statements the policy had before.  So on a policy
    without a [DailyLimitBlock] statement, adding the deny statement and
    removing it again gives back the policy exactly as it was: unlike the
    controller, the policy manager never appends an allow statement. *)
Theorem policy_manager_deny_round_trip d :
  is_user_blocked (add_deny_statement d create_deny_statement) = true
  /\ is_user_blocked (remove_deny_statement d) = false
  /\ add_deny_statement (add_deny_statement d create_deny_statement) create_deny_statement
     = add_deny_statement d create_deny_statement
  /\ remove_deny_statement (add_deny_statement d create_deny_statement)
     = remove_deny_statement d
  /\ (has_deny_sid (Statement d) = false ->
      remove_deny_statement (add_deny_statement d create_deny_statement) = d).
Proof.
  split; [reflexivity|]. split; [apply is_user_blocked_strip_deny|].
  assert (Hs : strip_deny (create_deny_statement :: strip_deny (Statement d))
               = strip_deny (Statement d)).
  { change (strip_deny (create_deny_statement :: strip_deny (Statement d)))
      with (strip_deny (strip_deny (Statement d))).
    apply ControllerFacts.strip_deny_idempotent. }
  unfold remove_deny_statement, add_deny_statement. cbn [Statement Version].
  rewrite Hs. split; [reflexivity|]. split; [reflexivity|].
  intros Hno. rewrite (ControllerFacts.strip_deny_unrelated _ Hno). now destruct d.
Qed.

Lemma policy_manager_deny_round_trip_witness :
  remove_deny_statement
    (add_deny_statement (mkDocument "2012-10-17" [Scenario.no_delete_stmt])
       create_deny_statement)
  = mkDocument "2012-10-17" [Scenario.no_delete_stmt]
  /\ is_user_blocked
       (remove_deny_statement
          (mkDocument "2012-10-17" [create_deny_statement; PolicyScenario.allow_stmt]))
     = false.
Proof.
  split.
  - exact (proj2 (proj2 (proj2 (proj2
             (policy_manager_deny_round_trip
                (mkDocument "2012-10-17" [Scenario.no_delete_stmt])))))
             eq_refl).
  - exact (proj1 (proj2
             (policy_manager_deny_round_trip
                (mkDocument "2012-10-17"
                   [create_deny_statement; PolicyScenario.allow_stmt])))).
Defined.

(** *** Blocking through the policy manager *)

Lemma warning_step_quiet env uid ur (b : bool) w :
  exists w1, (if b then send_warning_notification env uid ur else ret tt) w = (Ok tt, w1)
    /\ same_core w w1.
Proof.
  destruct b; [apply send_warning_notification_quiet|].
  exists w. split; [reflexivity | apply same_core_refl].
Qed.

(** The two DynamoDB steps of a block: the status update and the record of
    who performed it.  They never raise and touch nothing but the table;
    what they leave in it depends on which calls went through. *)
Lemma dynamo_block_steps_run env uid reason by_ exp w :
  exists w1 w2,
    update_user_block_status env uid "BLOCKED" reason (Some exp) w = (Ok tt, w1)
    /\ set_block_performed_by env uid by_ w1 = (Ok tt, w2)
    /\ iam_policies w2 = iam_policies w
    /\ history w2 = history w
    /\ sns_messages w2 = sns_messages w
    /\ emails w2 = emails w
    /\ (forall k, k <> (uid, today env) -> table w2 !! k = table w !! k)
    /\ (fails env DynamoGet = false -> fails env DynamoPut = false ->
        fails env DynamoUpdate = false -> fails env DynamoSetPerformedBy = false ->
        table w2 !! (uid, today env)
        = Some match table w !! (uid, today env) with
               | None => mkItem (Some "BLOCKED") (Some reason) 0 250 (Some (utcnow env)) None
                                (Some (At exp)) (Some by_)
               | Some it => mkItem (Some "BLOCKED") (Some reason) (request_count it)
                                   (it_daily_limit it) (Some (utcnow env))
                                   (it_unblocked_at it) (Some (At exp)) (Some by_)
               end)
    /\ (fails env DynamoPut = true -> fails env DynamoUpdate = true ->
        fails env DynamoSetPerformedBy = true -> table w2 = table w)
    /\ (fails env DynamoGet = true -> fails env DynamoPut = false ->
        fails env DynamoSetPerformedBy = false ->
        table w2 !! (uid, today env)
        = Some (mkItem (Some "BLOCKED") (Some reason) 0 250 (Some (utcnow env)) None
                       (Some (At exp)) (Some by_))).
Proof.
  unfold update_user_block_status, set_block_performed_by. unfold_pm. cbv beta.
  destruct (fails env DynamoGet) eqn:Hg; cbv beta iota; proj_pm;
    [| destruct (table w !! (uid, today env)) as [it|] eqn:Hit; cbv beta iota ];
    cbn [negb String.eqb Ascii.eqb Bool.eqb orb]; cbv beta iota;
    [ destruct (fails env DynamoPut) eqn:Hp
    | destruct (fails env DynamoUpdate) eqn:Hu
    | destruct (fails env DynamoPut) eqn:Hp ]; cbv beta iota;
    destruct (fails env DynamoSetPerformedBy) eqn:Hs; cbv beta iota; proj_pm;
    eexists _, _; (split; [reflexivity|]); (split; [reflexivity|]); proj_pm;
    do 4 (split; [reflexivity|]);
    (split; [intros k Hk; rewrite ?lookup_insert_ne, ?lookup_alter_ne by congruence;
             reflexivity|]);
    (split; [intros; try congruence;
             rewrite ?lookup_insert_eq, ?lookup_alter_eq, ?Hit; reflexivity|]);
    (split; [intros; try congruence; reflexivity|]);
    intros; try congruence; rewrite ?lookup_insert_eq; reflexivity.
Qed.

Lemma log_operation_to_history_run env uid op reason by_ st w :
  exists w', log_operation_to_history env uid op reason by_ st w = (Ok tt, w')
    /\ iam_policies w' = iam_policies w
    /\ table w' = table w
    /\ history w'
       = (if fails env InvokeHistory then history w
          else history w ++ [mkHistoryEntry uid op reason by_ st])%list.
Proof.
  unfold log_operation_to_history. unfold_pm. cbv beta.
  destruct (fails env InvokeHistory); eexists; (split; [reflexivity|]); repeat split.
Qed.

(** A block of an account that is not blocked, with IAM answering. *)
Lemma block_user_access_run env uid reason ur by_ w :
  fails env GetUserPolicy = false ->
  fails env PutUserPolicy = false ->
  (iam_policies w !! (uid, policy_name uid) = None -> fails env CreateUserPolicy = false) ->
  (forall d, iam_policies w !! (uid, policy_name uid) = Some d -> is_user_blocked d = false) ->
  exists w0 w1 w2 w',
    table w0 = table w
    /\ update_user_block_status env uid "BLOCKED" reason
         (Some (block_expires_at env (default "system" by_))) w0 = (Ok tt, w1)
    /\ set_block_performed_by env uid (default "system" by_) w1 = (Ok tt, w2)
    /\ block_user_access env uid reason ur by_ w
       = (Ok (mkResponse 200 ("User " ++ uid ++ " blocked successfully") false), w')
    /\ iam_policies w'
       = <[(uid, policy_name uid)
           := add_deny_statement (default base_policy (iam_policies w !! (uid, policy_name uid)))
                                 create_deny_statement]> (iam_policies w)
    /\ table w' = table w2
    /\ history w'
       = (if fails env InvokeHistory then history w
          else history w ++ [mkHistoryEntry uid "BLOCK" reason (default "system" by_)
                                            "SUCCESS"])%list.
Proof.
  intros Hg Hp Hc Hnb.
  destruct (warning_step_quiet env uid ur
              ((warning_threshold (default 250 (ur_daily_limit ur))
                <=? default 0 (ur_request_count ur))
               && (default 0 (ur_request_count ur) <? default 250 (ur_daily_limit ur)))%bool w)
    as (wa & Ea & (A1 & A2 & A3)).
  assert (exists wb d0,
            get_or_create_user_policy env uid wa = (Ok d0, wb)
            /\ d0 = default base_policy (iam_policies w !! (uid, policy_name uid))
            /\ is_user_blocked d0 = false
            /\ <[(uid, policy_name uid) := add_deny_statement d0 create_deny_statement]>
                 (iam_policies wb)
               = <[(uid, policy_name uid) := add_deny_statement d0 create_deny_statement]>
                   (iam_policies w)
            /\ table wb = table w /\ history wb = history w)
    as (wb & d0 & Eb & Hd0 & Hb0 & B1 & B2 & B3).
  { unfold get_or_create_user_policy. unfold_pm. cbv beta. rewrite Hg. cbv beta iota.
    proj_pm. rewrite A1.
    destruct (iam_policies w !! (uid, policy_name uid)) as [d|] eqn:Hd; cbv beta iota.
    - eexists _, d. split; [reflexivity|]. split; [reflexivity|]. split; [now apply Hnb|].
      proj_pm. rewrite A1. repeat split; assumption.
    - rewrite (Hc eq_refl). cbv beta iota. eexists _, base_policy.
      split; [reflexivity|]. split; [reflexivity|]. split; [reflexivity|]. proj_pm.
      rewrite A1, insert_insert_eq. repeat split; assumption. }
  set (w0 := set_iam_policies
               (fun m => <[(uid, policy_name uid)
                           := add_deny_statement d0 create_deny_statement]> m)
               (log_call (PutUserPolicy, uid) wb)).
  destruct (dynamo_block_steps_run env uid reason (default "system" by_)
              (block_expires_at env (default "system" by_)) w0)
    as (w1 & w2 & E1 & E2 & D1 & D2 & _).
  destruct (send_block_notification_quiet env uid reason (default "system" by_) w2)
    as (w3 & E3 & (N1 & N2 & N3)).
  destruct (log_operation_to_history_run env uid "BLOCK" reason (default "system" by_)
              "SUCCESS" w3) as (w4 & E4 & L1 & L2 & L3).
  exists w0, w1, w2, w4. split; [subst w0; proj_pm; exact B2|].
  split; [exact E1|]. split; [exact E2|]. split.
  { unfold block_user_access. cbv zeta. unfold try_except at 1, bind at 1. rewrite Ea.
    unfold bind at 1. rewrite Eb, Hb0.
    unfold bind at 1. unfold call at 1. rewrite Hp.
    unfold bind at 1. unfold modify at 1. fold w0.
    unfold bind at 1. rewrite E1. unfold bind at 1. rewrite E2.
    unfold bind at 1. rewrite E3. unfold bind at 1. rewrite E4. reflexivity. }
  split.
  { rewrite L1, N1, D1. subst w0. proj_pm. rewrite B1, Hd0. reflexivity. }
  split; [rewrite L2, N2; reflexivity|].
  rewrite L3, N3, D2. subst w0. proj_pm. now rewrite B3.
Qed.

(** X23. Blocking twice.  After [block_user_access] has blocked an account
    that was not blocked (IAM answering), a second block request for the
    same account, whatever its reason, usage figures and author, is
    answered 200 with [already_blocked = True] and changes neither the
    policies, nor the usage table, nor the history: the expiration and the
    author recorded by the first block stay. *)
Theorem second_block_is_already_blocked env uid reason ur by_ reason2 ur2 by2 w :
  fails env GetUserPolicy = false ->
  fails env PutUserPolicy = false ->
  fails env CreateUserPolicy = false ->
  (forall d, iam_policies w !! (uid, policy_name uid) = Some d -> is_user_blocked d = false) ->
  exists w1 w2,
    block_user_access env uid reason ur by_ w
    = (Ok (mkResponse 200 ("User " ++ uid ++ " blocked successfully") false), w1)
    /\ block_user_access env uid reason2 ur2 by2 w1
       = (Ok (mkResponse 200 ("User " ++ uid ++ " is already blocked") true), w2)
    /\ same_core w1 w2.
Proof.
  intros Hg Hp Hc Hnb.
  destruct (block_user_access_run env uid reason ur by_ w Hg Hp (fun _ => Hc) Hnb)
    as (w0 & wa & wb & w1 & _ & _ & _ & E & I & _).
  assert (Hd : iam_policies w1 !! (uid, policy_name uid)
               = Some (add_deny_statement
                         (default base_policy (iam_policies w !! (uid, policy_name uid)))
                         create_deny_statement))
    by (now rewrite I, lookup_insert_eq).
  destruct (already_blocked_is_noop env uid reason2 ur2 by2 w1 _ Hd eq_refl Hg)
    as (w2 & E2 & C & _).
  exists w1, w2. repeat split; try assumption; apply C.
Qed.

Lemma second_block_is_already_blocked_witness :
  exists w1 w2,
    block_user_access PolicyScenario.env_ok "u7" "Daily limit exceeded"
      PolicyScenario.usage_over None PolicyScenario.world0
    = (Ok (mkResponse 200 "User u7 blocked successfully" false), w1)
    /\ block_user_access PolicyScenario.env_ok "u7" "manual" PolicyScenario.usage_80
         (Some "admin1") w1
       = (Ok (mkResponse 200 "User u7 is already blocked" true), w2)
    /\ table w2 = table w1.
Proof.
  assert (Hn : forall d, iam_policies PolicyScenario.world0 !! ("u7", policy_name "u7") = Some d
                         -> is_user_blocked d = false).
  { intros d Hd. vm_compute in Hd. injection Hd as <-. reflexivity. }
  destruct (second_block_is_already_blocked PolicyScenario.env_ok "u7" "Daily limit exceeded"
              PolicyScenario.usage_over None "manual" PolicyScenario.usage_80 (Some "admin1")
              PolicyScenario.world0 eq_refl eq_refl eq_refl Hn)
    as (w1 & w2 & E1 & E2 & (_ & T & _)).
  exists w1, w2. split; [exact E1|]. split; [exact E2 | exact T].
Defined.

(** X24. What a block leaves behind.  For an account that is not blocked,
    with IAM and DynamoDB answering, [block_user_access] answers 200
    "blocked successfully"; the account's policy then counts as blocked
    (the policy is created first when the account has none), every other
    policy is untouched, and today's item of the usage table says
    [BLOCKED] with the reason, the time of the block, the expiration the
    code computed and the author of the block, keeping the request count
    and the limit of an item that was already there (0 and 250 in a new
    one). *)
Theorem block_leaves_policy_and_record env uid reason ur by_ w :
  fails env GetUserPolicy = false ->
  fails env PutUserPolicy = false ->
  fails env CreateUserPolicy = false ->
  fails env DynamoGet = false ->
  fails env DynamoPut = false ->
  fails env DynamoUpdate = false ->
  fails env DynamoSetPerformedBy = false ->
  (forall d, iam_policies w !! (uid, policy_name uid) = Some d -> is_user_blocked d = false) ->
  exists w' d' it,
    block_user_access env uid reason ur by_ w
    = (Ok (mkResponse 200 ("User " ++ uid ++ " blocked successfully") false), w')
    /\ iam_policies w' !! (uid, policy_name uid) = Some d'
    /\ is_user_blocked d' = true
    /\ (forall k, k <> (uid, policy_name uid) -> iam_policies w' !! k = iam_policies w !! k)
    /\ table w' !! (uid, today env) = Some it
    /\ status it = Some "BLOCKED"
    /\ last_status_reason it = Some reason
    /\ it_blocked_at it = Some (utcnow env)
    /\ expires_at it = Some (At (block_expires_at env (default "system" by_)))
    /\ admin_protection_by it = Some (default "system" by_)
    /\ request_count it = match table w !! (uid, today env) with
                          | Some old => request_count old | None => 0 end
    /\ it_daily_limit it = match table w !! (uid, today env) with
                           | Some old => it_daily_limit old | None => 250 end.
Proof.
  intros Hg Hp Hc G P U S Hnb.
  destruct (block_user_access_run env uid reason ur by_ w Hg Hp (fun _ => Hc) Hnb)
    as (w0 & w1 & w2 & w' & T0 & E1 & E2 & E & I & T & _).
  destruct (dynamo_block_steps_run env uid reason (default "system" by_)
              (block_expires_at env (default "system" by_)) w0)
    as (w1' & w2' & E1' & E2' & _ & _ & _ & _ & _ & D & _).
  rewrite E1 in E1'. injection E1' as <-. rewrite E2 in E2'. injection E2' as <-.
  specialize (D G P U S). rewrite T0 in D.
  eexists w', _, _. split; [exact E|].
  split; [rewrite I; apply lookup_insert_eq|]. split; [reflexivity|].
  split; [intros k Hk; rewrite I; now apply lookup_insert_ne|].
  split; [rewrite T; exact D|].
  destruct (table w !! (uid, today env)); repeat split.
Qed.

Lemma block_leaves_policy_and_record_witness :
  exists w' it,
    block_user_access PolicyScenario.env_ok "u7" "Daily limit exceeded"
      PolicyScenario.usage_over None PolicyScenario.world0
    = (Ok (mkResponse 200 "User u7 blocked successfully" false), w')
    /\ table w' !! ("u7", "2025-01-15") = Some it
    /\ status it = Some "BLOCKED"
    /\ admin_protection_by it = Some "system".
Proof.
  assert (Hn : forall d, iam_policies PolicyScenario.world0 !! ("u7", policy_name "u7") = Some d
                         -> is_user_blocked d = false).
  { intros d Hd. vm_compute in Hd. injection Hd as <-. reflexivity. }
  destruct (block_leaves_policy_and_record PolicyScenario.env_ok "u7" "Daily limit exceeded"
              PolicyScenario.usage_over None PolicyScenario.world0
              eq_refl eq_refl eq_refl eq_refl eq_refl eq_refl eq_refl Hn)
    as (w' & d' & it & E & _ & _ & _ & Ht & Hs & _ & _ & _ & Hby & _).
  exists w', it. split; [exact E|]. split; [exact Ht|]. split; [exact Hs | exact Hby].
Defined.

(** X25. The table is best-effort.  When IAM answers and every write to
    DynamoDB fails, [block_user_access] still answers 200 "blocked
    successfully" and the policy counts as blocked, but the usage table is
    exactly as before: nothing in the table or in the answer tells that the
    account is blocked, when the block expires or who made it. *)
Theorem block_succeeds_without_record env uid reason ur by_ w :
  fails env GetUserPolicy = false ->
  fails env PutUserPolicy = false ->
  fails env CreateUserPolicy = false ->
  fails env DynamoPut = true ->
  fails env DynamoUpdate = true ->
  fails env DynamoSetPerformedBy = true ->
  (forall d, iam_policies w !! (uid, policy_name uid) = Some d -> is_user_blocked d = false) ->
  exists w' d',
    block_user_access env uid reason ur by_ w
    = (Ok (mkResponse 200 ("User " ++ uid ++ " blocked successfully") false), w')
    /\ iam_policies w' !! (uid, policy_name uid) = Some d'
    /\ is_user_blocked d' = true
    /\ table w' = table w.
Proof.
  intros Hg Hp Hc P U S Hnb.
  destruct (block_user_access_run env uid reason ur by_ w Hg Hp (fun _ => Hc) Hnb)
    as (w0 & w1 & w2 & w' & T0 & E1 & E2 & E & I & T & _).
  destruct (dynamo_block_steps_run env uid reason (default "system" by_)
              (block_expires_at env (default "system" by_)) w0)
    as (w1' & w2' & E1' & E2' & _ & _ & _ & _ & _ & _ & D & _).
  rewrite E1 in E1'. injection E1' as <-. rewrite E2 in E2'. injection E2' as <-.
  eexists w', _. split; [exact E|].
  split; [rewrite I; apply lookup_insert_eq|]. split; [reflexivity|].
  rewrite T, (D P U S). exact T0.
Qed.

Lemma block_succeeds_without_record_witness :
  exists w',
    block_user_access
      (PolicyScenario.env_with (fun o => match o with
                                         | DynamoPut | DynamoUpdate | DynamoSetPerformedBy => true
                                         | _ => false end))
      "u7" "Daily limit exceeded" PolicyScenario.usage_over None PolicyScenario.world0
    = (Ok (mkResponse 200 "User u7 blocked successfully" false), w')
    /\ table w' = ∅.
Proof.
  assert (Hn : forall d, iam_policies PolicyScenario.world0 !! ("u7", policy_name "u7") = Some d
                         -> is_user_blocked d = false).
  { intros d Hd. vm_compute in Hd. injection Hd as <-. reflexivity. }
  destruct (block_succeeds_without_record
              (PolicyScenario.env_with (fun o => match o with
                                         | DynamoPut | DynamoUpdate | DynamoSetPerformedBy => true
                                         | _ => false end))
              "u7" "Daily limit exceeded" PolicyScenario.usage_over None PolicyScenario.world0
              eq_refl eq_refl eq_refl eq_refl eq_refl eq_refl Hn)
    as (w' & d' & E & _ & _ & T).
  exists w'. split; [exact E | exact T].
Defined.

(** X26. A failed read of the usage table resets the day's usage.
    [update_user_block_status] treats an error of [get_item] as "no item"
    and then writes a whole new item with [put_item].  So when the read
    fails while the writes go through, a block replaces today's item, even
    one that is there, by a new one: the request count recorded for the day
    is back at 0 and the daily limit at the default 250. *)
Theorem failed_read_resets_usage_record env uid reason ur by_ w old :
  table w !! (uid, today env) = Some old ->
  fails env GetUserPolicy = false ->
  fails env PutUserPolicy = false ->
  fails env CreateUserPolicy = false ->
  fails env DynamoGet = true ->
  fails env DynamoPut = false ->
  fails env DynamoSetPerformedBy = false ->
  (forall d, iam_policies w !! (uid, policy_name uid) = Some d -> is_user_blocked d = false) ->
  exists w' it,
    block_user_access env uid reason ur by_ w
    = (Ok (mkResponse 200 ("User " ++ uid ++ " blocked successfully") false), w')
    /\ table w' !! (uid, today env) = Some it
    /\ status it = Some "BLOCKED"
    /\ request_count it = 0
    /\ it_daily_limit it = 250
    /\ it_unblocked_at it = None.
Proof.
  intros Hold Hg Hp Hc G P S Hnb.
  destruct (block_user_access_run env uid reason ur by_ w Hg Hp (fun _ => Hc) Hnb)
    as (w0 & w1 & w2 & w' & T0 & E1 & E2 & E & I & T & _).
  destruct (dynamo_block_steps_run env uid reason (default "system" by_)
              (block_expires_at env (default "system" by_)) w0)
    as (w1' & w2' & E1' & E2' & _ & _ & _ & _ & _ & _ & _ & D).
  rewrite E1 in E1'. injection E1' as <-. rewrite E2 in E2'. injection E2' as <-.
  eexists w', _. split; [exact E|]. split; [rewrite T; exact (D G P S)|]. repeat split.
Qed.

Lemma failed_read_resets_usage_record_witness :
  exists w' it,
    block_user_access (PolicyScenario.env_with (fun o => match o with
                                                         | DynamoGet => true | _ => false end))
      "u7" "Daily limit exceeded" PolicyScenario.usage_over None
      (set_table (fun m => <[("u7", "2025-01-15")
                             := mkItem (Some "ACTIVE") None 255 300 None None None None]> m)
                 PolicyScenario.world0)
    = (Ok (mkResponse 200 "User u7 blocked successfully" false), w')
    /\ table w' !! ("u7", "2025-01-15") = Some it
    /\ request_count it = 0
    /\ it_daily_limit it = 250.
Proof.
  assert (Hn : forall d,
             iam_policies
               (set_table (fun m => <[("u7", "2025-01-15")
                                      := mkItem (Some "ACTIVE") None 255 300 None None None None]> m)
                          PolicyScenario.world0) !! ("u7", policy_name "u7") = Some d
             -> is_user_blocked d = false).
  { intros d Hd. vm_compute in Hd. injection Hd as <-. reflexivity. }
  assert (Ho : table
                 (set_table (fun m => <[("u7", "2025-01-15")
                                        := mkItem (Some "ACTIVE") None 255 300 None None None None]> m)
                            PolicyScenario.world0) !! ("u7", "2025-01-15")
               = Some (mkItem (Some "ACTIVE") None 255 300 None None None None))
    by (vm_compute; reflexivity).
  destruct (failed_read_resets_usage_record
              (PolicyScenario.env_with (fun o => match o with
                                                 | DynamoGet => true | _ => false end))
              "u7" "Daily limit exceeded" PolicyScenario.usage_over None _ _ Ho
              eq_refl eq_refl eq_refl eq_refl eq_refl eq_refl Hn)
    as (w' & it & E & Ht & _ & Hc & Hl & _).
  exists w', it. split; [exact E|]. split; [exact Ht|]. split; [exact Hc | exact Hl].
Defined.

(** *** The expiration stored with a block *)

Lemma micros_of_micros m : Time.micros (Time.of_micros m) = m.
Proof.
  unfold Time.micros, Time.of_micros. cbn [Time.day Time.hour Time.minute Time.second
                                           Time.microsecond].
  Z.to_euclidean_division_equations; lia.
Qed.

(** X27. The expiration the policy manager stores.  For a block by anyone
    but [system] it is the current UTC time plus exactly one day.  For a
    block by [system] it is a midnight in Madrid under the code's own rule
    (UTC+2 from March to October, UTC+1 otherwise), it lies strictly after
    the current time and at most 24 hours after it: the first such midnight
    to come. *)
Theorem stored_expiration_is_next_midnight env performed_by :
  let off := (if ((3 <=? current_month env) && (current_month env <=? 10))%bool
              then 2 else 1) * 3600000000 in
  let E := block_expires_at env performed_by in
  (performed_by <> "system" ->
   Time.micros E = Time.micros (utcnow env) + 86400000000)
  /\ (performed_by = "system" ->
      (Time.micros E + off) mod 86400000000 = 0
      /\ Time.micros (utcnow env) < Time.micros E
      /\ Time.micros E <= Time.micros (utcnow env) + 86400000000).
Proof.
  intros off E. subst E. unfold block_expires_at. split.
  - intros Hne. apply String.eqb_neq in Hne. rewrite Hne. cbn [negb].
    unfold add_one_day, Time.micros. cbn. lia.
  - intros ->. change (String.eqb "system" "system") with true. cbn [negb].
    cbv zeta. fold off. rewrite !micros_of_micros.
    set (m := Time.micros (utcnow env) + off).
    assert (Hmid : Time.micros (Time.mkNaive (Time.day (Time.of_micros m) + 1) 0 0 0 0)
                   = (m / 86400000000 + 1) * 86400000000)
      by (unfold Time.micros; cbn; lia).
    rewrite Hmid.
    pose proof (Z.div_mod m 86400000000 ltac:(lia)) as Hdm.
    pose proof (Z.mod_pos_bound m 86400000000 ltac:(lia)) as Hb.
    replace ((m / 86400000000 + 1) * 86400000000 - off + off)
      with ((m / 86400000000 + 1) * 86400000000) by lia.
    split; [apply Z.mod_mul; lia|]. subst m. lia.
Qed.

Lemma stored_expiration_is_next_midnight_witness :
  block_expires_at PolicyScenario.env_ok "system"
  = Time.mkNaive (Time.ymd2ord 2025 1 15) 23 0 0 0
  /\ Time.micros (utcnow PolicyScenario.env_ok)
     < Time.micros (block_expires_at PolicyScenario.env_ok "system").
Proof.
  split; [reflexivity|].
  exact (proj1 (proj2 (proj2 (stored_expiration_is_next_midnight PolicyScenario.env_ok
                                "system") eq_refl))).
Defined.

End PolicyManagerExtra.

(* ===================================================================== *)
(** ** Unblocking and status checks in the policy manager *)
(* ===================================================================== *)

Module PolicyManagerHandlersFacts.

Import Policy.
Import PolicyManager.
Import PolicyManagerHandlers.
Import PolicyManagerFacts.
Import PolicyManagerExtra.

Ltac unfold_h := unfold try_except, bind, ret, raise, gets, modify, call, lift.

Ltac proj_h :=
  cbn [world admin_protection handler_calls
       iam_policies table sns_messages emails history calls log_call
       set_iam_policies set_table add_sns add_email add_history] in *.

Lemma lift_run {A} (m : M World A) s r w' :
  m (world s) = (r, w') ->
  lift m s = (r, mkStore w' (admin_protection s) (handler_calls s)).
Proof. intros E. unfold lift. now rewrite E. Qed.

(** The DynamoDB step of an unblock. *)
Lemma update_active_run env uid reason w :
  exists w1,
    update_user_block_status env uid "ACTIVE" reason None w = (Ok tt, w1)
    /\ iam_policies w1 = iam_policies w
    /\ history w1 = history w
    /\ sns_messages w1 = sns_messages w
    /\ emails w1 = emails w
    /\ (fails env DynamoGet = false -> fails env DynamoPut = false ->
        fails env DynamoUpdate = false ->
        table w1 !! (uid, today env)
        = Some match table w !! (uid, today env) with
               | None => mkItem (Some "ACTIVE") (Some reason) 0 250 None
                                (Some (utcnow env)) None None
               | Some it => mkItem (Some "ACTIVE") (Some reason) (request_count it)
                                   (it_daily_limit it) (it_blocked_at it)
                                   (Some (utcnow env)) None (admin_protection_by it)
               end).
Proof.
  unfold update_user_block_status. unfold try_except, bind, ret, raise, gets, modify,
    PolicyManager.call. cbv beta.
  destruct (fails env DynamoGet) eqn:Hg; cbv beta iota; proj_pm;
    [| destruct (table w !! (uid, today env)) as [it|] eqn:Hit; cbv beta iota ];
    cbn [negb String.eqb Ascii.eqb Bool.eqb orb]; cbv beta iota;
    [ destruct (fails env DynamoPut) eqn:Hp
    | destruct (fails env DynamoUpdate) eqn:Hu
    | destruct (fails env DynamoPut) eqn:Hp ]; cbv beta iota;
    eexists; (split; [reflexivity|]); proj_pm;
    do 4 (split; [reflexivity|]);
    intros; try congruence;
    rewrite ?lookup_insert_eq, ?lookup_alter_eq, ?Hit; reflexivity.
Qed.

(** The protection step and the notification of an unblock never raise
    and leave policies and history alone; in an item of the table they
    change at most the author of the protection. *)
Lemma protection_step_run env uid by_ reason s :
  exists s',
    (if (negb (String.eqb by_ "system") && negb (String.eqb by_ "daily_reset"))%bool
     then set_administrative_protection env uid by_
     else if String.eqb reason "automatic_expiration"
          then clear_administrative_protection env uid
          else ret tt) s = (Ok tt, s')
    /\ iam_policies (world s') = iam_policies (world s)
    /\ history (world s') = history (world s)
    /\ (forall it, table (world s) !! (uid, today (base_env env)) = Some it ->
        exists it', table (world s') !! (uid, today (base_env env)) = Some it'
          /\ status it' = status it
          /\ last_status_reason it' = last_status_reason it
          /\ request_count it' = request_count it
          /\ it_daily_limit it' = it_daily_limit it
          /\ it_blocked_at it' = it_blocked_at it
          /\ it_unblocked_at it' = it_unblocked_at it
          /\ expires_at it' = expires_at it)
    /\ ((negb (String.eqb by_ "system") && negb (String.eqb by_ "daily_reset"))%bool = true ->
        call_fails env SetProtection = false ->
        admin_protection s' !! (uid, today (base_env env)) = Some true)
    /\ ((negb (String.eqb by_ "system") && negb (String.eqb by_ "daily_reset"))%bool = false ->
        reason = "automatic_expiration" ->
        call_fails env ClearProtection = false ->
        admin_protection s' !! (uid, today (base_env env)) = Some false)
    /\ ((negb (String.eqb by_ "system") && negb (String.eqb by_ "daily_reset"))%bool = false ->
        reason <> "automatic_expiration" ->
        s' = s).
Proof.
  destruct (negb (String.eqb by_ "system") && negb (String.eqb by_ "daily_reset"))%bool.
  - unfold set_administrative_protection. unfold_h. cbv beta.
    destruct (call_fails env SetProtection); eexists; (split; [reflexivity|]); proj_h;
      (split; [reflexivity|]); (split; [reflexivity|]);
      (split; [intros it Hit; unfold upsert_item; rewrite ?lookup_insert_eq, ?Hit;
               eexists; split; [reflexivity|]; repeat split|]);
      (split; [intros; try congruence; now rewrite lookup_insert_eq|]);
      split; intros; congruence.
  - destruct (String.eqb reason "automatic_expiration") eqn:Hr.
    + unfold clear_administrative_protection. unfold_h. cbv beta.
      destruct (call_fails env ClearProtection); eexists; (split; [reflexivity|]); proj_h;
        (split; [reflexivity|]); (split; [reflexivity|]);
        (split; [intros it Hit; unfold upsert_item; rewrite ?lookup_insert_eq, ?Hit;
                 eexists; split; [reflexivity|]; repeat split|]);
        (split; [intros; congruence|]);
        (split; [intros; try congruence; now rewrite lookup_insert_eq|]);
        intros _ Hne; apply String.eqb_eq in Hr; congruence.
    + exists s. split; [reflexivity|]. split; [reflexivity|]. split; [reflexivity|].
      split; [intros it Hit; exists it; repeat split; assumption|].
      split; [intros; congruence|]. split; [|reflexivity].
      intros _ ->. discriminate.
Qed.

Lemma send_unblock_notification_run env uid reason by_ s :
  exists s', send_unblock_notification env uid reason by_ s = (Ok tt, s')
    /\ iam_policies (world s') = iam_policies (world s)
    /\ table (world s') = table (world s)
    /\ history (world s') = history (world s)
    /\ admin_protection s' = admin_protection s.
Proof.
  unfold send_unblock_notification. unfold_h. cbv beta.
  destruct (call_fails env PublishUnblocked); cbv beta iota;
    [eexists; split; [reflexivity | repeat split]|].
  destruct (email_service_present (base_env env)); cbv beta iota;
    [destruct (call_fails env SendUnblockingEmail); cbv beta iota;
     [|destruct (email_delivered (base_env env)); cbv beta iota]|];
    eexists; (split; [reflexivity | repeat split]).
Qed.

(** An unblock of an account whose policy carries the deny statement, with
    IAM answering. *)
Lemma unblock_user_access_run env uid reason er eby s d :
  iam_policies (world s) !! (uid, policy_name uid) = Some d ->
  is_user_blocked d = true ->
  call_fails env UnblockGetPolicy = false ->
  call_fails env UnblockPutPolicy = false ->
  exists s',
    unblock_user_access env uid reason er eby s
    = (Ok (mkUnblockResponse 200 ("User " ++ uid ++ " unblocked successfully") false), s')
    /\ iam_policies (world s')
       = <[(uid, policy_name uid) := remove_deny_statement d]> (iam_policies (world s))
    /\ history (world s')
       = (if fails (base_env env) InvokeHistory then history (world s)
          else history (world s)
               ++ [mkHistoryEntry uid "UNBLOCK" (default "unspecified" er)
                                  (default "system" eby) "SUCCESS"])%list
    /\ (fails (base_env env) DynamoGet = false ->
        fails (base_env env) DynamoPut = false ->
        fails (base_env env) DynamoUpdate = false ->
        exists it, table (world s') !! (uid, today (base_env env)) = Some it
          /\ status it = Some "ACTIVE"
          /\ last_status_reason it = Some reason
          /\ expires_at it = None
          /\ it_unblocked_at it = Some (utcnow (base_env env))
          /\ it_blocked_at it
             = (old ← table (world s) !! (uid, today (base_env env)); it_blocked_at old)
          /\ request_count it
             = match table (world s) !! (uid, today (base_env env)) with
               | Some old => request_count old | None => 0 end)
    /\ ((negb (String.eqb (default "system" eby) "system")
         && negb (String.eqb (default "system" eby) "daily_reset"))%bool = true ->
        call_fails env SetProtection = false ->
        admin_protection s' !! (uid, today (base_env env)) = Some true)
    /\ ((negb (String.eqb (default "system" eby) "system")
         && negb (String.eqb (default "system" eby) "daily_reset"))%bool = false ->
        default "unspecified" er <> "automatic_expiration" ->
        admin_protection s' = admin_protection s).
Proof.
  intros Hd Hb Hg Hp.
  set (s3 := mkStore
               (set_iam_policies
                  (fun m => <[(uid, policy_name uid) := remove_deny_statement d]> m) (world s))
               (admin_protection s)
               ((handler_calls s ++ [(UnblockGetPolicy, uid)]) ++ [(UnblockPutPolicy, uid)])).
  destruct (update_active_run (base_env env) uid reason (world s3))
    as (w4 & E4 & I4 & H4 & _ & _ & T4).
  set (s4 := mkStore w4 (admin_protection s3) (handler_calls s3)).
  destruct (protection_step_run env uid (default "system" eby) (default "unspecified" er) s4)
    as (s5 & E5 & I5 & H5 & T5 & P5a & _ & P5c).
  destruct (send_unblock_notification_run env uid (default "unspecified" er)
              (default "system" eby) s5) as (s6 & E6 & I6 & T6 & H6 & A6).
  destruct (log_operation_to_history_run (base_env env) uid "UNBLOCK"
              (default "unspecified" er) (default "system" eby) "SUCCESS" (world s6))
    as (w7 & E7 & I7 & T7 & H7).
  exists (mkStore w7 (admin_protection s6) (handler_calls s6)). split.
  { unfold unblock_user_access. cbv zeta. unfold try_except at 1.
    unfold bind at 1. unfold call at 1. rewrite Hg. cbv beta iota zeta.
    unfold bind at 1. unfold gets at 1. proj_h. rewrite Hd. cbv beta iota. rewrite Hb.
    cbn [negb]. cbv iota.
    unfold bind at 1. unfold call at 1. rewrite Hp. cbv beta iota zeta. proj_h.
    unfold bind at 1. unfold lift at 1, modify at 1. proj_h. cbv beta iota zeta. fold s3.
    unfold bind at 1. rewrite (lift_run _ s3 _ _ E4). fold s4.
    unfold bind at 1. rewrite E5. unfold bind at 1. rewrite E6.
    unfold bind at 1. rewrite (lift_run _ s6 _ _ E7). reflexivity. }
  proj_h.
  split; [rewrite I7, I6, I5; subst s4; proj_h; rewrite I4; reflexivity|].
  split; [rewrite H7, H6, H5; subst s4; proj_h; rewrite H4; reflexivity|].
  split.
  { intros G P U. specialize (T4 G P U). subst s3. proj_h.
    assert (Hs4 : table (world s4) !! (uid, today (base_env env)) = Some
              match table (world s) !! (uid, today (base_env env)) with
              | Some it => mkItem (Some "ACTIVE") (Some reason) (request_count it)
                                  (it_daily_limit it) (it_blocked_at it)
                                  (Some (utcnow (base_env env))) None (admin_protection_by it)
              | None => mkItem (Some "ACTIVE") (Some reason) 0 250 None
                               (Some (utcnow (base_env env))) None None
              end) by exact T4.
    destruct (T5 _ Hs4) as (it' & Hit' & F1 & F2 & F3 & F4 & F5 & F6 & F7).
    exists it'. rewrite T7, T6. split; [exact Hit'|].
    rewrite F1, F2, F7, F6, F5, F3.
    destruct (table (world s) !! (uid, today (base_env env))); repeat split. }
  split.
  { intros Hadm Hset. rewrite A6. now apply P5a. }
  intros Hadm Hne. rewrite A6, (P5c Hadm Hne). reflexivity.
Qed.

Lemma not_blocked_without_deny d :
  has_deny_sid (Statement d) = false -> is_user_blocked d = false.
Proof.
  unfold has_deny_sid, is_user_blocked. induction (Statement d) as [|st l IH]; [reflexivity|].
  simpl. intros H. apply orb_false_iff in H as [Hs Hl]. rewrite Hs. simpl. now apply IH.
Qed.

(** X28. Block and unblock through the handler.  For an account whose
    policy has no [DailyLimitBlock] statement, with IAM answering, a
    ['block'] event followed by an ['unblock'] event is answered "blocked
    successfully" and then "unblocked successfully", and leaves every IAM
    policy exactly as it was before the two events.  When DynamoDB answers
    during the unblock, today's item of the usage table then says [ACTIVE],
    with the reason of the unblock, the time of the unblock and no
    expiration. *)
Theorem block_then_unblock_restores_policy env uid r1 by1 ur r2 by2 s d :
  iam_policies (world s) !! (uid, policy_name uid) = Some d ->
  has_deny_sid (Statement d) = false ->
  fails (base_env env) GetUserPolicy = false ->
  fails (base_env env) PutUserPolicy = false ->
  call_fails env UnblockGetPolicy = false ->
  call_fails env UnblockPutPolicy = false ->
  let blocked := lambda_handler env (mkPmEvent (Some "block") (Some uid) r1 by1 ur) s in
  let unblocked :=
    lambda_handler env (mkPmEvent (Some "unblock") (Some uid) r2 by2 None) blocked.2 in
  blocked.1
  = Ok (BlockAnswer (mkResponse 200 ("User " ++ uid ++ " blocked successfully") false))
  /\ unblocked.1
     = Ok (UnblockAnswer
             (mkUnblockResponse 200 ("User " ++ uid ++ " unblocked successfully") false))
  /\ iam_policies (world unblocked.2) = iam_policies (world s)
  /\ (fails (base_env env) DynamoGet = false ->
      fails (base_env env) DynamoPut = false ->
      fails (base_env env) DynamoUpdate = false ->
      exists it, table (world unblocked.2) !! (uid, today (base_env env)) = Some it
        /\ status it = Some "ACTIVE"
        /\ last_status_reason it = Some (default "unspecified" r2)
        /\ it_unblocked_at it = Some (utcnow (base_env env))
        /\ expires_at it = None).
Proof.
  intros Hd Hno Hg Hp Hug Hup blocked unblocked. subst unblocked blocked.
  assert (Hnb : forall d', iam_policies (world s) !! (uid, policy_name uid) = Some d'
                           -> is_user_blocked d' = false).
  { intros d' Hd'. rewrite Hd in Hd'. injection Hd' as <-.
    now apply not_blocked_without_deny. }
  assert (Hc : iam_policies (world s) !! (uid, policy_name uid) = None
               -> fails (base_env env) CreateUserPolicy = false) by (rewrite Hd; discriminate).
  destruct (block_user_access_run (base_env env) uid (default "unspecified" r1)
              (default (mkUsageRecord None None) ur) by1 (world s) Hg Hp Hc Hnb)
    as (w0 & wa & wb & w1 & _ & _ & _ & E1 & I1 & _).
  rewrite Hd in I1. cbn [default id] in I1.
  set (s1 := mkStore w1 (admin_protection s) (handler_calls s)).
  assert (B : lambda_handler env (mkPmEvent (Some "block") (Some uid) r1 by1 ur) s
              = (Ok (BlockAnswer
                       (mkResponse 200 ("User " ++ uid ++ " blocked successfully") false)), s1)).
  { unfold lambda_handler. cbn [pe_action pe_user_id pe_reason pe_performed_by pe_usage_record].
    change (String.eqb "block" "block") with true. cbv iota zeta.
    unfold try_except at 1, bind at 1. rewrite (lift_run _ s _ _ E1). reflexivity. }
  rewrite B. cbn [fst snd].
  assert (Hd1 : iam_policies (world s1) !! (uid, policy_name uid)
                = Some (add_deny_statement d create_deny_statement))
    by (subst s1; proj_h; now rewrite I1, lookup_insert_eq).
  destruct (unblock_user_access_run env uid (default "unspecified" r2) r2 by2 s1 _
              Hd1 eq_refl Hug Hup) as (s2 & E2 & I2 & _ & T2 & _).
  assert (U : lambda_handler env (mkPmEvent (Some "unblock") (Some uid) r2 by2 None) s1
              = (Ok (UnblockAnswer
                       (mkUnblockResponse 200 ("User " ++ uid ++ " unblocked successfully")
                                          false)), s2)).
  { unfold lambda_handler. cbn [pe_action pe_user_id pe_reason pe_performed_by pe_usage_record].
    change (String.eqb "unblock" "block") with false.
    change (String.eqb "unblock" "unblock") with true. cbv iota zeta.
    unfold try_except at 1, bind at 1. rewrite E2. reflexivity. }
  rewrite U. cbn [fst snd].
  split; [reflexivity|]. split; [reflexivity|]. split.
  - rewrite I2. subst s1. proj_h. rewrite I1, insert_insert_eq.
    rewrite (proj1 (policy_manager_deny_round_trip_aux d Hno)).
    now apply insert_id.
  - intros G P U'. destruct (T2 G P U') as (it & Hit & F1 & F2 & F3 & F4 & _).
    exists it. repeat split; assumption.
Qed.

Lemma block_then_unblock_restores_policy_witness :
  iam_policies
    (world
       (lambda_handler (mkHandlerEnv PolicyScenario.env_ok no_call_fails)
          (mkPmEvent (Some "unblock") (Some "u7") (Some "manual") (Some "admin1") None)
          (lambda_handler (mkHandlerEnv PolicyScenario.env_ok no_call_fails)
             (mkPmEvent (Some "block") (Some "u7") (Some "limit") None
                        (Some PolicyScenario.usage_over))
             (store_of PolicyScenario.world0)).2).2)
  = iam_policies PolicyScenario.world0.
Proof.
  assert (Hd : iam_policies (world (store_of PolicyScenario.world0)) !! ("u7", policy_name "u7")
               = Some (mkDocument "2012-10-17" [PolicyScenario.allow_stmt]))
    by (vm_compute; reflexivity).
  exact (proj1 (proj2 (proj2
           (block_then_unblock_restores_policy
              (mkHandlerEnv PolicyScenario.env_ok no_call_fails) "u7" (Some "limit") None
              (Some PolicyScenario.usage_over) (Some "manual") (Some "admin1")
              (store_of PolicyScenario.world0) _ Hd eq_refl eq_refl eq_refl eq_refl eq_refl)))).
Defined.

(** X29. Unblocking an account that is not blocked changes nothing.  When
    the account has no policy, or a policy that does not count as blocked,
    [unblock_user_access] answers 200 with [already_unblocked = True] right
    after reading the policy: no policy, table item or history entry is
    written, nothing is sent, and no protection is granted, not even when
    the request comes from an administrator. *)
Theorem unblock_of_unblocked_account_changes_nothing env uid reason er eby s :
  call_fails env UnblockGetPolicy = false ->
  (forall d, iam_policies (world s) !! (uid, policy_name uid) = Some d ->
             is_user_blocked d = false) ->
  exists msg,
    unblock_user_access env uid reason er eby s
    = (Ok (mkUnblockResponse 200 msg true),
       mkStore (world s) (admin_protection s)
               (handler_calls s ++ [(UnblockGetPolicy, uid)])).
Proof.
  intros Hg Hnb. unfold unblock_user_access. unfold_h. cbv beta. rewrite Hg.
  cbv beta iota zeta. proj_h.
  destruct (iam_policies (world s) !! (uid, policy_name uid)) as [d|] eqn:Hd.
  - rewrite (Hnb d eq_refl). cbn [negb]. cbv iota. eexists. reflexivity.
  - eexists. reflexivity.
Qed.

Lemma unblock_of_unblocked_account_changes_nothing_witness :
  exists msg,
    unblock_user_access (mkHandlerEnv PolicyScenario.env_ok no_call_fails) "u7"
      "manual" (Some "manual") (Some "admin1") (store_of PolicyScenario.world0)
    = (Ok (mkUnblockResponse 200 msg true),
       mkStore PolicyScenario.world0 ∅ [(UnblockGetPolicy, "u7")]).
Proof.
  assert (Hn : forall d, iam_policies (world (store_of PolicyScenario.world0))
                           !! ("u7", policy_name "u7") = Some d
                         -> is_user_blocked d = false).
  { intros d Hd. vm_compute in Hd. injection Hd as <-. reflexivity. }
  exact (unblock_of_unblocked_account_changes_nothing
           (mkHandlerEnv PolicyScenario.env_ok no_call_fails) "u7" "manual" (Some "manual")
           (Some "admin1") (store_of PolicyScenario.world0) eq_refl Hn).
Defined.

(** X30. What the status check of the policy manager tells.
    [check_user_block_status] always answers and changes neither the
    stores nor the protection attribute, whatever fails: when the policy
    cannot be read it answers 500; otherwise it answers 200, whether the
    account is blocked is read from the IAM policy alone, and the block
    type, read from today's item of the usage table, is never anything but
    [Manual] or [None] ([None] also when the table cannot be read).  So
    after a block made through [block_user_access], whoever made it (also
    [system]), a check that can read the policy reports the account as
    blocked: with type [Manual] since the time of the block when the table
    was written and can be read, and with type [None] when the table
    cannot be read, or when the writes to the table failed and there was
    no item. *)
Theorem status_check_after_block env uid reason ur by_ s :
  let s1 := (lift (block_user_access (base_env env) uid reason ur by_) s).2 in
  (forall uid' s0, exists r s',
      check_user_block_status env uid' s0 = (Ok r, s')
      /\ world s' = world s0 /\ admin_protection s' = admin_protection s0
      /\ (sr_block_type r = "Manual" \/ sr_block_type r = "None")
      /\ (call_fails env StatusGetPolicy = true -> r = mkStatusReport 500 false "None" None)
      /\ (call_fails env StatusGetPolicy = false ->
          sr_statusCode r = 200
          /\ sr_is_blocked r
             = match iam_policies (world s0) !! (uid', policy_name uid') with
               | Some p => is_user_blocked p
               | None => false
               end))
  /\ (fails (base_env env) GetUserPolicy = false ->
      fails (base_env env) PutUserPolicy = false ->
      fails (base_env env) CreateUserPolicy = false ->
      (forall d, iam_policies (world s) !! (uid, policy_name uid) = Some d ->
                 is_user_blocked d = false) ->
      call_fails env StatusGetPolicy = false ->
      (call_fails env StatusGetItem = false ->
       fails (base_env env) DynamoGet = false ->
       fails (base_env env) DynamoPut = false ->
       fails (base_env env) DynamoUpdate = false ->
       fails (base_env env) DynamoSetPerformedBy = false ->
       (check_user_block_status env uid s1).1
       = Ok (mkStatusReport 200 true "Manual" (Some (utcnow (base_env env)))))
      /\ (call_fails env StatusGetItem = true ->
          (check_user_block_status env uid s1).1 = Ok (mkStatusReport 200 true "None" None))
      /\ (call_fails env StatusGetItem = false ->
          fails (base_env env) DynamoPut = true ->
          fails (base_env env) DynamoUpdate = true ->
          fails (base_env env) DynamoSetPerformedBy = true ->
          table (world s) !! (uid, today (base_env env)) = None ->
          (check_user_block_status env uid s1).1
          = Ok (mkStatusReport 200 true "None" None))).
Proof.
  intros s1. subst s1. split.
  { intros uid' s0. unfold check_user_block_status. unfold_h. cbv beta.
    destruct (call_fails env StatusGetPolicy); cbv beta iota zeta; proj_h.
    { eexists _, _. split; [reflexivity|]. split; [reflexivity|]. split; [reflexivity|].
      split; [now right|]. split; [reflexivity|discriminate]. }
    destruct (match iam_policies (world s0) !! (uid', policy_name uid') with
              | Some p => is_user_blocked p | None => false end); cbv beta iota zeta.
    - destruct (call_fails env StatusGetItem); cbv beta iota zeta; proj_h.
      { eexists _, _. split; [reflexivity|]. split; [reflexivity|]. split; [reflexivity|].
        split; [now right|]. split; [discriminate|]. intros _. split; reflexivity. }
      destruct (table (world s0) !! (uid', today (base_env env))) as [it|];
        cbv beta iota zeta; [destruct (Py.opt_eqb (status it) "BLOCKED")|];
        eexists _, _; (split; [reflexivity|]); (split; [reflexivity|]);
        (split; [reflexivity|]); (split; [cbn; tauto|]);
        (split; [discriminate|]); intros _; split; reflexivity.
    - eexists _, _. split; [reflexivity|]. split; [reflexivity|]. split; [reflexivity|].
      split; [now right|]. split; [discriminate|]. intros _. split; reflexivity. }
  intros Hg Hp Hc Hnb Hsg.
  destruct (block_user_access_run (base_env env) uid reason ur by_ (world s) Hg Hp
              (fun _ => Hc) Hnb)
    as (w0 & w1 & w2 & w' & T0 & E1 & E2 & E & I & T & _).
  rewrite (lift_run _ s _ _ E). cbn [snd].
  destruct (dynamo_block_steps_run (base_env env) uid reason (default "system" by_)
              (block_expires_at (base_env env) (default "system" by_)) w0)
    as (w1' & w2' & E1' & E2' & _ & _ & _ & _ & _ & Dok & Dfail & _).
  rewrite E1 in E1'. injection E1' as <-. rewrite E2 in E2'. injection E2' as <-.
  assert (Hpol : iam_policies w' !! (uid, policy_name uid)
                 = Some (add_deny_statement
                           (default base_policy (iam_policies (world s) !! (uid, policy_name uid)))
                           create_deny_statement))
    by (now rewrite I, lookup_insert_eq).
  split; [|split].
  - intros Hsi G P U S. specialize (Dok G P U S). rewrite <- T in Dok.
    unfold check_user_block_status. unfold_h. cbv beta. rewrite Hsg.
    cbv beta iota zeta. proj_h. rewrite Hpol.
    change (is_user_blocked (add_deny_statement _ create_deny_statement)) with true.
    cbv beta iota zeta. rewrite Hsi. cbv beta iota zeta. proj_h. rewrite Dok.
    destruct (table w0 !! (uid, today (base_env env))); reflexivity.
  - intros Hsi.
    unfold check_user_block_status. unfold_h. cbv beta. rewrite Hsg.
    cbv beta iota zeta. proj_h. rewrite Hpol.
    change (is_user_blocked (add_deny_statement _ create_deny_statement)) with true.
    cbv beta iota zeta. rewrite Hsi. reflexivity.
  - intros Hsi P U S Hnone. specialize (Dfail P U S). rewrite <- T, T0 in Dfail.
    unfold check_user_block_status. unfold_h. cbv beta. rewrite Hsg.
    cbv beta iota zeta. proj_h. rewrite Hpol.
    change (is_user_blocked (add_deny_statement _ create_deny_statement)) with true.
    cbv beta iota zeta. rewrite Hsi. cbv beta iota zeta. proj_h.
    rewrite Dfail, Hnone. reflexivity.
Qed.

Lemma status_check_after_block_witness :
  (check_user_block_status (mkHandlerEnv PolicyScenario.env_ok no_call_fails) "u7"
     (lift (block_user_access PolicyScenario.env_ok "u7" "Daily limit exceeded"
              PolicyScenario.usage_over None) (store_of PolicyScenario.world0)).2).1
  = Ok (mkStatusReport 200 true "Manual" (Some (utcnow PolicyScenario.env_ok))).
Proof.
  assert (Hn : forall d, iam_policies (world (store_of PolicyScenario.world0))
                           !! ("u7", policy_name "u7") = Some d
                         -> is_user_blocked d = false).
  { intros d Hd. vm_compute in Hd. injection Hd as <-. reflexivity. }
  exact (proj1 (proj2
           (status_check_after_block (mkHandlerEnv PolicyScenario.env_ok no_call_fails) "u7"
              "Daily limit exceeded" PolicyScenario.usage_over None
              (store_of PolicyScenario.world0)) eq_refl eq_refl eq_refl Hn eq_refl)
           eq_refl eq_refl eq_refl eq_refl eq_refl).
Defined.

End PolicyManagerHandlersFacts.
